(** * Brazil agricultural data service: cache, fallback tables and persistence

    A shallow embedding of [data_service.py] (class [BrazilAgDataService])
    and the properties its specification states about it.

    Layout:
    - [PyNum]: the numbers of the Python runtime the service computes with
      (unbounded [int], binary64 [float]) and the builtins [round], [sum],
      true division;
    - [PyVal]: dynamically typed values, dict literals as association
      lists, slicing and truthiness;
    - [Datetime]: naive timestamps with [isoformat] / [fromisoformat];
    - the service itself: state, the effect monad (clock reads, exceptions,
      the cache file), the fallback tables and every operation;
    - [Models]: the response models of [models.py] and what it takes for
      a value to have the shape a model declares;
    - [Main]: the routes of [main.py], which wrap the operations;
    - the theorems. *)

From Stdlib Require Import ZArith String Ascii List Bool Lia.
From Stdlib Require Import Floats.
From stdpp Require Import gmap strings pretty.

Set Warnings "-inexact-float,-register-all".

Local Open Scope Z_scope.

(** ** Exceptions and fallible results *)

Inductive exn : Type :=
| TypeError
| ZeroDivisionError
| OverflowError
| KeyError
| IndexError
| ValueError
| AttributeError.

Inductive result (A : Type) : Type :=
| Ok (a : A)
| Raise (e : exn).

Arguments Ok {A} a.
Arguments Raise {A} e.

Definition rbind {A B : Type} (r : result A) (k : A -> result B) : result B :=
  match r with
  | Ok a => k a
  | Raise e => Raise e
  end.

Definition is_ok {A : Type} (r : result A) : bool :=
  match r with Ok _ => true | Raise _ => false end.

Declare Scope result_scope.
Delimit Scope result_scope with res.
Notation "'let*' x ':=' r 'in' k" := (rbind r (fun x => k))
  (at level 10, x name, r at level 200, k at level 200,
   format "'[v' 'let*'  x  ':='  r  'in' '/' k ']'") : result_scope.

(** [[f(i, x) for i, x in enumerate(xs, start)]], stopping at the first
    exception. *)
Fixpoint rmapi {A B : Type} (f : nat -> A -> result B) (start : nat) (xs : list A)
  : result (list B) :=
  match xs with
  | [] => Ok []
  | x :: xs' =>
      (let* y := f start x in
       let* ys := rmapi f (S start) xs' in
       Ok (y :: ys))%res
  end.

(** ** Python numbers *)

Module PyNum.

(** [float] is IEEE 754 binary64, which is what Rocq's primitive floats
    are; [+], [-], [*] and [/] on two floats are the primitive
    operations. What needs a model is everything that goes through exact
    integers: [float(int)], [int / int] and [round(x, n)]. All three
    are correctly rounded (to nearest, ties to even) in CPython. *)

(** [nearest_float n d], for [d > 0]: the float nearest to the rational
    [n / d]. The quotient is computed with at least two bits more than
    the format holds and a sticky last bit (rounding to odd), which
    [binary_normalize] then rounds to nearest even; the spare bits make
    the double rounding exact, also in the subnormal range. *)
Definition nearest_float (n d : Z) : float :=
  let a := Z.abs n in
  let k := Z.max 0 (56 + Z.log2 d - Z.log2 a) in
  let q := (a * 2 ^ k) / d in
  let sticky := negb ((a * 2 ^ k) mod d =? 0) in
  let m := if sticky then Z.lor q 1 else q in
  SF2Prim (binary_normalize prec emax (if n <? 0 then - m else m) (- k) (n <? 0)).

(** A float as an exact rational: [Some (n, d)] with value [n / d],
    [d > 0]; [None] for infinities and NaN. *)
Definition exact_value (f : float) : option (Z * Z) :=
  match Prim2SF f with
  | S754_zero _ => Some (0, 1)
  | S754_finite s m e =>
      let sm := if s then Z.neg m else Z.pos m in
      if 0 <=? e then Some (sm * 2 ^ e, 1) else Some (sm, 2 ^ (- e))
  | S754_infinity _ | S754_nan => None
  end.

Definition is_finite (f : float) : bool :=
  match Prim2SF f with
  | S754_zero _ | S754_finite _ _ _ => true
  | _ => false
  end.

(** [float(z)]; CPython raises [OverflowError] when [z] is beyond the
    largest float. *)
Definition float_of_int (z : Z) : result float :=
  let f := nearest_float z 1 in
  if is_finite f then Ok f else Raise OverflowError.

(** Round a non-negative rational [n / d] to the nearest integer, ties
    to the even one. *)
Definition round_half_even (n d : Z) : Z :=
  let q := n / d in
  let r := n mod d in
  match 2 * r ?= d with
  | Lt => q
  | Gt => q + 1
  | Eq => if Z.even q then q else q + 1
  end.

(** [round(x, ndigits)] on a float: [float.__round__] prints [x]
    correctly rounded to [ndigits] decimals and reads the decimal
    string back. Non-finite values and zeros are returned as they
    are; the sign survives a result of zero. *)
Definition round_float (x : float) (ndigits : Z) : result float :=
  match exact_value x with
  | None => Ok x
  | Some (n, d) =>
      if n =? 0 then Ok x
      else
        let neg := n <? 0 in
        let a := Z.abs n in
        let r :=
          if 0 <=? ndigits
          then round_half_even (a * 10 ^ ndigits) d
          else round_half_even a (d * 10 ^ (- ndigits)) in
        let y :=
          if r =? 0 then (if neg then neg_zero else zero)
          else if 0 <=? ndigits
               then nearest_float (if neg then - r else r) (10 ^ ndigits)
               else nearest_float ((if neg then - r else r) * 10 ^ (- ndigits)) 1 in
        if is_finite y then Ok y else Raise OverflowError
  end.

(** Numbers as the arithmetic operators see them. *)
Inductive num : Type :=
| NInt (z : Z)
| NFloat (f : float).

Definition to_float (x : num) : result float :=
  match x with
  | NInt z => float_of_int z
  | NFloat f => Ok f
  end.

Definition float_binop (op : float -> float -> float) (x y : num) : result num :=
  (let* a := to_float x in let* b := to_float y in Ok (NFloat (op a b)))%res.

Definition add (x y : num) : result num :=
  match x, y with
  | NInt a, NInt b => Ok (NInt (a + b))
  | _, _ => float_binop PrimFloat.add x y
  end.

Definition sub (x y : num) : result num :=
  match x, y with
  | NInt a, NInt b => Ok (NInt (a - b))
  | _, _ => float_binop PrimFloat.sub x y
  end.

Definition mul (x y : num) : result num :=
  match x, y with
  | NInt a, NInt b => Ok (NInt (a * b))
  | _, _ => float_binop PrimFloat.mul x y
  end.

(** [x / y]: true division. Two ints are divided exactly and rounded
    once; a zero divisor of either type raises. *)
Definition truediv (x y : num) : result num :=
  match x, y with
  | NInt a, NInt b =>
      if b =? 0 then Raise ZeroDivisionError
      else
        let f := if b <? 0 then nearest_float (- a) (- b) else nearest_float a b in
        if is_finite f then Ok (NFloat f) else Raise OverflowError
  | _, _ =>
      (let* a := to_float x in
       let* b := to_float y in
       if PrimFloat.eqb b zero then Raise ZeroDivisionError
       else Ok (NFloat (PrimFloat.div a b)))%res
  end.

(** [round(x, ndigits)] with [ndigits] given: an int is rounded to a
    multiple of [10 ^ -ndigits] (itself when [ndigits >= 0]) and stays
    an int. *)
Definition round (x : num) (ndigits : Z) : result num :=
  match x with
  | NInt z =>
      if 0 <=? ndigits then Ok (NInt z)
      else
        let p := 10 ^ (- ndigits) in
        let r := round_half_even (Z.abs z) p * p in
        Ok (NInt (if z <? 0 then - r else r))
  | NFloat f => (let* y := round_float f ndigits in Ok (NFloat y))%res
  end.

(** Truth value of a number: anything but zero (NaN is true). *)
Definition truthy (x : num) : bool :=
  match x with
  | NInt z => negb (z =? 0)
  | NFloat f => negb (PrimFloat.eqb f zero)
  end.

End PyNum.


(** ** Naive timestamps *)

Module Datetime.

(** A [datetime.datetime] without time zone, as [datetime.now()] returns
    it. Python's constructor keeps every field in range, see [valid]. *)
Record t : Type := mk {
  year : Z;
  month : Z;
  day : Z;
  hour : Z;
  minute : Z;
  second : Z;
  microsecond : Z
}.

Definition is_leap (y : Z) : bool :=
  ((y mod 4 =? 0) && negb (y mod 100 =? 0)) || (y mod 400 =? 0).

Definition days_in_month (y m : Z) : Z :=
  if m =? 2 then (if is_leap y then 29 else 28)
  else if (m =? 4) || (m =? 6) || (m =? 9) || (m =? 11) then 30
  else 31.

Definition in_range (lo x hi : Z) : bool := (lo <=? x) && (x <=? hi).

(** The range check of the [datetime] constructor. *)
Definition valid (d : t) : bool :=
  in_range 1 (year d) 9999 &&
  in_range 1 (month d) 12 &&
  in_range 1 (day d) (days_in_month (year d) (month d)) &&
  in_range 0 (hour d) 23 &&
  in_range 0 (minute d) 59 &&
  in_range 0 (second d) 59 &&
  in_range 0 (microsecond d) 999999.

Definition digit_char (d : Z) : ascii := ascii_of_nat (48 + Z.to_nat d).

Definition digit_val (c : ascii) : option Z :=
  let n := Z.of_nat (nat_of_ascii c) in
  if (48 <=? n) && (n <=? 57) then Some (n - 48) else None.

(** ["%0wd" % n] for [0 <= n < 10 ^ w]: exactly [w] digits, most
    significant first. *)
Fixpoint fixed_digits (w : nat) (n : Z) : string :=
  match w with
  | O => EmptyString
  | S w' => String (digit_char ((n / 10 ^ Z.of_nat w') mod 10)) (fixed_digits w' n)
  end.

(** [datetime.isoformat()]: [YYYY-MM-DDTHH:MM:SS], followed by
    [.ffffff] when the microsecond field is not zero. *)
Definition isoformat (d : t) : string :=
  (fixed_digits 4 (year d) +:+ "-" +:+ fixed_digits 2 (month d) +:+ "-" +:+
   fixed_digits 2 (day d) +:+ "T" +:+
   fixed_digits 2 (hour d) +:+ ":" +:+ fixed_digits 2 (minute d) +:+ ":" +:+
   fixed_digits 2 (second d) +:+
   (if Z.eqb (microsecond d) 0 then "" else "." +:+ fixed_digits 6 (microsecond d)))%string.

(** Read exactly [w] decimal digits off the front of [s]. *)
Fixpoint parse_digits (w : nat) (s : string) (acc : Z) : option (Z * string) :=
  match w with
  | O => Some (acc, s)
  | S w' =>
      match s with
      | String c s' =>
          match digit_val c with
          | Some d => parse_digits w' s' (acc * 10 + d)
          | None => None
          end
      | EmptyString => None
      end
  end.

Definition expect (c : ascii) (s : string) : option string :=
  match s with
  | String c' s' => if Ascii.eqb c c' then Some s' else None
  | EmptyString => None
  end.

(** The fraction after the seconds: [.fff] (milliseconds) or
    [.ffffff]. *)
Definition parse_fraction (s : string) : option Z :=
  match expect "." s with
  | None => None
  | Some s1 =>
      match parse_digits 3 s1 0 with
      | Some (ms, EmptyString) => Some (ms * 1000)
      | Some (ms, s2) =>
          match parse_digits 3 s2 ms with
          | Some (us, EmptyString) => Some us
          | _ => None
          end
      | None => None
      end
  end.

(** The time part [HH[:MM[:SS[.fff[fff]]]]]. *)
Definition parse_time (s : string) : option (Z * Z * Z * Z) :=
  match parse_digits 2 s 0 with
  | Some (h, EmptyString) => Some (h, 0, 0, 0)
  | Some (h, s1) =>
      match expect ":" s1 with
      | Some s2 =>
          match parse_digits 2 s2 0 with
          | Some (mi, EmptyString) => Some (h, mi, 0, 0)
          | Some (mi, s3) =>
              match expect ":" s3 with
              | Some s4 =>
                  match parse_digits 2 s4 0 with
                  | Some (se, EmptyString) => Some (h, mi, se, 0)
                  | Some (se, s5) =>
                      match parse_fraction s5 with
                      | Some us => Some (h, mi, se, us)
                      | None => None
                      end
                  | None => None
                  end
              | None => None
              end
          | None => None
          end
      | None => None
      end
  | None => None
  end.

Definition parse_date (s : string) : option (Z * Z * Z * string) :=
  match parse_digits 4 s 0 with
  | Some (y, s1) =>
      match expect "-" s1 with
      | Some s2 =>
          match parse_digits 2 s2 0 with
          | Some (m, s3) =>
              match expect "-" s3 with
              | Some s4 =>
                  match parse_digits 2 s4 0 with
                  | Some (d, s5) => Some (y, m, d, s5)
                  | None => None
                  end
              | None => None
              end
          | None => None
          end
      | None => None
      end
  | None => None
  end.

(** [datetime.fromisoformat] on the naive timestamps of its grammar:
    [YYYY-MM-DD], optionally one separator character and a time; the
    fields are then range-checked by the constructor. A string with a
    UTC offset denotes an aware datetime, which this service never
    writes; the model has no value for it and rejects the string. *)
Definition fromisoformat (s : string) : result t :=
  match parse_date s with
  | Some (y, m, d, rest) =>
      let fields :=
        match rest with
        | EmptyString => Some (0, 0, 0, 0)
        | String _ tm => parse_time tm
        end in
      match fields with
      | Some (h, mi, se, us) =>
          let r := mk y m d h mi se us in
          if valid r then Ok r else Raise ValueError
      | None => Raise ValueError
      end
  | None => Raise ValueError
  end.

End Datetime.

Abbreviation datetime := Datetime.t.

(** ** Python values *)

(** What the service stores, computes and returns: JSON-like values and
    timestamps. A [dict] is an association list in insertion order, with
    string keys (all the service builds). *)
Inductive pyval : Type :=
| PyNone
| PyBool (b : bool)
| PyInt (z : Z)
| PyFloat (f : float)
| PyStr (s : string)
| PyList (l : list pyval)
| PyDict (d : list (string * pyval))
| PyDatetime (t : datetime).

Module PyVal.

Import PyNum.

(** Numeric view of a value; [bool] is a subclass of [int]. *)
Definition as_num (v : pyval) : result num :=
  match v with
  | PyInt z => Ok (NInt z)
  | PyBool b => Ok (NInt (if b then 1 else 0))
  | PyFloat f => Ok (NFloat f)
  | _ => Raise TypeError
  end.

Definition of_num (x : num) : pyval :=
  match x with
  | NInt z => PyInt z
  | NFloat f => PyFloat f
  end.

Definition arith (op : num -> num -> result num) (v w : pyval) : result pyval :=
  (let* a := as_num v in
   let* b := as_num w in
   let* c := op a b in
   Ok (of_num c))%res.

(** The operators on the numeric operands the service applies them to;
    a non-numeric operand is a [TypeError] (sequence concatenation and
    repetition are never reached: no operand of the service's [+] and
    [*] is a sequence unless the cache file was edited by hand). *)
Definition add := arith PyNum.add.
Definition sub := arith PyNum.sub.
Definition mul := arith PyNum.mul.
Definition truediv := arith PyNum.truediv.

Definition round (v : pyval) (ndigits : Z) : result pyval :=
  (let* a := as_num v in
   let* r := PyNum.round a ndigits in
   Ok (of_num r))%res.

(** Truth value testing. *)
Definition truthy (v : pyval) : bool :=
  match v with
  | PyNone => false
  | PyBool b => b
  | PyInt z => PyNum.truthy (NInt z)
  | PyFloat f => PyNum.truthy (NFloat f)
  | PyStr s => negb (String.eqb s "")
  | PyList l => match l with [] => false | _ => true end
  | PyDict d => match d with [] => false | _ => true end
  | PyDatetime _ => true
  end.

(** [a or b]. *)
Definition or_else (a b : pyval) : pyval := if truthy a then a else b.

(** [sum(xs)]: starts from the int [0] and adds from the left. *)
Fixpoint sum_from (acc : pyval) (xs : list pyval) : result pyval :=
  match xs with
  | [] => Ok acc
  | x :: xs' => (let* acc' := add acc x in sum_from acc' xs')%res
  end.

Definition sum (xs : list pyval) : result pyval := sum_from (PyInt 0) xs.

(** [sum(f(x) for x in xs)]: the generator computes each term when
    the sum asks for it. *)
Fixpoint sum_gen_from (f : pyval -> result pyval) (acc : pyval) (xs : list pyval)
  : result pyval :=
  match xs with
  | [] => Ok acc
  | x :: xs' =>
      (let* v := f x in
       let* acc' := add acc v in
       sum_gen_from f acc' xs')%res
  end.

Definition sum_gen (f : pyval -> result pyval) (xs : list pyval) : result pyval :=
  sum_gen_from f (PyInt 0) xs.

(** Lookup in a dict held as an association list. *)
Fixpoint assoc {V : Type} (k : string) (d : list (string * V)) : option V :=
  match d with
  | [] => None
  | (k', v) :: d' => if String.eqb k k' then Some v else assoc k d'
  end.

(** [d[k] = v]: replaces in place, or appends a new key. *)
Fixpoint assoc_set {V : Type} (k : string) (v : V) (d : list (string * V))
  : list (string * V) :=
  match d with
  | [] => [(k, v)]
  | (k', v') :: d' =>
      if String.eqb k k' then (k, v) :: d' else (k', v') :: assoc_set k v d'
  end.

(** [row.get(k, default)]; only a dict has [get]. *)
Definition get (row : pyval) (k : string) (default : pyval) : result pyval :=
  match row with
  | PyDict d => Ok (match assoc k d with Some v => v | None => default end)
  | _ => Raise AttributeError
  end.

(** [row[k] = v] with a string key. *)
Definition setitem (row : pyval) (k : string) (v : pyval) : result pyval :=
  match row with
  | PyDict d => Ok (PyDict (assoc_set k v d))
  | _ => Raise TypeError
  end.

(** [row[k]] on a dict. *)
Definition getitem (row : pyval) (k : string) : result pyval :=
  match row with
  | PyDict d => match assoc k d with Some v => Ok v | None => Raise KeyError end
  | _ => Raise TypeError
  end.

(** Start index of the slice [l[start:]] for a sequence of length [len]. *)
Definition clamp_index (len i : Z) : nat :=
  Z.to_nat (if i <? 0 then Z.max (len + i) 0 else Z.min i len).

(** [l[start:]] and [l[:stop]]. *)
Definition slice_from {A : Type} (l : list A) (start : Z) : list A :=
  drop (clamp_index (Z.of_nat (length l)) start) l.

Definition slice_to {A : Type} (l : list A) (stop : Z) : list A :=
  take (clamp_index (Z.of_nat (length l)) stop) l.

(** [l[i]] with a non-negative index. *)
Definition index {A : Type} (l : list A) (i : nat) : result A :=
  match l !! i with
  | Some x => Ok x
  | None => Raise IndexError
  end.

(** [len(v)]. Text is held as UTF-8 bytes here, so the length of a
    [str] is its number of characters for ASCII text. *)
Definition len (v : pyval) : result Z :=
  match v with
  | PyList l => Ok (Z.of_nat (length l))
  | PyDict d => Ok (Z.of_nat (length d))
  | PyStr s => Ok (Z.of_nat (String.length s))
  | _ => Raise TypeError
  end.

(** [v[start:]]: lists and strings can be sliced. *)
Definition slice_from_val (v : pyval) (start : Z) : result pyval :=
  match v with
  | PyList l => Ok (PyList (slice_from l start))
  | PyStr s =>
      Ok (PyStr (string_of_list_ascii (slice_from (list_ascii_of_string s) start)))
  | _ => Raise TypeError
  end.

(** The elements [for x in v] visits. *)
Definition iter (v : pyval) : result (list pyval) :=
  match v with
  | PyList l => Ok l
  | PyDict d => Ok (map (fun kv => PyStr (fst kv)) d)
  | PyStr s => Ok (map (fun c => PyStr (String c EmptyString)) (list_ascii_of_string s))
  | _ => Raise TypeError
  end.

(** What [json.dump] accepts: everything but timestamps. *)
Fixpoint json_serializable (v : pyval) : bool :=
  match v with
  | PyList l => forallb json_serializable l
  | PyDict d => forallb (fun kv => json_serializable (snd kv)) d
  | PyDatetime _ => false
  | _ => true
  end.

End PyVal.

(** ** Configuration *)

Local Open Scope string_scope.
Local Open Scope float_scope.

Definition NCM_CODES : list (string * string) :=
  [("soybeans", "1201"); ("corn", "1005"); ("soy_meal", "2304");
   ("soy_oil", "1507"); ("wheat", "1001")].

Definition MONTH_NAMES : list string :=
  ["Jan"; "Feb"; "Mar"; "Apr"; "May"; "Jun";
   "Jul"; "Aug"; "Sep"; "Oct"; "Nov"; "Dec"].

(** ** Fallback tables *)

(** One row of the balance sheet literal. *)
Definition balance_row (y : string) (os p i c e es : float) : pyval :=
  PyDict [("year", PyStr y); ("openingStock", PyFloat os);
          ("production", PyFloat p); ("imports", PyFloat i);
          ("consumption", PyFloat c); ("exports", PyFloat e);
          ("endingStock", PyFloat es)].

(** The same literal with the trailing ["isProjection": True]. *)
Definition balance_row_proj (y : string) (os p i c e es : float) : pyval :=
  PyDict [("year", PyStr y); ("openingStock", PyFloat os);
          ("production", PyFloat p); ("imports", PyFloat i);
          ("consumption", PyFloat c); ("exports", PyFloat e);
          ("endingStock", PyFloat es); ("isProjection", PyBool true)].

Definition balance_sheet_table : list (string * list pyval) :=
  [("soybeans",
    [balance_row "2020/21" 2.5 135.9 0.4 48.8 86.1 3.9;
     balance_row "2021/22" 3.9 125.5 0.3 51.4 78.7 (-0.4);
     balance_row "2022/23" (-0.4) 154.6 0.2 53.9 98.0 2.5;
     balance_row "2023/24" 2.5 147.4 0.3 55.8 92.4 2.0;
     balance_row "2024/25" 7.231 171.481 0.969 60.769 108.181 10.731;
     balance_row_proj "2025/26" 10.731 176.124 0.500 64.266 111.791 11.298]);
   ("corn",
    [balance_row "2020/21" 11.2 87.1 3.1 71.5 20.8 9.1;
     balance_row "2021/22" 9.1 113.1 1.8 77.0 44.7 2.3;
     balance_row "2022/23" 2.3 131.9 1.6 83.0 52.0 0.8;
     balance_row "2023/24" 0.8 115.7 1.5 86.5 32.5 (-1.0);
     balance_row "2024/25" (-1.0) 139.7 1.2 90.5 40.0 9.4;
     balance_row_proj "2025/26" 9.4 138.8 1.0 94.5 46.5 8.2]);
   ("soy_meal",
    [balance_row "2024/25" 3.367 44.044 0.0 19.500 23.300 4.611;
     balance_row_proj "2025/26" 4.611 46.620 0.001 20.300 24.696 6.236]);
   ("soy_oil",
    [balance_row "2024/25" 0.465 11.426 0.105 10.318 1.363 0.316;
     balance_row_proj "2025/26" 0.316 12.155 0.100 10.811 1.400 0.360]);
   ("wheat",
    [balance_row "2023/24" 0.8 8.1 5.5 12.5 0.3 1.6;
     balance_row "2024/25" 1.6 7.9 5.8 12.8 0.2 2.3;
     balance_row_proj "2025/26" 2.3 8.5 5.5 13.0 0.3 3.0])].

(** [_get_balance_sheet_fallback]: [data.get(commodity, [])]. *)
Definition _get_balance_sheet_fallback (commodity : string) : list pyval :=
  match PyVal.assoc commodity balance_sheet_table with
  | Some rows => rows
  | None => []
  end.

(** The seasonal patterns of [_get_monthly_exports_fallback], by
    commodity and year. *)
Definition export_patterns : list (string * list (Z * list float)) :=
  [("soybeans",
    [(2024%Z, [1.8; 5.2; 12.8; 14.2; 14.8; 13.2; 10.8; 9.2; 7.8; 5.2; 3.6; 2.0]);
     (2025%Z, [2.1; 6.0; 13.5; 15.0; 15.5; 13.8; 11.2; 9.6; 8.2; 5.8; 4.0; 2.2])]);
   ("corn",
    [(2024%Z, [3.8; 3.2; 1.8; 1.0; 0.6; 0.8; 3.5; 7.5; 8.5; 7.0; 5.5; 4.0]);
     (2025%Z, [4.0; 3.5; 2.0; 1.2; 0.8; 1.0; 4.0; 8.0; 9.0; 7.5; 6.0; 4.5])]);
   ("soy_meal",
    [(2024%Z, [1.8; 1.9; 2.0; 2.1; 2.0; 1.9; 1.8; 1.9; 2.0; 2.1; 2.0; 1.8]);
     (2025%Z, [1.9; 2.0; 2.1; 2.2; 2.1; 2.0; 1.9; 2.0; 2.1; 2.2; 2.1; 1.9])]);
   ("soy_oil",
    [(2024%Z, [0.10; 0.11; 0.12; 0.13; 0.12; 0.11; 0.10; 0.11; 0.12; 0.13; 0.12; 0.10]);
     (2025%Z, [0.11; 0.12; 0.13; 0.14; 0.13; 0.12; 0.11; 0.12; 0.13; 0.14; 0.13; 0.11])])].

(** Lookup in a dict literal with int keys. *)
Fixpoint assoc_int {V : Type} (k : Z) (d : list (Z * V)) : option V :=
  match d with
  | [] => None
  | (k', v) :: d' => if Z.eqb k k' then Some v else assoc_int k d'
  end.

(** [patterns.get(commodity, {}).get(year, [5.0] * 12)]. *)
Definition export_volumes (commodity : string) (year : Z) : list float :=
  let by_year :=
    match PyVal.assoc commodity export_patterns with
    | Some d => d
    | None => []
    end in
  match assoc_int year by_year with
  | Some vols => vols
  | None => replicate 12 5.0
  end.

Definition production_row (cy : string) (a p y : float) : pyval :=
  PyDict [("cropYear", PyStr cy); ("areaMha", PyFloat a);
          ("productionMmt", PyFloat p); ("yieldMtHa", PyFloat y)].

Definition production_row_proj (cy : string) (a p y : float) : pyval :=
  PyDict [("cropYear", PyStr cy); ("areaMha", PyFloat a);
          ("productionMmt", PyFloat p); ("yieldMtHa", PyFloat y);
          ("isProjection", PyBool true)].

Definition production_table : list (string * list pyval) :=
  [("soybeans",
    [production_row "2015/16" 33.3 95.4 2.87;
     production_row "2016/17" 33.9 114.1 3.36;
     production_row "2017/18" 35.1 119.3 3.40;
     production_row "2018/19" 35.9 115.0 3.21;
     production_row "2019/20" 36.9 124.8 3.38;
     production_row "2020/21" 38.5 135.9 3.53;
     production_row "2021/22" 41.0 125.5 3.06;
     production_row "2022/23" 43.2 154.6 3.58;
     production_row "2023/24" 45.1 147.4 3.27;
     production_row "2024/25" 47.4 171.5 3.62;
     production_row_proj "2025/26" 48.9 176.1 3.60]);
   ("corn",
    [production_row "2015/16" 15.9 64.1 4.03;
     production_row "2016/17" 17.6 97.8 5.56;
     production_row "2017/18" 16.6 80.7 4.86;
     production_row "2018/19" 17.5 100.0 5.71;
     production_row "2019/20" 18.5 102.5 5.54;
     production_row "2020/21" 19.8 87.1 4.40;
     production_row "2021/22" 21.4 113.1 5.29;
     production_row "2022/23" 22.0 131.9 5.99;
     production_row "2023/24" 20.7 115.7 5.59;
     production_row "2024/25" 22.2 139.7 6.29;
     production_row_proj "2025/26" 22.7 138.8 6.12])].

(** [_get_production_fallback]: [data.get(commodity, [])]. *)
Definition _get_production_fallback (commodity : string) : list pyval :=
  match PyVal.assoc commodity production_table with
  | Some rows => rows
  | None => []
  end.

(** Prices in BRL per 60 kg bag, by commodity and location; Python ints. *)
Definition price_table : list (string * list (string * list Z)) :=
  [("soybeans",
    [("MT", [130; 126; 119; 115; 113; 111; 108; 113; 119; 125; 131; 133]%Z);
     ("PR", [140; 136; 129; 125; 123; 121; 118; 123; 129; 135; 141; 143]%Z);
     ("Paranaguá", [150; 146; 139; 135; 133; 131; 128; 133; 139; 145; 151; 153]%Z)]);
   ("corn",
    [("MT", [58; 56; 50; 49; 46; 45; 43; 46; 48; 53; 57; 59]%Z);
     ("PR", [68; 65; 59; 58; 55; 54; 52; 55; 57; 62; 66; 68]%Z)]);
   ("wheat",
    [("PR", [88; 85; 82; 80; 78; 77; 79; 82; 85; 88; 91; 93]%Z)])].

Definition destination_row (code name : string) (share vol : float) : pyval :=
  PyDict [("countryCode", PyStr code); ("countryName", PyStr name);
          ("sharePct", PyFloat share); ("volumeMmt", PyFloat vol)].

Definition destinations_literal : list pyval :=
  [destination_row "160" "China" 76.5 82.5;
   destination_row "270" "Spain" 3.8 4.1;
   destination_row "764" "Thailand" 2.9 3.1;
   destination_row "573" "Netherlands" 2.0 2.2;
   destination_row "792" "Turkey" 1.9 2.0;
   destination_row "399" "Japan" 1.5 1.6;
   destination_row "364" "Iran" 1.4 1.5;
   destination_row "220" "Egypt" 1.1 1.2;
   destination_row "586" "Pakistan" 1.0 1.1;
   destination_row "000" "Others" 7.9 8.5].

Definition port_row (name state : string) (vol share : float) : pyval :=
  PyDict [("portName", PyStr name); ("state", PyStr state);
          ("volumeMmt", PyFloat vol); ("sharePct", PyFloat share)].

Definition ports_literal : list pyval :=
  [port_row "Santos" "SP" 34.5 32.0;
   port_row "Paranaguá" "PR" 19.4 18.0;
   port_row "Rio Grande" "RS" 15.1 14.0;
   port_row "São Luís" "MA" 12.9 12.0;
   port_row "Barcarena" "PA" 9.7 9.0;
   port_row "São Francisco do Sul" "SC" 7.5 7.0;
   port_row "Others" "-" 8.6 8.0].

Definition soy_complex_row (safra : string) (ei p i s c e ef : float) : pyval :=
  PyDict [("safra", PyStr safra); ("estoque_inicial", PyFloat ei);
          ("producao", PyFloat p); ("importacao", PyFloat i);
          ("suprimento", PyFloat s); ("consumo", PyFloat c);
          ("exportacao", PyFloat e); ("estoque_final", PyFloat ef)].

Definition soja_graos : list pyval :=
  [soy_complex_row "2024/25" 7231.3 171480.5 968.6 179680.4 60768.8 108181.1 10730.6;
   soy_complex_row "2025/26" 10730.6 176124.4 500.0 187355.0 64265.9 111790.8 11298.2].

Definition farelo : list pyval :=
  [soy_complex_row "2024/25" 3367.3 44043.9 0.1 47411.3 19500.0 23300.4 4610.9;
   soy_complex_row "2025/26" 4610.9 46620.3 1.0 51232.3 20300.0 24696.0 6236.3].

Definition oleo : list pyval :=
  [soy_complex_row "2024/25" 465.2 11426.0 105.2 11996.5 10318.0 1362.9 315.6;
   soy_complex_row "2025/26" 315.6 12155.3 100.0 12570.9 10811.0 1400.0 359.9].

Definition survey_data : pyval :=
  PyDict [("2025/26", PyList
    [PyDict [("survey", PyInt 1); ("month", PyStr "Oct 2025");
             ("soybeans", PyFloat 177.6); ("corn", PyFloat 138.6);
             ("total", PyFloat 354.7)];
     PyDict [("survey", PyInt 2); ("month", PyStr "Nov 2025");
             ("soybeans", PyFloat 177.6); ("corn", PyFloat 138.8);
             ("total", PyFloat 355.1)];
     PyDict [("survey", PyInt 3); ("month", PyStr "Dec 2025");
             ("soybeans", PyFloat 177.1); ("corn", PyFloat 138.8);
             ("total", PyFloat 354.5)];
     PyDict [("survey", PyInt 4); ("month", PyStr "Jan 2026");
             ("soybeans", PyFloat 176.1); ("corn", PyFloat 138.8);
             ("total", PyFloat 354.0); ("isCurrent", PyBool true)]])].

Local Close Scope float_scope.

(** ** Service state *)

(** The fields of [BrazilAgDataService]. The HTTP session is created on
    demand by [_get_session], which no operation calls; it is left out. *)
Record service : Type := Service {
  _cache : gmap string pyval;
  last_updated : gmap string datetime;
  _initialized : bool
}.

(** [__init__]. *)
Definition new_service : service :=
  {| _cache := ∅; last_updated := ∅; _initialized := false |}.

(** The JSON document in [CACHE_FILE]: an object whose two fields, when
    present, are objects. *)
Record cache_file : Type := CacheFile {
  file_cache : option (gmap string pyval);
  file_last_updated : option (gmap string pyval)
}.

(** What is at [CACHE_FILE]: nothing, something [json.load] or the two
    [data.get] calls fail on, or a document. *)
Inductive disk_state : Type :=
| NoFile
| Unreadable
| Stored (doc : cache_file).

(** The service in its environment: the file system, and how many times
    the clock has been read so far. *)
Record world : Type := World {
  svc : service;
  disk : disk_state;
  reads : nat
}.

Definition set_cache (c : gmap string pyval) (w : world) : world :=
  {| svc := {| _cache := c;
               last_updated := last_updated (svc w);
               _initialized := _initialized (svc w) |};
     disk := disk w; reads := reads w |}.

Definition set_last_updated (m : gmap string datetime) (w : world) : world :=
  {| svc := {| _cache := _cache (svc w);
               last_updated := m;
               _initialized := _initialized (svc w) |};
     disk := disk w; reads := reads w |}.

Definition set_initialized (b : bool) (w : world) : world :=
  {| svc := {| _cache := _cache (svc w);
               last_updated := last_updated (svc w);
               _initialized := b |};
     disk := disk w; reads := reads w |}.

Definition set_disk (d : disk_state) (w : world) : world :=
  {| svc := svc w; disk := d; reads := reads w |}.

Definition set_reads (n : nat) (w : world) : world :=
  {| svc := svc w; disk := disk w; reads := n |}.

(** ** The effect monad *)

(** A method may read and update the service, read the clock, touch the
    cache file and raise; an exception keeps the effects made so far. *)
Definition M (A : Type) : Type := world -> result A * world.

Definition ret {A : Type} (a : A) : M A := fun w => (Ok a, w).

Definition bind {A B : Type} (m : M A) (k : A -> M B) : M B :=
  fun w =>
    match m w with
    | (Ok a, w') => k a w'
    | (Raise e, w') => (Raise e, w')
    end.

Definition lift {A : Type} (r : result A) : M A := fun w => (r, w).

(** [try: m except Exception: pass] (the handlers of the service only
    log). *)
Definition try_except (m : M unit) : M unit :=
  fun w =>
    match m w with
    | (Ok _, w') => (Ok tt, w')
    | (Raise _, w') => (Ok tt, w')
    end.

Declare Scope svc_scope.
Delimit Scope svc_scope with svc.
Notation "'let*' x ':=' m 'in' k" := (bind m (fun x => k))
  (at level 10, x name, m at level 200, k at level 200,
   format "'[v' 'let*'  x  ':='  m  'in' '/' k ']'") : svc_scope.
Notation "m ';;;' k" := (bind m (fun _ => k))
  (at level 100, k at level 200, right associativity) : svc_scope.

Definition read_cache : M (gmap string pyval) := fun w => (Ok (_cache (svc w)), w).

Definition read_last_updated : M (gmap string datetime) :=
  fun w => (Ok (last_updated (svc w)), w).

(** [self._cache[key] = v]. *)
Definition cache_store (key : string) (v : pyval) : M unit :=
  fun w => (Ok tt, set_cache (<[key := v]> (_cache (svc w))) w).

(** [self.last_updated[key] = t]. *)
Definition stamp_store (key : string) (t : datetime) : M unit :=
  fun w => (Ok tt, set_last_updated (<[key := t]> (last_updated (svc w))) w).

Section Service.

(** The clock: [clock n] is what the [n]-th call of [datetime.now()]
    returns since the process started. *)
Variable clock : nat -> datetime.

Definition datetime_now : M datetime :=
  fun w => (Ok (clock (reads w)), set_reads (S (reads w)) w).

(** [self.last_updated.get(key, datetime.now())]: the default is
    evaluated, so the clock is read, whether or not the key is there. *)
Definition stamp_or_now (key : string) : M datetime :=
  (let* t := datetime_now in
   let* lu := read_last_updated in
   ret (default t (lu !! key)))%svc.

(** [get_ncm_code]. *)
Definition get_ncm_code (commodity : string) : string :=
  default "" (PyVal.assoc commodity NCM_CODES).

(** *** Balance sheet *)

Definition get_balance_sheet (commodity : string) (years : Z) : M pyval :=
  let cache_key := "balance_" +:+ commodity in
  (let* cache := read_cache in
   match cache !! cache_key with
   | Some cached =>
       let* n := lift (PyVal.len cached) in
       let* data :=
         (if (years <? n)%Z then lift (PyVal.slice_from_val cached (- years))
          else ret cached) in
       let* stamp := stamp_or_now cache_key in
       ret (PyDict [("success", PyBool true);
                    ("commodity", PyStr commodity);
                    ("unit", PyStr "MMT");
                    ("source", PyStr "CONAB");
                    ("last_updated", PyDatetime stamp);
                    ("data", data)])
   | None =>
       let data := _get_balance_sheet_fallback commodity in
       cache_store cache_key (PyList data) ;;;
       let* t := datetime_now in
       stamp_store cache_key t ;;;
       let* lu := read_last_updated in
       let* stamp := lift (match lu !! cache_key with
                           | Some s => Ok s
                           | None => Raise KeyError
                           end) in
       ret (PyDict [("success", PyBool true);
                    ("commodity", PyStr commodity);
                    ("unit", PyStr "MMT");
                    ("source", PyStr "CONAB");
                    ("last_updated", PyDatetime stamp);
                    ("data", PyList (PyVal.slice_from data (- years)))])
   end)%svc.

(** *** Monthly exports *)

(** The loop [for i, x in enumerate(xs, start)] with an effectful
    body that appends one row per pass. *)
Fixpoint mmapi {A B : Type} (f : nat -> A -> M B) (start : nat) (xs : list A)
  : M (list B) :=
  match xs with
  | [] => ret []
  | x :: xs' =>
      (let* y := f start x in
       let* ys := mmapi f (S start) xs' in
       ret (y :: ys))%svc
  end.

(** [0.77 if commodity == "soybeans" else 0.02]. *)
Definition china_share (commodity : string) : float :=
  if String.eqb commodity "soybeans" then 0.77%float else 0.02%float.

(** [commodity in ["soybeans", "soy_meal"]]. *)
Definition has_china_split (commodity : string) : bool :=
  String.eqb commodity "soybeans" || String.eqb commodity "soy_meal".

(** The body of the loop of [_get_monthly_exports_fallback]. *)
Definition export_row (commodity : string) (year current_month : Z)
    (month_idx : nat) (vol : float) : M pyval :=
  let month := (Z.of_nat month_idx + 1)%Z in
  (let* t := datetime_now in
   let is_partial := (year =? Datetime.year t)%Z && (month =? current_month)%Z in
   let* vol :=
     (if is_partial
      then
        let* t' := datetime_now in
        let day_of_month := Datetime.day t' in
        let* frac := lift (PyVal.truediv (PyInt day_of_month) (PyInt 30)) in
        lift (PyVal.mul (PyFloat vol) frac)
      else ret (PyFloat vol)) in
   let* month_name := lift (PyVal.index MONTH_NAMES month_idx) in
   let* volume_mt := lift (PyVal.mul vol (PyInt 1000000)) in
   let* volume_mmt := lift (PyVal.round vol 2) in
   let* value_usd := lift (PyVal.mul vol (PyInt 420000000)) in
   let* to_china_mt :=
     (if has_china_split commodity
      then
        let* mt := lift (PyVal.mul vol (PyInt 1000000)) in
        lift (PyVal.mul mt (PyFloat (china_share commodity)))
      else ret PyNone) in
   let* to_china_pct :=
     (if has_china_split commodity
      then lift (PyVal.mul (PyFloat (china_share commodity)) (PyInt 100))
      else ret PyNone) in
   ret (PyDict [("year", PyInt year);
                ("month", PyInt month);
                ("monthName", PyStr month_name);
                ("volumeMt", volume_mt);
                ("volumeMmt", volume_mmt);
                ("valueUsd", value_usd);
                ("toChinaMt", to_china_mt);
                ("toChinaPct", to_china_pct);
                ("isPartial", PyBool is_partial)]))%svc.

Definition _get_monthly_exports_fallback (commodity : string) (year : Z)
  : M (list pyval) :=
  let volumes := export_volumes commodity year in
  (let* t := datetime_now in
   let* current_month :=
     (if (year =? Datetime.year t)%Z
      then let* t' := datetime_now in ret (Datetime.month t')
      else ret 12%Z) in
   mmapi (export_row commodity year current_month) 0 volumes)%svc.

Definition exports_key (commodity : string) (year : Z) : string :=
  "exports_" +:+ commodity +:+ "_" +:+ pretty year.

Definition get_monthly_exports (commodity : string) (year : Z)
    (include_china : bool) : M pyval :=
  let cache_key := exports_key commodity year in
  (let* cache := read_cache in
   let* data :=
     match cache !! cache_key with
     | Some cached => ret cached
     | None =>
         let* rows := _get_monthly_exports_fallback commodity year in
         cache_store cache_key (PyList rows) ;;;
         let* t := datetime_now in
         stamp_store cache_key t ;;;
         ret (PyList rows)
     end in
   let* rows := lift (PyVal.iter data) in
   let* ytd_total :=
     lift (PyVal.sum_gen (fun row => PyVal.get row "volumeMmt" (PyInt 0)) rows) in
   let* ytd_china :=
     (if include_china
      then
        let* s := lift (PyVal.sum_gen
                          (fun row =>
                             let* v := PyVal.get row "toChinaMt" (PyInt 0) in
                             Ok (PyVal.or_else v (PyInt 0)))%res
                          rows) in
        lift (PyVal.truediv s (PyInt 1000000))
      else ret PyNone) in
   let* stamp := stamp_or_now cache_key in
   let* total_rounded := lift (PyVal.round ytd_total 2) in
   let* china_rounded :=
     (if PyVal.truthy ytd_china then lift (PyVal.round ytd_china 2)
      else ret PyNone) in
   ret (PyDict [("success", PyBool true);
                ("commodity", PyStr commodity);
                ("ncmCode", PyStr (get_ncm_code commodity));
                ("year", PyInt year);
                ("source", PyStr "SECEX/MDIC ComexStat");
                ("last_updated", PyDatetime stamp);
                ("data", data);
                ("ytdTotalMmt", total_rounded);
                ("ytdToChinaMmt", china_rounded)]))%svc.

(** *** Exports by destination and by port *)

(** The loop that adds the calculated fields to one destination. *)
Definition add_calculated_fields (d : pyval) : result pyval :=
  (let* v := PyVal.getitem d "volumeMmt" in
   let* mt := PyVal.mul v (PyInt 1000000) in
   let* d1 := PyVal.setitem d "volumeMt" mt in
   let* v' := PyVal.getitem d1 "volumeMmt" in
   let* usd := PyVal.mul v' (PyInt 420000000) in
   PyVal.setitem d1 "valueUsd" usd)%res.

Definition get_exports_by_destination (commodity : string) (year top_n : Z)
  : M pyval :=
  (let* destinations :=
     lift (rmapi (fun _ d => add_calculated_fields d) 0 destinations_literal) in
   let* total :=
     lift (PyVal.sum_gen (fun d => PyVal.getitem d "volumeMmt") destinations) in
   let* now := datetime_now in
   let* total_rounded := lift (PyVal.round total 1) in
   ret (PyDict [("success", PyBool true);
                ("commodity", PyStr commodity);
                ("year", PyInt year);
                ("source", PyStr "SECEX/MDIC ComexStat");
                ("last_updated", PyDatetime now);
                ("totalMmt", total_rounded);
                ("data", PyList (PyVal.slice_to destinations top_n))]))%svc.

Definition get_exports_by_port (commodity : string) (year : Z) : M pyval :=
  (let* now := datetime_now in
   ret (PyDict [("success", PyBool true);
                ("commodity", PyStr commodity);
                ("year", PyInt year);
                ("source", PyStr "SECEX/MDIC ComexStat");
                ("last_updated", PyDatetime now);
                ("data", PyList ports_literal)]))%svc.

(** *** Production *)

(** [state] is [Optional[str]]; the body never mentions it. *)
Definition get_production (commodity : string) (years : Z)
    (state : option string) : M pyval :=
  let data := _get_production_fallback commodity in
  (let* now := datetime_now in
   ret (PyDict [("success", PyBool true);
                ("commodity", PyStr commodity);
                ("source", PyStr "CONAB SerieHistoricaGraos");
                ("last_updated", PyDatetime now);
                ("data", PyList (PyVal.slice_from data (- years)))]))%svc.

(** *** Monthly prices *)

(** The body of the inner loop of [_get_prices_fallback]. *)
Definition price_row (year : Z) (loc : string) (loc_prices : list Z)
    (month_idx : nat) (price : Z) : result pyval :=
  (let* prev_price :=
     (if (0 <? month_idx)%nat then PyVal.index loc_prices (month_idx - 1)
      else Ok price) in
   let* mom_change :=
     (if PyVal.truthy (PyInt prev_price)
      then
        let* diff := PyVal.sub (PyInt price) (PyInt prev_price) in
        let* ratio := PyVal.truediv diff (PyInt prev_price) in
        PyVal.mul ratio (PyInt 100)
      else Ok (PyInt 0)) in
   let* month_name := PyVal.index MONTH_NAMES month_idx in
   let* usd := PyVal.truediv (PyInt price) (PyFloat 6.0%float) in
   let* price_usd := PyVal.round usd 2 in
   let* mom_rounded := PyVal.round mom_change 1 in
   Ok (PyDict [("year", PyInt year);
               ("month", PyInt (Z.of_nat month_idx + 1));
               ("monthName", PyStr month_name);
               ("location", PyStr loc);
               ("priceBrl", PyInt price);
               ("priceUsd", price_usd);
               ("momChangePct", mom_rounded)]))%res.

(** [commodity_prices.get(loc, [100] * 12)]. *)
Definition location_prices (commodity_prices : list (string * list Z))
    (loc : string) : list Z :=
  match PyVal.assoc loc commodity_prices with
  | Some ps => ps
  | None => replicate 12 100%Z
  end.

(** The rows of one location: the inner loop. *)
Definition location_rows (commodity_prices : list (string * list Z))
    (year : Z) (loc : string) : result (list pyval) :=
  let loc_prices := location_prices commodity_prices loc in
  rmapi (price_row year loc loc_prices) 0 loc_prices.

(** [[location] if location else list(commodity_prices.keys())]. *)
Definition locations_to_use (commodity_prices : list (string * list Z))
    (location : option string) : list string :=
  match location with
  | Some loc => if PyVal.truthy (PyStr loc) then [loc] else map fst commodity_prices
  | None => map fst commodity_prices
  end.

(** The outer loop: the rows of each location, one after the other. *)
Fixpoint concat_rows (f : string -> result (list pyval)) (locs : list string)
  : result (list pyval) :=
  match locs with
  | [] => Ok []
  | loc :: locs' =>
      (let* rows := f loc in
       let* rest := concat_rows f locs' in
       Ok (rows ++ rest)%list)%res
  end.

Definition _get_prices_fallback (commodity : string) (year : Z)
    (location : option string) : result (list pyval) :=
  let commodity_prices := default [] (PyVal.assoc commodity price_table) in
  concat_rows (location_rows commodity_prices year)
              (locations_to_use commodity_prices location).

Definition get_monthly_prices (commodity : string) (year : Z)
    (location : option string) : M pyval :=
  (let* data := lift (_get_prices_fallback commodity year location) in
   let* now := datetime_now in
   ret (PyDict [("success", PyBool true);
                ("commodity", PyStr commodity);
                ("unit", PyStr "BRL/60kg bag");
                ("source", PyStr "CONAB PrecosMensalUF");
                ("last_updated", PyDatetime now);
                ("data", PyList data)]))%svc.

(** *** Soy complex *)

Definition get_soy_complex_balance : M pyval :=
  (let* now := datetime_now in
   ret (PyDict [("success", PyBool true);
                ("source", PyStr "CONAB e Secex");
                ("note", PyStr "Estimativa em janeiro/2026. Estoque de passagem 31 de dezembro.");
                ("unit", PyStr "mil t (thousand metric tons)");
                ("last_updated", PyDatetime now);
                ("soja_graos", PyList soja_graos);
                ("farelo", PyList farelo);
                ("oleo", PyList oleo)]))%svc.

(** *** Dashboard summary *)

(** [response["data"]] and the like. *)
Definition field (response : pyval) (k : string) : M pyval :=
  lift (PyVal.getitem response k).

Definition get_dashboard_summary : M pyval :=
  (let* soy_balance := get_balance_sheet "soybeans" 6 in
   let* corn_balance := get_balance_sheet "corn" 6 in
   let* soy_exports_2024 := get_monthly_exports "soybeans" 2024 true in
   let* soy_exports_2025 := get_monthly_exports "soybeans" 2025 true in
   let* corn_exports_2024 := get_monthly_exports "corn" 2024 true in
   let* corn_exports_2025 := get_monthly_exports "corn" 2025 true in
   let* soy_production := get_production "soybeans" 11 None in
   let* corn_production := get_production "corn" 11 None in
   let* soy_prices_2024 := get_monthly_prices "soybeans" 2024 None in
   let* soy_prices_2025 := get_monthly_prices "soybeans" 2025 None in
   let* corn_prices_2024 := get_monthly_prices "corn" 2024 None in
   let* corn_prices_2025 := get_monthly_prices "corn" 2025 None in
   let* export_destinations := get_exports_by_destination "soybeans" 2025 10 in
   let* export_ports := get_exports_by_port "soybeans" 2025 in
   let* soy_complex := get_soy_complex_balance in
   let* now := datetime_now in
   let* p_soy := field soy_production "data" in
   let* p_corn := field corn_production "data" in
   let* b_soy := field soy_balance "data" in
   let* b_corn := field corn_balance "data" in
   let* e_soy_2024 := field soy_exports_2024 "data" in
   let* e_soy_2025 := field soy_exports_2025 "data" in
   let* e_corn_2024 := field corn_exports_2024 "data" in
   let* e_corn_2025 := field corn_exports_2025 "data" in
   let* pr_soy_2024 := field soy_prices_2024 "data" in
   let* pr_soy_2025 := field soy_prices_2025 "data" in
   let* pr_corn_2024 := field corn_prices_2024 "data" in
   let* pr_corn_2025 := field corn_prices_2025 "data" in
   let* dest := field export_destinations "data" in
   let* ports := field export_ports "data" in
   let* sc_graos := field soy_complex "soja_graos" in
   let* sc_farelo := field soy_complex "farelo" in
   let* sc_oleo := field soy_complex "oleo" in
   ret (PyDict
     [("success", PyBool true);
      ("last_updated", PyDatetime now);
      ("data_sources", PyList [PyStr "CONAB"; PyStr "SECEX/MDIC ComexStat"]);
      ("production", PyDict [("soybeans", p_soy); ("corn", p_corn)]);
      ("balance_sheets", PyDict [("soybeans", b_soy); ("corn", b_corn)]);
      ("monthly_exports",
       PyDict [("soybeans", PyDict [("2024", e_soy_2024); ("2025", e_soy_2025)]);
               ("corn", PyDict [("2024", e_corn_2024); ("2025", e_corn_2025)])]);
      ("monthly_prices",
       PyDict [("soybeans", PyDict [("2024", pr_soy_2024); ("2025", pr_soy_2025)]);
               ("corn", PyDict [("2024", pr_corn_2024); ("2025", pr_corn_2025)])]);
      ("export_destinations", PyDict [("soybeans", dest)]);
      ("export_ports", ports);
      ("soy_complex",
       PyDict [("soja_graos", sc_graos); ("farelo", sc_farelo); ("oleo", sc_oleo)]);
      ("survey_data", survey_data)]))%svc.

(** *** Persistence *)

(** [_save_cache_to_disk]. Opening the file for writing empties it;
    [json.dump] then writes the document, or raises part-way on a value
    it cannot serialize, which leaves a file that no longer parses. The
    handler only logs. *)
Definition _save_cache_to_disk : M unit :=
  try_except
    (fun w =>
       let s := svc w in
       let stamps : gmap string pyval :=
         (fun t => PyStr (Datetime.isoformat t)) <$> last_updated s in
       if bool_decide (map_Forall (fun _ v => PyVal.json_serializable v = true) (_cache s))
       then (Ok tt, set_disk (Stored {| file_cache := Some (_cache s);
                                        file_last_updated := Some stamps |}) w)
       else (Raise TypeError, set_disk Unreadable w)).

(** [datetime.fromisoformat(val)] on a JSON value. *)
Definition parse_stamp (val : pyval) : result datetime :=
  match val with
  | PyStr s => Datetime.fromisoformat s
  | _ => Raise TypeError
  end.

(** The loop over [data.get("last_updated", {}).items()]: it stops at
    the first entry that does not parse and keeps the entries
    converted before it. *)
Definition load_stamps (stamps : gmap string pyval) : M unit :=
  fun w =>
    let '(r, lu) :=
      map_fold
        (fun key val (acc : result unit * gmap string datetime) =>
           match acc with
           | (Ok _, lu) =>
               match parse_stamp val with
               | Ok t => (Ok tt, <[key := t]> lu)
               | Raise e => (Raise e, lu)
               end
           | (Raise e, lu) => (Raise e, lu)
           end)
        (Ok tt, last_updated (svc w)) stamps in
    (r, set_last_updated lu w).

(** [_load_cache_from_disk]. *)
Definition _load_cache_from_disk : M unit :=
  fun w =>
    match disk w with
    | NoFile => (Ok tt, w)
    | Unreadable => try_except (lift (Raise ValueError)) w
    | Stored doc =>
        try_except
          ((fun w' => (Ok tt, set_cache (default ∅ (file_cache doc)) w')) ;;;
           load_stamps (default ∅ (file_last_updated doc)))%svc w
    end.

Definition initialize : M unit :=
  (_load_cache_from_disk ;;;
   fun w => (Ok tt, set_initialized true w))%svc.

Definition cleanup : M unit := _save_cache_to_disk.

(** *** Status and refresh *)

(** [get_status]. The keys are listed in the order the maps enumerate
    them. *)
Definition get_status : M pyval :=
  fun w =>
    let s := svc w in
    (Ok (PyDict
           [("initialized", PyBool (_initialized s));
            ("cache_keys", PyList (map (fun kv => PyStr (fst kv)) (map_to_list (_cache s))));
            ("last_updated",
             PyDict (map (fun kv => (fst kv, PyStr (Datetime.isoformat (snd kv))))
                         (map_to_list (last_updated s))))]),
     w).

(** [refresh_all]. *)
Definition refresh_all : M unit :=
  ((fun w => (Ok tt, set_cache ∅ w)) ;;;
   let* _summary := get_dashboard_summary in
   _save_cache_to_disk)%svc.

End Service.

(** The six fetch operations behind the commodity routes, with their
    parameters. *)
Inductive fetch : Type :=
| FetchBalanceSheet (commodity : string) (years : Z)
| FetchMonthlyExports (commodity : string) (year : Z) (include_china : bool)
| FetchExportsByDestination (commodity : string) (year top_n : Z)
| FetchExportsByPort (commodity : string) (year : Z)
| FetchProduction (commodity : string) (years : Z) (state : option string)
| FetchMonthlyPrices (commodity : string) (year : Z) (location : option string).

Definition run_fetch (clock : nat -> datetime) (f : fetch) : M pyval :=
  match f with
  | FetchBalanceSheet c n => get_balance_sheet clock c n
  | FetchMonthlyExports c y ic => get_monthly_exports clock c y ic
  | FetchExportsByDestination c y n => get_exports_by_destination clock c y n
  | FetchExportsByPort c y => get_exports_by_port clock c y
  | FetchProduction c n st => get_production clock c n st
  | FetchMonthlyPrices c y loc => get_monthly_prices clock c y loc
  end.

(** The cache key a fetch reads and writes, for the two that cache. *)
Definition fetch_cache_key (f : fetch) : option string :=
  match f with
  | FetchBalanceSheet c _ => Some ("balance_" +:+ c)
  | FetchMonthlyExports c y _ => Some (exports_key c y)
  | _ => None
  end.

(** A field of a response. *)
Definition response_field (k : string) (resp : pyval) : option pyval :=
  match resp with
  | PyDict d => PyVal.assoc k d
  | _ => None
  end.

(** The service as the process starts it: no cache file yet, the clock
    never read. *)
Definition initial_world : world :=
  {| svc := new_service; disk := NoFile; reads := 0 |}.

(** ** Well-formed states *)

(** The rows under an exports key were computed by
    [_get_monthly_exports_fallback] for that commodity and year, at some
    moment of some run of the service. *)
Definition export_rows_of (commodity : string) (year : Z) (v : pyval) : Prop :=
  exists (clk : nat -> datetime) (w0 w1 : world) (rows : list pyval),
    (forall n, Datetime.valid (clk n) = true)
    /\ _get_monthly_exports_fallback clk commodity year w0 = (Ok rows, w1)
    /\ v = PyList rows.

(** A cache entry is what the fetch that owns its key stored: the
    balance sheet table of a commodity, or the rows of a monthly-exports
    fallback. *)
Definition entry_wf (key : string) (v : pyval) : Prop :=
  (exists commodity,
      key = "balance_" +:+ commodity
      /\ v = PyList (_get_balance_sheet_fallback commodity))
  \/ (exists commodity year,
         key = exports_key commodity year
         /\ export_rows_of commodity year v).

Definition cache_wf (c : gmap string pyval) : Prop :=
  forall key v, c !! key = Some v -> entry_wf key v.

(** Every timestamp is one a clock can show. *)
Definition stamps_wf (lu : gmap string datetime) : Prop :=
  map_Forall (fun _ t => Datetime.valid t = true) lu.

(** The invariant of the service: cache entries come from the fallbacks,
    and each of them has a timestamp. *)
Definition service_wf (s : service) : Prop :=
  cache_wf (_cache s)
  /\ dom (_cache s) ⊆ dom (last_updated s)
  /\ stamps_wf (last_updated s).

(** The cache file, when there is a readable one, was written by
    [_save_cache_to_disk] from a well-formed service. *)
Definition disk_wf (d : disk_state) : Prop :=
  match d with
  | NoFile | Unreadable => True
  | Stored doc =>
      exists (c : gmap string pyval) (lu : gmap string datetime),
        doc = {| file_cache := Some c;
                 file_last_updated :=
                   Some ((fun t => PyStr (Datetime.isoformat t)) <$> lu) |}
        /\ service_wf {| _cache := c; last_updated := lu; _initialized := false |}
  end.

Definition world_wf (w : world) : Prop :=
  service_wf (svc w) /\ disk_wf (disk w).

(** The crop-year label of a balance sheet row. *)
Definition crop_year (row : pyval) : string :=
  match response_field "year" row with
  | Some (PyStr s) => s
  | _ => ""
  end.

(** Rows in strictly ascending order of their crop-year labels. *)
Fixpoint ascending_years (rows : list pyval) : bool :=
  match rows with
  | [] => true
  | r :: rest =>
      match rest with
      | [] => true
      | r' :: _ => String.ltb (crop_year r) (crop_year r') && ascending_years rest
      end
  end.

(** The response of [get_balance_sheet], on both of its paths. *)
Definition balance_response (commodity : string) (stamp : datetime) (data : pyval)
  : pyval :=
  PyDict [("success", PyBool true);
          ("commodity", PyStr commodity);
          ("unit", PyStr "MMT");
          ("source", PyStr "CONAB");
          ("last_updated", PyDatetime stamp);
          ("data", data)].

(** A clock for examples: 15 January 2026, 09:30, one second later at
    each reading. *)
Definition example_clock (n : nat) : datetime :=
  Datetime.mk 2026 1 15 9 30 (Z.of_nat (n mod 60)) 0.

(** [vol * (day_of_month / 30)]: the partial-month scaling. *)
Definition scale_partial (vol : float) (day_of_month : Z) : result float :=
  let frac := PyNum.nearest_float day_of_month 30 in
  if PyNum.is_finite frac then Ok (vol * frac)%float else Raise OverflowError.

(** The dict one pass of the loop appends, given the volume the pass
    ends up with and its partial flag. *)
Definition export_row_of (commodity : string) (year : Z) (month_idx : nat)
    (vol : float) (is_partial : bool) : result pyval :=
  (let* month_name := PyVal.index MONTH_NAMES month_idx in
   let* volume_mmt := PyNum.round_float vol 2 in
   Ok (PyDict [("year", PyInt year);
               ("month", PyInt (Z.of_nat month_idx + 1));
               ("monthName", PyStr month_name);
               ("volumeMt", PyFloat (vol * 1000000)%float);
               ("volumeMmt", PyFloat volume_mmt);
               ("valueUsd", PyFloat (vol * 420000000)%float);
               ("toChinaMt",
                if has_china_split commodity
                then PyFloat (vol * 1000000 * china_share commodity)%float
                else PyNone);
               ("toChinaPct",
                if has_china_split commodity
                then PyFloat (china_share commodity * 100)%float
                else PyNone);
               ("isPartial", PyBool is_partial)]))%res.

(** The row of month [month_idx + 1] when the current month is
    [current_month]: [partial_day] is the day of the month the pass read
    off the clock if it found the requested year to be the current one. *)
Definition export_row_at (commodity : string) (year current_month : Z)
    (partial_day : option Z) (month_idx : nat) (vol : float) : result pyval :=
  match partial_day with
  | Some day_of_month =>
      if (Z.of_nat month_idx + 1 =? current_month)%Z
      then (let* v := scale_partial vol day_of_month in
            export_row_of commodity year month_idx v true)%res
      else export_row_of commodity year month_idx vol false
  | None => export_row_of commodity year month_idx vol false
  end.

(** [sum(row.get("volumeMmt", 0) for row in data)]. *)
Definition ytd_total_of (rows : list pyval) : result pyval :=
  PyVal.sum_gen (fun row => PyVal.get row "volumeMmt" (PyInt 0)) rows.

(** [sum(row.get("toChinaMt", 0) or 0 for row in data) / 1_000_000
    if include_china else None]. *)
Definition ytd_china_of (include_china : bool) (rows : list pyval) : result pyval :=
  if include_china
  then (let* s := PyVal.sum_gen
                    (fun row =>
                       let* v := PyVal.get row "toChinaMt" (PyInt 0) in
                       Ok (PyVal.or_else v (PyInt 0)))
                    rows in
        PyVal.truediv s (PyInt 1000000))%res
  else Ok PyNone.

(** What [get_monthly_exports] returns for the rows [data] it found or
    stored under its key, stamped [stamp]. *)
Definition exports_response (commodity : string) (year : Z) (include_china : bool)
    (data : pyval) (stamp : datetime) : result pyval :=
  (let* rows := PyVal.iter data in
   let* ytd_total := ytd_total_of rows in
   let* ytd_china := ytd_china_of include_china rows in
   let* total_rounded := PyVal.round ytd_total 2 in
   let* china_rounded :=
     (if PyVal.truthy ytd_china then PyVal.round ytd_china 2 else Ok PyNone) in
   Ok (PyDict [("success", PyBool true);
               ("commodity", PyStr commodity);
               ("ncmCode", PyStr (get_ncm_code commodity));
               ("year", PyInt year);
               ("source", PyStr "SECEX/MDIC ComexStat");
               ("last_updated", PyDatetime stamp);
               ("data", data);
               ("ytdTotalMmt", total_rounded);
               ("ytdToChinaMmt", china_rounded)]))%res.

(** Every volume list [export_volumes] can return. *)
Definition all_export_volumes : list (list float) :=
  concat (map (fun p => map snd (snd p)) export_patterns) ++ [replicate 12 5.0%float].

(** [day / 30] for the days of a month. *)
Definition day_fractions : list float :=
  Eval vm_compute in map (fun d => PyNum.nearest_float (Z.of_nat d) 30) (seq 1 31).

Definition partial_fractions : list (option float) := None :: map Some day_fractions.

Definition month_numbers : list Z := [1; 2; 3; 4; 5; 6; 7; 8; 9; 10; 11; 12]%Z.

(** The volume a pass of the loop ends up with: scaled by [frac] in the
    row of the current month when the pass found the month partial. *)
Definition adjusted_volume (current_month : Z) (pf : option float)
    (month_idx : nat) (vol : float) : float :=
  match pf with
  | Some frac => if (Z.of_nat month_idx + 1 =? current_month)%Z then (vol * frac)%float else vol
  | None => vol
  end.

Definition row_is_partial (current_month : Z) (pf : option float) (month_idx : nat)
  : bool :=
  match pf with
  | Some _ => (Z.of_nat month_idx + 1 =? current_month)%Z
  | None => false
  end.

Definition export_row_frac (commodity : string) (year current_month : Z)
    (pf : option float) (month_idx : nat) (vol : float) : result pyval :=
  export_row_of commodity year month_idx
    (adjusted_volume current_month pf month_idx vol)
    (row_is_partial current_month pf month_idx).

(** [volumeMmt] of each row, where only the partial row needs rounding
    (the canned volumes have two decimals). *)
Definition rounded_volumes (current_month : Z) (pf : option float) (vols : list float)
  : result (list pyval) :=
  rmapi (fun i vol =>
           if row_is_partial current_month pf i
           then (let* r := PyNum.round_float (adjusted_volume current_month pf i vol) 2 in
                 Ok (PyFloat r))%res
           else Ok (PyFloat vol))
        0 vols.

(** [toChinaMt] of each row of a commodity with a China split. *)
Definition china_volumes (share : float) (current_month : Z) (pf : option float)
    (vols : list float) : result (list pyval) :=
  rmapi (fun i vol =>
           Ok (PyFloat (adjusted_volume current_month pf i vol * 1000000 * share)%float))
        0 vols.

Definition total_check (vols : list float) (current_month : Z) (pf : option float) : bool :=
  is_ok (let* rs := rounded_volumes current_month pf vols in
         let* t := PyVal.sum rs in
         PyVal.round t 2)%res.

Definition china_check (share : float) (vols : list float) (current_month : Z)
    (pf : option float) : bool :=
  match china_volumes share current_month pf vols with
  | Ok cs =>
      forallb PyVal.truthy cs
      && match (let* s := PyVal.sum cs in PyVal.truediv s (PyInt 1000000))%res with
         | Ok q => PyVal.truthy q && is_ok (PyVal.round q 2)
         | Raise _ => false
         end
  | Raise _ => false
  end.

(** The dict [export_row_of] builds once the month name and the rounded
    volume are known. *)
Definition export_row_dict (commodity : string) (year : Z) (month_idx : nat)
    (month_name : string) (vol volume_mmt : float) (is_partial : bool) : pyval :=
  PyDict [("year", PyInt year);
          ("month", PyInt (Z.of_nat month_idx + 1));
          ("monthName", PyStr month_name);
          ("volumeMt", PyFloat (vol * 1000000)%float);
          ("volumeMmt", PyFloat volume_mmt);
          ("valueUsd", PyFloat (vol * 420000000)%float);
          ("toChinaMt",
           if has_china_split commodity
           then PyFloat (vol * 1000000 * china_share commodity)%float
           else PyNone);
          ("toChinaPct",
           if has_china_split commodity
           then PyFloat (china_share commodity * 100)%float
           else PyNone);
          ("isPartial", PyBool is_partial)].

(** [ytdTotalMmt] is the sum of the [volumeMmt] of the rows in [data],
    rounded to two decimals. *)
Definition ytd_total_correct (resp : pyval) : Prop :=
  exists (rows vals : list pyval) (total ytd : pyval),
    response_field "data" resp = Some (PyList rows)
    /\ Forall2 (fun row v => response_field "volumeMmt" row = Some v) rows vals
    /\ PyVal.sum vals = Ok total
    /\ PyVal.round total 2 = Ok ytd
    /\ response_field "ytdTotalMmt" resp = Some ytd.

(** [ytdToChinaMmt] is the sum of the [toChinaMt] of the rows in [data]
    divided by 1,000,000 and rounded to two decimals. *)
Definition ytd_china_correct (resp : pyval) : Prop :=
  exists (rows vals : list pyval) (s q r : pyval),
    response_field "data" resp = Some (PyList rows)
    /\ Forall2 (fun row v => response_field "toChinaMt" row = Some v) rows vals
    /\ PyVal.sum vals = Ok s
    /\ PyVal.truediv s (PyInt 1000000) = Ok q
    /\ PyVal.round q 2 = Ok r
    /\ response_field "ytdToChinaMmt" resp = Some r.



(** Every price series [location_prices] can return. *)
Definition all_price_series : list (list Z) :=
  concat (map (fun p => map snd (snd p)) price_table) ++ [replicate 12 100%Z].

(** The month-over-month change of the row of month [month_idx + 1] in
    the series [loc_prices]: zero for the first month, and for a later
    month [(price - previous) / previous * 100] rounded to one decimal,
    where [previous] is the price one place earlier in the series. *)
Definition mom_change_correct (loc_prices : list Z) (month_idx : nat) (price : Z)
    (row : pyval) : Prop :=
  match month_idx with
  | O => response_field "momChangePct" row = Some (PyFloat 0%float)
  | S j =>
      exists (previous : Z) (diff ratio pct mom : pyval),
        loc_prices !! j = Some previous
        /\ PyVal.sub (PyInt price) (PyInt previous) = Ok diff
        /\ PyVal.truediv diff (PyInt previous) = Ok ratio
        /\ PyVal.mul ratio (PyInt 100) = Ok pct
        /\ PyVal.round pct 1 = Ok mom
        /\ response_field "momChangePct" row = Some mom
  end.

(** The rows of one location: one per price of its series, in order,
    each with the location, the price and the right change. *)
Definition price_series_correct (loc : string) (loc_prices : list Z)
    (rows : list pyval) : Prop :=
  length rows = length loc_prices
  /\ forall (i : nat) (price : Z),
       loc_prices !! i = Some price ->
       exists row : pyval,
         rows !! i = Some row
         /\ response_field "location" row = Some (PyStr loc)
         /\ response_field "month" row = Some (PyInt (Z.of_nat i + 1))
         /\ response_field "priceBrl" row = Some (PyInt price)
         /\ mom_change_correct loc_prices i price row.

(** No underscore in a string. *)
Fixpoint no_underscore (s : string) : bool :=
  match s with
  | EmptyString => true
  | String c s' => negb (Ascii.eqb c "_") && no_underscore s'
  end.

(** The cache keys [get_dashboard_summary] asks for. *)
Definition dashboard_keys : gset string :=
  {[ "balance_" +:+ "soybeans"; "balance_" +:+ "corn";
     exports_key "soybeans" 2024; exports_key "soybeans" 2025;
     exports_key "corn" 2024; exports_key "corn" 2025 ]}.

(** How a fetch may change the world: cache entries are only added, the
    timestamp of a key changes only when the key enters the cache, and
    it is then a reading of the clock taken meanwhile. *)
Definition extends (clock : nat -> datetime) (w w' : world) : Prop :=
  (forall k v, _cache (svc w) !! k = Some v -> _cache (svc w') !! k = Some v)
  /\ (forall k,
         is_Some (_cache (svc w) !! k) \/ _cache (svc w') !! k = None ->
         last_updated (svc w') !! k = last_updated (svc w) !! k)
  /\ (forall k,
         _cache (svc w) !! k = None ->
         is_Some (_cache (svc w') !! k) ->
         exists n, (reads w <= n < reads w')%nat
                   /\ last_updated (svc w') !! k = Some (clock n))
  /\ disk w' = disk w
  /\ _initialized (svc w') = _initialized (svc w)
  /\ (reads w <= reads w')%nat.

(** [m] run in a state with a well-formed cache succeeds with a result
    satisfying [Q], extends the world, keeps the cache well-formed and
    adds the keys [K] to it. *)
Definition triple {A : Type} (clock : nat -> datetime) (K : gset string) (m : M A)
    (Q : A -> Prop) : Prop :=
  forall w : world,
    cache_wf (_cache (svc w)) ->
    exists (a : A) (w' : world),
      m w = (Ok a, w')
      /\ Q a
      /\ extends clock w w'
      /\ cache_wf (_cache (svc w'))
      /\ dom (_cache (svc w')) = dom (_cache (svc w)) ∪ K.

(** A response with a field [k]. *)
Definition has_field (k : string) (resp : pyval) : Prop :=
  exists v, PyVal.getitem resp k = Ok v.

(** The destinations after the loop that adds the calculated fields. *)
Definition destinations_with_fields : list pyval :=
  Eval vm_compute in
    match rmapi (fun _ d => add_calculated_fields d) 0 destinations_literal with
    | Ok l => l
    | Raise _ => []
    end.

(** [round(total, 1)] of the destinations. *)
Definition destinations_total : pyval :=
  Eval vm_compute in
    match (let* t := PyVal.sum_gen (fun d => PyVal.getitem d "volumeMmt")
                       destinations_with_fields in
           PyVal.round t 1)%res with
    | Ok t => t
    | Raise _ => PyNone
    end.

(** [get_status] lists [k] among its cache keys. *)
Definition status_lists_cache_key (k : string) (resp : pyval) : Prop :=
  exists keys : list pyval,
    response_field "cache_keys" resp = Some (PyList keys) /\ In (PyStr k) keys.

(** [get_status] lists a timestamp for [k]. *)
Definition status_lists_stamp (k : string) (resp : pyval) : Prop :=
  exists (entries : list (string * pyval)) (v : pyval),
    response_field "last_updated" resp = Some (PyDict entries) /\ In (k, v) entries.

(** The public methods of the service, as the routes and the lifecycle
    hooks of the application call them. *)
Inductive call : Type :=
| CallFetch (f : fetch)
| CallSoyComplex
| CallDashboard
| CallStatus
| CallRefresh
| CallInitialize
| CallCleanup.

(** What a call returns: the response dict, or [None] for the methods
    that return nothing. *)
Definition run_call (clock : nat -> datetime) (c : call) : M pyval :=
  match c with
  | CallFetch f => run_fetch clock f
  | CallSoyComplex => get_soy_complex_balance clock
  | CallDashboard => get_dashboard_summary clock
  | CallStatus => get_status
  | CallRefresh => (refresh_all clock ;;; ret PyNone)%svc
  | CallInitialize => (initialize ;;; ret PyNone)%svc
  | CallCleanup => (cleanup ;;; ret PyNone)%svc
  end.

(** The states a deployment goes through: a first start with no cache
    file, then any sequence of calls (whether they return or raise), and
    restarts, which build a new service next to the file the old one
    left. *)
Inductive reachable (clock : nat -> datetime) : world -> Prop :=
| reachable_start : reachable clock initial_world
| reachable_call (c : call) (w w' : world) (r : result pyval) :
    reachable clock w -> run_call clock c w = (r, w') -> reachable clock w'
| reachable_restart (w : world) :
    reachable clock w ->
    reachable clock {| svc := new_service; disk := disk w; reads := reads w |}.

(** The keys a fetch may add to the cache. *)
Definition fetch_keys (f : fetch) : gset string :=
  match fetch_cache_key f with
  | Some key => {[ key ]}
  | None => ∅
  end.

(** The document [_save_cache_to_disk] writes for a service. *)
Definition saved_document (s : service) : cache_file :=
  {| file_cache := Some (_cache s);
     file_last_updated :=
       Some ((fun t => PyStr (Datetime.isoformat t)) <$> last_updated s) |}.

(** The row [price_row] builds once its computed fields are known. *)
Definition price_row_dict (year : Z) (month_idx : nat) (month_name loc : string)
    (price : Z) (price_usd mom_change : pyval) : pyval :=
  PyDict [("year", PyInt year);
          ("month", PyInt (Z.of_nat month_idx + 1));
          ("monthName", PyStr month_name);
          ("location", PyStr loc);
          ("priceBrl", PyInt price);
          ("priceUsd", price_usd);
          ("momChangePct", mom_change)].

(** The dict [get_dashboard_summary] returns, given the clock reading it
    is stamped with and the rows of its four monthly-exports series and
    four price series. *)
Definition dashboard_response (now : datetime)
    (e_soy_2024 e_soy_2025 e_corn_2024 e_corn_2025 : list pyval)
    (pr_soy_2024 pr_soy_2025 pr_corn_2024 pr_corn_2025 : list pyval) : pyval :=
  PyDict
    [("success", PyBool true);
     ("last_updated", PyDatetime now);
     ("data_sources", PyList [PyStr "CONAB"; PyStr "SECEX/MDIC ComexStat"]);
     ("production",
      PyDict [("soybeans", PyList (_get_production_fallback "soybeans"));
              ("corn", PyList (_get_production_fallback "corn"))]);
     ("balance_sheets",
      PyDict [("soybeans", PyList (_get_balance_sheet_fallback "soybeans"));
              ("corn", PyList (_get_balance_sheet_fallback "corn"))]);
     ("monthly_exports",
      PyDict [("soybeans", PyDict [("2024", PyList e_soy_2024);
                                   ("2025", PyList e_soy_2025)]);
              ("corn", PyDict [("2024", PyList e_corn_2024);
                               ("2025", PyList e_corn_2025)])]);
     ("monthly_prices",
      PyDict [("soybeans", PyDict [("2024", PyList pr_soy_2024);
                                   ("2025", PyList pr_soy_2025)]);
              ("corn", PyDict [("2024", PyList pr_corn_2024);
                               ("2025", PyList pr_corn_2025)])]);
     ("export_destinations", PyDict [("soybeans", PyList destinations_with_fields)]);
     ("export_ports", PyList ports_literal);
     ("soy_complex",
      PyDict [("soja_graos", PyList soja_graos); ("farelo", PyList farelo);
              ("oleo", PyList oleo)]);
     ("survey_data", survey_data)].

(** The rows of a monthly-exports series of the dashboard. *)
Definition exports_series (commodity : string) (year : Z) (rows : list pyval) : Prop :=
  length rows = 12%nat /\ export_rows_of commodity year (PyList rows).

(** The rows of a price series of the dashboard: all the locations of
    the commodity. *)
Definition prices_series (commodity : string) (year : Z) (rows : list pyval) : Prop :=
  _get_prices_fallback commodity year None = Ok rows.

(** What the dashboard summary is made of. *)
Definition dashboard_sections (resp : pyval) : Prop :=
  exists (now : datetime)
         (e_soy_2024 e_soy_2025 e_corn_2024 e_corn_2025 : list pyval)
         (pr_soy_2024 pr_soy_2025 pr_corn_2024 pr_corn_2025 : list pyval),
    resp = dashboard_response now e_soy_2024 e_soy_2025 e_corn_2024 e_corn_2025
             pr_soy_2024 pr_soy_2025 pr_corn_2024 pr_corn_2025
    /\ exports_series "soybeans" 2024 e_soy_2024
    /\ exports_series "soybeans" 2025 e_soy_2025
    /\ exports_series "corn" 2024 e_corn_2024
    /\ exports_series "corn" 2025 e_corn_2025
    /\ prices_series "soybeans" 2024 pr_soy_2024
    /\ prices_series "soybeans" 2025 pr_soy_2025
    /\ prices_series "corn" 2024 pr_corn_2024
    /\ prices_series "corn" 2025 pr_corn_2025
    /\ length pr_soy_2024 = 36%nat /\ length pr_soy_2025 = 36%nat
    /\ length pr_corn_2024 = 24%nat /\ length pr_corn_2025 = 24%nat.

(** ** The response models ([models.py]) *)

Module Models.

(** The type annotations the models use; a model is the list of its
    fields. *)
Inductive annotation : Type :=
| TStr
| TInt
| TFloat
| TBool
| TDatetime
| TAny
| TOptional (t : annotation)
| TList (t : annotation)
| TDict (t : annotation)
| TModel (populate_by_name : bool) (fields : list model_field)
with model_field : Type :=
| Field (name alias : string) (t : annotation) (required : bool).

(** A field declared with [...] or without a default is required; one
    with a default is not. *)
Definition required (name : string) (t : annotation) : model_field :=
  Field name name t true.

Definition required_alias (name alias : string) (t : annotation) : model_field :=
  Field name alias t true.

Definition optional (name : string) (t : annotation) : model_field :=
  Field name name t false.

Definition optional_alias (name alias : string) (t : annotation) : model_field :=
  Field name alias t false.

(** The entry of a dict that populates a field: the one under the
    alias, or under the field name when the model allows it. *)
Definition lookup_field (populate_by_name : bool) (name alias : string)
    (d : list (string * pyval)) : option pyval :=
  match PyVal.assoc alias d with
  | Some v => Some v
  | None => if populate_by_name then PyVal.assoc name d else None
  end.

(** A value has the shape an annotation declares: the declared kind of
    value ([float] takes an [int] too, [Optional] takes [None]), element
    by element for lists and dicts, and for a model a dict that has
    every required field and, for each field it has, a value of the
    field's shape. Keys that are no field of the model do not matter. *)
Fixpoint conforms (t : annotation) (v : pyval) {struct t} : bool :=
  match t with
  | TStr => match v with PyStr _ => true | _ => false end
  | TInt => match v with PyInt _ => true | _ => false end
  | TFloat => match v with PyFloat _ | PyInt _ => true | _ => false end
  | TBool => match v with PyBool _ => true | _ => false end
  | TDatetime => match v with PyDatetime _ => true | _ => false end
  | TAny => true
  | TOptional t' => match v with PyNone => true | _ => conforms t' v end
  | TList t' => match v with PyList l => forallb (conforms t') l | _ => false end
  | TDict t' =>
      match v with
      | PyDict d => forallb (fun kv => conforms t' (snd kv)) d
      | _ => false
      end
  | TModel by_name fields =>
      match v with
      | PyDict d =>
          (fix go (fs : list model_field) : bool :=
             match fs with
             | [] => true
             | Field name alias t' is_required :: fs' =>
                 match lookup_field by_name name alias d with
                 | Some x => conforms t' x
                 | None => negb is_required
                 end && go fs'
             end) fields
      | _ => false
      end
  end.

Definition BalanceSheetRow : annotation :=
  TModel true
    [required "year" TStr;
     required_alias "opening_stock" "openingStock" TFloat;
     required "production" TFloat;
     required "imports" TFloat;
     optional_alias "total_supply" "totalSupply" (TOptional TFloat);
     required "consumption" TFloat;
     required "exports" TFloat;
     required_alias "ending_stock" "endingStock" TFloat;
     optional_alias "is_projection" "isProjection" TBool].

Definition BalanceSheetResponse : annotation :=
  TModel false
    [optional "success" TBool;
     required "commodity" TStr;
     optional "unit" TStr;
     optional "source" TStr;
     required "last_updated" TDatetime;
     required "data" (TList BalanceSheetRow)].

Definition SoyComplexRow : annotation :=
  TModel false
    [required "safra" TStr;
     required "estoque_inicial" TFloat;
     required "producao" TFloat;
     required "importacao" TFloat;
     required "suprimento" TFloat;
     required "consumo" TFloat;
     required "exportacao" TFloat;
     required "estoque_final" TFloat].

Definition SoyComplexResponse : annotation :=
  TModel false
    [optional "success" TBool;
     optional "source" TStr;
     optional "note" TStr;
     optional "unit" TStr;
     required "last_updated" TDatetime;
     required "soja_graos" (TList SoyComplexRow);
     required "farelo" (TList SoyComplexRow);
     required "oleo" (TList SoyComplexRow)].

Definition MonthlyExportRow : annotation :=
  TModel true
    [required "year" TInt;
     required "month" TInt;
     required_alias "month_name" "monthName" TStr;
     required_alias "volume_mt" "volumeMt" TFloat;
     required_alias "volume_mmt" "volumeMmt" TFloat;
     required_alias "value_usd" "valueUsd" TFloat;
     optional_alias "to_china_mt" "toChinaMt" (TOptional TFloat);
     optional_alias "to_china_pct" "toChinaPct" (TOptional TFloat);
     optional_alias "is_partial" "isPartial" TBool].

Definition MonthlyExportsResponse : annotation :=
  TModel true
    [optional "success" TBool;
     required "commodity" TStr;
     required_alias "ncm_code" "ncmCode" TStr;
     required "year" TInt;
     optional "source" TStr;
     required "last_updated" TDatetime;
     required "data" (TList MonthlyExportRow);
     required_alias "ytd_total_mmt" "ytdTotalMmt" TFloat;
     optional_alias "ytd_to_china_mmt" "ytdToChinaMmt" (TOptional TFloat)].

Definition ExportDestination : annotation :=
  TModel true
    [required_alias "country_code" "countryCode" TStr;
     required_alias "country_name" "countryName" TStr;
     required_alias "volume_mt" "volumeMt" TFloat;
     required_alias "volume_mmt" "volumeMmt" TFloat;
     required_alias "value_usd" "valueUsd" TFloat;
     required_alias "share_pct" "sharePct" TFloat].

Definition ExportsByDestinationResponse : annotation :=
  TModel true
    [optional "success" TBool;
     required "commodity" TStr;
     required "year" TInt;
     optional "source" TStr;
     required "last_updated" TDatetime;
     required_alias "total_mmt" "totalMmt" TFloat;
     required "data" (TList ExportDestination)].

Definition ExportPort : annotation :=
  TModel true
    [required_alias "port_name" "portName" TStr;
     required "state" TStr;
     required_alias "volume_mmt" "volumeMmt" TFloat;
     required_alias "share_pct" "sharePct" TFloat].

Definition ExportsByPortResponse : annotation :=
  TModel true
    [optional "success" TBool;
     required "commodity" TStr;
     required "year" TInt;
     optional "source" TStr;
     required "last_updated" TDatetime;
     required "data" (TList ExportPort)].

Definition ProductionRow : annotation :=
  TModel true
    [required_alias "crop_year" "cropYear" TStr;
     optional "state" (TOptional TStr);
     required_alias "area_mha" "areaMha" TFloat;
     required_alias "production_mmt" "productionMmt" TFloat;
     required_alias "yield_mt_ha" "yieldMtHa" TFloat;
     optional_alias "is_projection" "isProjection" TBool].

Definition ProductionResponse : annotation :=
  TModel false
    [optional "success" TBool;
     required "commodity" TStr;
     optional "source" TStr;
     required "last_updated" TDatetime;
     required "data" (TList ProductionRow)].

Definition MonthlyPriceRow : annotation :=
  TModel true
    [required "year" TInt;
     required "month" TInt;
     required_alias "month_name" "monthName" TStr;
     required "location" TStr;
     required_alias "price_brl" "priceBrl" TFloat;
     optional_alias "price_usd" "priceUsd" (TOptional TFloat);
     optional_alias "mom_change_pct" "momChangePct" (TOptional TFloat)].

Definition MonthlyPricesResponse : annotation :=
  TModel false
    [optional "success" TBool;
     required "commodity" TStr;
     optional "unit" TStr;
     optional "source" TStr;
     required "last_updated" TDatetime;
     required "data" (TList MonthlyPriceRow)].

Definition CommoditySummary : annotation :=
  TModel false
    [required "current_year" TStr;
     required "production_mmt" TFloat;
     required "exports_mmt" TFloat;
     required "ending_stock_mmt" TFloat;
     required "yoy_production_pct" TFloat;
     required "yoy_exports_pct" TFloat].

Definition DashboardSummaryResponse : annotation :=
  TModel false
    [optional "success" TBool;
     required "last_updated" TDatetime;
     required "data_sources" (TList TStr);
     required "production" (TDict (TList (TDict TAny)));
     required "balance_sheets" (TDict (TList (TDict TAny)));
     required "monthly_exports" (TDict (TDict (TList (TDict TAny))));
     required "monthly_prices" (TDict (TDict (TList (TDict TAny))));
     required "export_destinations" (TDict (TList (TDict TAny)));
     required "export_ports" (TList (TDict TAny));
     required "soy_complex" (TDict (TList (TDict TAny)));
     required "survey_data" (TDict (TList (TDict TAny)))].

End Models.

(** ** The application ([main.py]) *)

Module Main.

(** [class Commodity(str, Enum)] and the [value] of its members. *)
Inductive Commodity : Type :=
| SOYBEANS
| CORN
| SOY_MEAL
| SOY_OIL
| WHEAT.

Definition value (c : Commodity) : string :=
  match c with
  | SOYBEANS => "soybeans"
  | CORN => "corn"
  | SOY_MEAL => "soy_meal"
  | SOY_OIL => "soy_oil"
  | WHEAT => "wheat"
  end.

(** How a route function ends: it returns a value, or raises an
    [HTTPException]. *)
Inductive outcome : Type :=
| Returned (body : pyval)
| HTTPException (status_code : Z) (detail : string).

Definition Route : Type := world -> outcome * world.

Section Routes.

Variable clock : nat -> datetime.

(** [str(e)], the message of an exception. *)
Variable str : exn -> string.

(** [try: return await m except Exception as e: raise
    HTTPException(status_code=500, detail=str(e))]. *)
Definition guarded (m : M pyval) : Route :=
  fun w =>
    match m w with
    | (Ok body, w') => (Returned body, w')
    | (Raise e, w') => (HTTPException 500 (str e), w')
    end.

Definition get_dashboard_summary : Route :=
  guarded (get_dashboard_summary clock).

Definition get_balance_sheet (commodity : Commodity) (years : Z) : Route :=
  guarded (get_balance_sheet clock (value commodity) years).

Definition get_soy_complex_balance : Route :=
  guarded (get_soy_complex_balance clock).

Definition get_monthly_exports (commodity : Commodity) (year : Z)
    (include_china : bool) : Route :=
  guarded (get_monthly_exports clock (value commodity) year include_china).

Definition get_exports_by_destination (commodity : Commodity) (year top_n : Z)
  : Route :=
  guarded (get_exports_by_destination clock (value commodity) year top_n).

Definition get_exports_by_port (commodity : Commodity) (year : Z) : Route :=
  guarded (get_exports_by_port clock (value commodity) year).

Definition get_production (commodity : Commodity) (years : Z)
    (state : option string) : Route :=
  guarded (get_production clock (value commodity) years state).

Definition get_prices (commodity : Commodity) (year : Z) (location : option string)
  : Route :=
  guarded (get_monthly_prices clock (value commodity) year location).

(** [refresh_data]: the outcome, and the tasks it adds to the
    background tasks, which run once the response is sent. [environ] is
    [os.environ]. *)
Definition refresh_data (environ : list (string * string)) (api_key : string)
  : outcome * list (M unit) :=
  let expected_key :=
    default "farmhandpro-refresh-2025" (PyVal.assoc "ADMIN_API_KEY" environ) in
  if negb (String.eqb api_key expected_key)
  then (HTTPException 401 "Invalid API key", [])
  else (Returned (PyDict [("status", PyStr "refresh_started")]), [refresh_all clock]).

End Routes.

(** The routes that serve data, with their parameters, the function each
    is bound to and the [response_model] it is declared with. *)
Inductive data_route : Type :=
| DashboardSummary
| BalanceSheet (commodity : Commodity) (years : Z)
| SoyComplexBalance
| MonthlyExports (commodity : Commodity) (year : Z) (include_china : bool)
| ExportsByDestination (commodity : Commodity) (year top_n : Z)
| ExportsByPort (commodity : Commodity) (year : Z)
| Production (commodity : Commodity) (years : Z) (state : option string)
| Prices (commodity : Commodity) (year : Z) (location : option string).

Definition endpoint (clock : nat -> datetime) (str : exn -> string) (r : data_route)
  : Route :=
  match r with
  | DashboardSummary => get_dashboard_summary clock str
  | BalanceSheet c years => get_balance_sheet clock str c years
  | SoyComplexBalance => get_soy_complex_balance clock str
  | MonthlyExports c year ic => get_monthly_exports clock str c year ic
  | ExportsByDestination c year top_n => get_exports_by_destination clock str c year top_n
  | ExportsByPort c year => get_exports_by_port clock str c year
  | Production c years state => get_production clock str c years state
  | Prices c year location => get_prices clock str c year location
  end.

Definition response_model (r : data_route) : Models.annotation :=
  match r with
  | DashboardSummary => Models.DashboardSummaryResponse
  | BalanceSheet _ _ => Models.BalanceSheetResponse
  | SoyComplexBalance => Models.SoyComplexResponse
  | MonthlyExports _ _ _ => Models.MonthlyExportsResponse
  | ExportsByDestination _ _ _ => Models.ExportsByDestinationResponse
  | ExportsByPort _ _ => Models.ExportsByPortResponse
  | Production _ _ _ => Models.ProductionResponse
  | Prices _ _ _ => Models.MonthlyPricesResponse
  end.

End Main.

(** The JSON values that have no length: [null], booleans and
    numbers. *)
Definition scalar (v : pyval) : bool :=
  match v with
  | PyNone | PyBool _ | PyInt _ | PyFloat _ => true
  | _ => false
  end.

(** * Properties *)

(** ** The effect monad *)

Lemma bind_ok {A B : Type} (m : M A) (k : A -> M B) (w w' : world) (a : A) :
  m w = (Ok a, w') -> bind m k w = k a w'.
Proof. intros H. unfold bind. now rewrite H. Qed.

Lemma bind_raise {A B : Type} (m : M A) (k : A -> M B) (w w' : world) (e : exn) :
  m w = (Raise e, w') -> bind m k w = (Raise e, w').
Proof. intros H. unfold bind. now rewrite H. Qed.

Lemma bind_inv {A B : Type} (m : M A) (k : A -> M B) (w w2 : world) (b : B) :
  bind m k w = (Ok b, w2) ->
  exists a w1, m w = (Ok a, w1) /\ k a w1 = (Ok b, w2).
Proof.
  unfold bind. destruct (m w) as [[a|e] w1]; intros H.
  - now exists a, w1.
  - discriminate.
Qed.

Lemma lift_inv {A : Type} (r : result A) (w w' : world) (a : A) :
  lift r w = (Ok a, w') -> r = Ok a /\ w' = w.
Proof. unfold lift. intros H. now inversion H. Qed.

Lemma ret_inv {A : Type} (a b : A) (w w' : world) :
  ret a w = (Ok b, w') -> b = a /\ w' = w.
Proof. unfold ret. intros H. now inversion H. Qed.

Section Properties.

Variable clock : nat -> datetime.

(** ** Production: the [state] argument *)

(** C9. [get_production] never looks at [state]: for any two values of
    the argument (absent included) the call succeeds with the same
    response, hence the same [data] rows, and leaves the service in the
    same state. *)
Theorem get_production_ignores_state :
  forall (commodity : string) (years : Z) (state1 state2 : option string)
         (w : world),
    get_production clock commodity years state1 w
    = get_production clock commodity years state2 w
    /\ exists resp w',
         get_production clock commodity years state1 w = (Ok resp, w')
         /\ response_field "data" resp
            = Some (PyList (PyVal.slice_from
                              (_get_production_fallback commodity) (- years))).
Proof.
  intros commodity years state1 state2 w. split; [reflexivity|].
  eexists _, _. split; reflexivity.
Qed.

End Properties.

(** ** Cache keys *)

Lemma append_nil (s : string) : "" +:+ s = s.
Proof. reflexivity. Qed.

Lemma append_cons (c : ascii) (a b : string) : String c a +:+ b = String c (a +:+ b).
Proof. reflexivity. Qed.

Lemma no_underscore_app (a b : string) :
  no_underscore (a +:+ b) = no_underscore a && no_underscore b.
Proof.
  induction a as [|c a IH]; [reflexivity|].
  rewrite append_cons. cbn [no_underscore]. rewrite IH. now rewrite andb_assoc.
Qed.

(** Splitting at the last underscore is unambiguous. *)
Lemma append_separator_inj (a b x y : string) :
  no_underscore x = true ->
  no_underscore y = true ->
  a +:+ "_" +:+ x = b +:+ "_" +:+ y ->
  a = b /\ x = y.
Proof.
  intros Hx Hy. revert b. induction a as [|c a IH]; intros [|c' b] H;
    rewrite ?append_cons, ?append_nil in H.
  - injection H as H. now split.
  - injection H as Hc Hrest. rewrite Hrest, no_underscore_app in Hx.
    rewrite ?append_cons in Hx. cbn [no_underscore] in Hx.
    replace (Ascii.eqb "_" "_") with true in Hx by reflexivity.
    cbn [negb andb] in Hx. rewrite andb_false_r in Hx. discriminate.
  - injection H as Hc Hrest. rewrite <- Hrest, no_underscore_app in Hy.
    rewrite ?append_cons in Hy. cbn [no_underscore] in Hy.
    replace (Ascii.eqb "_" "_") with true in Hy by reflexivity.
    cbn [negb andb] in Hy. rewrite andb_false_r in Hy. discriminate.
  - injection H as Hc Hrest.
    destruct (IH b Hrest) as [-> ->]. now subst c'.
Qed.

Lemma pretty_N_char_no_underscore (x : N) :
  Ascii.eqb (pretty_N_char x) "_" = false.
Proof. unfold pretty_N_char. now repeat case_match. Qed.

Lemma pretty_N_go_no_underscore (x : N) :
  forall s : string, no_underscore s = true -> no_underscore (pretty_N_go x s) = true.
Proof.
  induction (N.lt_wf_0 x) as [x _ IH]; intros s Hs.
  assert (x = 0 \/ 0 < x)%N as [->|Hpos] by lia.
  - now rewrite pretty_N_go_0.
  - rewrite pretty_N_go_step by assumption. apply IH.
    + now apply N.div_lt.
    + cbn [no_underscore]. now rewrite pretty_N_char_no_underscore, Hs.
Qed.

Lemma pretty_N_no_underscore (x : N) : no_underscore (pretty x) = true.
Proof.
  unfold pretty, pretty_N. case_decide; [reflexivity|].
  now apply pretty_N_go_no_underscore.
Qed.

(** The decimal text of an int has no underscore. *)
Lemma pretty_Z_no_underscore (z : Z) : no_underscore (pretty z) = true.
Proof.
  destruct z as [|p|p]; unfold pretty, pretty_Z.
  - reflexivity.
  - apply pretty_N_no_underscore.
  - rewrite no_underscore_app.
    replace (no_underscore "-") with true by reflexivity. cbn [andb].
    apply (pretty_N_no_underscore (N.pos p)).
Qed.

Lemma append_inj_l (p a b : string) : p +:+ a = p +:+ b -> a = b.
Proof.
  induction p as [|c p IH]; [easy|]. rewrite !append_cons. intros [= H]. auto.
Qed.

(** Distinct queries have distinct cache keys. *)
Lemma exports_key_inj (c1 c2 : string) (y1 y2 : Z) :
  exports_key c1 y1 = exports_key c2 y2 -> c1 = c2 /\ y1 = y2.
Proof.
  unfold exports_key. intros H. apply append_inj_l in H.
  apply append_separator_inj in H as [-> Hy];
    [|apply pretty_Z_no_underscore..].
  split; [reflexivity|]. now apply (inj pretty).
Qed.

Lemma balance_key_inj (c1 c2 : string) :
  "balance_" +:+ c1 = "balance_" +:+ c2 -> c1 = c2.
Proof. apply append_inj_l. Qed.

Lemma balance_key_not_exports (c1 c2 : string) (y : Z) :
  "balance_" +:+ c1 <> exports_key c2 y.
Proof. unfold exports_key. rewrite !append_cons. discriminate. Qed.

(** ** Well-formed caches *)

Lemma cache_wf_balance (c : gmap string pyval) (commodity : string) (v : pyval) :
  cache_wf c ->
  c !! ("balance_" +:+ commodity) = Some v ->
  v = PyList (_get_balance_sheet_fallback commodity).
Proof.
  intros Hwf Hk. destruct (Hwf _ _ Hk) as [(com & Hkey & ->)|(com & y & Hkey & _)].
  - now apply balance_key_inj in Hkey as <-.
  - now apply balance_key_not_exports in Hkey.
Qed.

Lemma cache_wf_exports (c : gmap string pyval) (commodity : string) (year : Z)
    (v : pyval) :
  cache_wf c ->
  c !! exports_key commodity year = Some v ->
  export_rows_of commodity year v.
Proof.
  intros Hwf Hk. destruct (Hwf _ _ Hk) as [(com & Hkey & _)|(com & y & Hkey & Hv)].
  - symmetry in Hkey. now apply balance_key_not_exports in Hkey.
  - now apply exports_key_inj in Hkey as [<- <-].
Qed.

Lemma cache_wf_empty : cache_wf ∅.
Proof. intros key v H. now rewrite lookup_empty in H. Qed.

Lemma cache_wf_insert (c : gmap string pyval) (key : string) (v : pyval) :
  cache_wf c -> entry_wf key v -> cache_wf (<[key := v]> c).
Proof.
  intros Hwf Hv k v' Hk. destruct (decide (k = key)) as [->|Hne].
  - rewrite lookup_insert_eq in Hk. now injection Hk as <-.
  - rewrite lookup_insert_ne in Hk by congruence. now apply Hwf.
Qed.

(** ** Slices *)

Lemma slice_from_last {A : Type} (l : list A) (n : Z) :
  (1 <= n)%Z -> PyVal.slice_from l (- n) = drop (length l - Z.to_nat n) l.
Proof.
  intros Hn. unfold PyVal.slice_from, PyVal.clamp_index.
  destruct (Z.ltb_spec (- n) 0) as [_|H]; [|lia].
  f_equal. lia.
Qed.

Lemma slice_from_all {A : Type} (l : list A) (n : Z) :
  (Z.of_nat (length l) <= n)%Z -> PyVal.slice_from l (- n) = l.
Proof.
  intros Hn. unfold PyVal.slice_from, PyVal.clamp_index.
  destruct (Z.ltb_spec (- n) 0) as [H|H].
  - replace (Z.to_nat _) with 0%nat by lia. reflexivity.
  - replace (Z.to_nat _) with 0%nat by lia. reflexivity.
Qed.

Lemma ascending_years_drop (k : nat) (rows : list pyval) :
  ascending_years rows = true -> ascending_years (drop k rows) = true.
Proof.
  revert rows. induction k as [|k IH]; intros rows Hs.
  - now rewrite drop_0.
  - destruct rows as [|r rest]; [reflexivity|].
    cbn [drop]. apply IH.
    destruct rest as [|r' rest']; [reflexivity|].
    cbn [ascending_years] in Hs. apply andb_true_iff in Hs. tauto.
Qed.

Lemma balance_sheet_table_ascending (commodity : string) :
  ascending_years (_get_balance_sheet_fallback commodity) = true.
Proof.
  unfold _get_balance_sheet_fallback, balance_sheet_table.
  cbn [PyVal.assoc].
  repeat (destruct (String.eqb commodity _); [vm_compute; reflexivity|]).
  reflexivity.
Qed.

(** ** Balance sheet *)

Section BalanceSheet.

Variable clock : nat -> datetime.

Lemma get_balance_sheet_fresh (commodity : string) (years : Z) (w : world) :
  _cache (svc w) !! ("balance_" +:+ commodity) = None ->
  get_balance_sheet clock commodity years w
  = (Ok (balance_response commodity (clock (reads w))
           (PyList (PyVal.slice_from (_get_balance_sheet_fallback commodity) (- years)))),
     set_last_updated
       (<["balance_" +:+ commodity := clock (reads w)]> (last_updated (svc w)))
       (set_reads (S (reads w))
          (set_cache (<["balance_" +:+ commodity :=
                        PyList (_get_balance_sheet_fallback commodity)]> (_cache (svc w))) w))).
Proof.
  intros Hnone. unfold get_balance_sheet, bind, read_cache.
  rewrite Hnone. unfold cache_store, datetime_now, stamp_store, read_last_updated, lift, ret.
  cbn [svc set_cache set_reads set_last_updated last_updated reads].
  rewrite lookup_insert_eq. reflexivity.
Qed.

Lemma get_balance_sheet_cached (commodity : string) (years : Z) (w : world)
    (rows : list pyval) :
  _cache (svc w) !! ("balance_" +:+ commodity) = Some (PyList rows) ->
  get_balance_sheet clock commodity years w
  = (Ok (balance_response commodity
           (default (clock (reads w)) (last_updated (svc w) !! ("balance_" +:+ commodity)))
           (PyList (PyVal.slice_from rows (- years)))),
     set_reads (S (reads w)) w).
Proof.
  intros Hsome. unfold get_balance_sheet, bind, read_cache.
  rewrite Hsome. unfold lift, ret, stamp_or_now, bind, datetime_now, read_last_updated, ret.
  cbn [PyVal.len PyVal.slice_from_val svc set_reads].
  destruct (Z.ltb_spec years (Z.of_nat (length rows))) as [H|H].
  - reflexivity.
  - rewrite slice_from_all by lia. reflexivity.
Qed.

(** C4. In a well-formed state and for [years >= 1],
    [get_balance_sheet] returns at most [years] rows: the last rows of
    the stored series of the commodity, in the stored order, which is
    ascending in the crop year. For soybeans and [years = 2] these are
    the rows of 2024/25 and 2025/26, and only the second carries
    [isProjection] (set to true). *)
Theorem balance_sheet_most_recent_rows :
  forall (commodity : string) (years : Z) (w : world),
    world_wf w ->
    (1 <= years)%Z ->
    let stored := _get_balance_sheet_fallback commodity in
    exists (resp : pyval) (w' : world) (rows : list pyval),
      get_balance_sheet clock commodity years w = (Ok resp, w')
      /\ response_field "data" resp = Some (PyList rows)
      /\ (Z.of_nat (length rows) <= years)%Z
      /\ rows = drop (length stored - Z.to_nat years) stored
      /\ ascending_years rows = true
      /\ (commodity = "soybeans" -> years = 2%Z ->
          exists r1 r2 : pyval,
            rows = [r1; r2]
            /\ crop_year r1 = "2024/25"
            /\ crop_year r2 = "2025/26"
            /\ response_field "isProjection" r1 = None
            /\ response_field "isProjection" r2 = Some (PyBool true)).
Proof.
  intros commodity years w [[Hwf _] _] Hyears stored.
  assert (Hrun : exists resp w',
             get_balance_sheet clock commodity years w = (Ok resp, w')
             /\ response_field "data" resp
                = Some (PyList (PyVal.slice_from stored (- years)))).
  { destruct (_cache (svc w) !! ("balance_" +:+ commodity)) as [v|] eqn:Hk.
    - rewrite (cache_wf_balance _ _ _ Hwf Hk) in Hk.
      rewrite (get_balance_sheet_cached _ _ _ _ Hk). eexists _, _. split; reflexivity.
    - rewrite (get_balance_sheet_fresh _ _ _ Hk). eexists _, _. split; reflexivity. }
  destruct Hrun as (resp & w' & Hrun & Hdata).
  exists resp, w', (PyVal.slice_from stored (- years)).
  rewrite slice_from_last by assumption.
  repeat split; try assumption.
  - now rewrite <- slice_from_last.
  - rewrite length_drop. lia.
  - apply ascending_years_drop, balance_sheet_table_ascending.
  - intros -> ->. eexists _, _. subst stored. vm_compute. repeat split; reflexivity.
Qed.
End BalanceSheet.

Lemma initial_world_wf : world_wf initial_world.
Proof.
  repeat split.
  - apply cache_wf_empty.
  - cbn. set_solver.
  - cbn. apply map_Forall_empty.
Qed.

Lemma balance_sheet_most_recent_rows_witness :
  exists (resp : pyval) (w' : world) (rows : list pyval),
    get_balance_sheet example_clock "wheat" 2 initial_world
    = (Ok resp, w')
    /\ response_field "data" resp = Some (PyList rows)
    /\ (Z.of_nat (length rows) <= 2)%Z.
Proof.
  destruct (balance_sheet_most_recent_rows example_clock
              "wheat" 2 initial_world initial_world_wf ltac:(lia))
    as (resp & w' & rows & H1 & H2 & H3 & _).
  exists resp, w', rows. repeat split; assumption.
Defined.

(** ** Monthly exports: the fallback rows *)

Lemma float_of_int_million : PyNum.float_of_int 1000000 = Ok 1000000%float.
Proof. vm_compute. reflexivity. Qed.

Lemma float_of_int_420m : PyNum.float_of_int 420000000 = Ok 420000000%float.
Proof. vm_compute. reflexivity. Qed.

Lemma float_of_int_hundred : PyNum.float_of_int 100 = Ok 100%float.
Proof. vm_compute. reflexivity. Qed.

Lemma mul_float_int (v f : float) (z : Z) :
  PyNum.float_of_int z = Ok f ->
  PyVal.mul (PyFloat v) (PyInt z) = Ok (PyFloat (v * f)%float).
Proof.
  intros H. unfold PyVal.mul, PyVal.arith. cbn [PyVal.as_num rbind].
  unfold PyNum.mul, PyNum.float_binop. cbn [PyNum.to_float rbind]. now rewrite H.
Qed.

Lemma mul_float_float (v f : float) :
  PyVal.mul (PyFloat v) (PyFloat f) = Ok (PyFloat (v * f)%float).
Proof. reflexivity. Qed.

Lemma truediv_int_int (a b : Z) :
  (0 < b)%Z ->
  PyVal.truediv (PyInt a) (PyInt b)
  = if PyNum.is_finite (PyNum.nearest_float a b)
    then Ok (PyFloat (PyNum.nearest_float a b)) else Raise OverflowError.
Proof.
  intros Hb. unfold PyVal.truediv, PyVal.arith. cbn [PyVal.as_num rbind].
  unfold PyNum.truediv.
  destruct (Z.eqb_spec b 0) as [->|_]; [lia|].
  destruct (Z.ltb_spec b 0) as [H|_]; [lia|].
  now destruct (PyNum.is_finite _).
Qed.

Lemma round_float_val (v : float) (n : Z) :
  PyVal.round (PyFloat v) n
  = (let* y := PyNum.round_float v n in Ok (PyFloat y))%res.
Proof.
  unfold PyVal.round. cbn [PyVal.as_num rbind PyNum.round].
  now destruct (PyNum.round_float v n).
Qed.

Lemma rmapi_ext_from {A B : Type} (f g : nat -> A -> result B) (xs : list A) :
  forall start : nat,
    (forall i x, (start <= i)%nat -> f i x = g i x) ->
    rmapi f start xs = rmapi g start xs.
Proof.
  induction xs as [|x xs IH]; intros start H; [reflexivity|].
  cbn [rmapi]. rewrite (H start x) by lia.
  rewrite (IH (S start)); [reflexivity|]. intros i y Hi. apply H. lia.
Qed.

Section ExportRows.
Variable clock : nat -> datetime.

Lemma export_row_tail (commodity : string) (year : Z) (month_idx : nat)
    (v : float) (p : bool) (w : world) :
  (let* month_name := lift (PyVal.index MONTH_NAMES month_idx) in
     let* volume_mt := lift (PyVal.mul (PyFloat v) (PyInt 1000000)) in
     let* volume_mmt := lift (PyVal.round (PyFloat v) 2) in
     let* value_usd := lift (PyVal.mul (PyFloat v) (PyInt 420000000)) in
     let* to_china_mt :=
       (if has_china_split commodity
        then
          let* mt := lift (PyVal.mul (PyFloat v) (PyInt 1000000)) in
          lift (PyVal.mul mt (PyFloat (china_share commodity)))
        else ret PyNone) in
     let* to_china_pct :=
       (if has_china_split commodity
        then lift (PyVal.mul (PyFloat (china_share commodity)) (PyInt 100))
        else ret PyNone) in
     ret (PyDict [("year", PyInt year);
                  ("month", PyInt (Z.of_nat month_idx + 1));
                  ("monthName", PyStr month_name);
                  ("volumeMt", volume_mt);
                  ("volumeMmt", volume_mmt);
                  ("valueUsd", value_usd);
                  ("toChinaMt", to_china_mt);
                  ("toChinaPct", to_china_pct);
                  ("isPartial", PyBool p)]))%svc w
  = (export_row_of commodity year month_idx v p, w).
Proof.
  unfold export_row_of, bind, lift, ret.
  destruct (PyVal.index MONTH_NAMES month_idx) as [name|e]; [|reflexivity].
  cbn [rbind].
  rewrite (mul_float_int _ _ _ float_of_int_million).
  rewrite round_float_val.
  destruct (PyNum.round_float v 2) as [r|e]; [|reflexivity].
  cbn [rbind].
  rewrite (mul_float_int _ _ _ float_of_int_420m).
  destruct (has_china_split commodity).
  - rewrite mul_float_float, (mul_float_int _ _ _ float_of_int_hundred). reflexivity.
  - reflexivity.
Qed.

Lemma export_row_spec (commodity : string) (year current_month : Z)
    (month_idx : nat) (vol : float) (w : world) :
  exists (pd : option Z) (n : nat),
    export_row clock commodity year current_month month_idx vol w
    = (export_row_at commodity year current_month pd month_idx vol, set_reads n w)
    /\ (reads w < n)%nat
    /\ (forall d, pd = Some d ->
          exists k j, d = Datetime.day (clock k) /\ year = Datetime.year (clock j)).
Proof.
  unfold export_row.
  unfold bind at 1. unfold datetime_now at 1.
  destruct ((year =? Datetime.year (clock (reads w)))%Z
            && (Z.of_nat month_idx + 1 =? current_month)%Z) eqn:Hp.
  - apply andb_true_iff in Hp as [Hy Hm].
    exists (Some (Datetime.day (clock (S (reads w))))), (S (S (reads w))).
    unfold bind at 1. unfold bind at 1. unfold datetime_now at 1.
    cbn [reads set_reads].
    unfold bind at 1. unfold lift at 1.
    rewrite truediv_int_int by lia.
    unfold export_row_at. rewrite Hm. unfold scale_partial.
    destruct (PyNum.is_finite _).
    + unfold lift at 1. rewrite mul_float_float. cbn [rbind].
      rewrite export_row_tail. split; [reflexivity|]. split; [lia|].
      intros d [= <-]. exists (S (reads w)), (reads w). split; [reflexivity|].
      now apply Z.eqb_eq.
    + split; [reflexivity|]. split; [lia|].
      intros d [= <-]. exists (S (reads w)), (reads w). split; [reflexivity|].
      now apply Z.eqb_eq.
  - unfold bind at 1. unfold ret at 1. rewrite export_row_tail.
    destruct (Z.eqb_spec (Z.of_nat month_idx + 1) current_month) as [Hm|Hm].
    + exists None, (S (reads w)). split; [reflexivity|]. split; [lia|]. discriminate.
    + exists None, (S (reads w)). split; [reflexivity|]. split; [lia|]. discriminate.
Qed.

Lemma mmapi_cons {A B : Type} (f : nat -> A -> M B) (start : nat) (x : A)
    (xs : list A) (w w1 w2 : world) (rh : result B) (rt : result (list B)) :
  f start x w = (rh, w1) ->
  mmapi f (S start) xs w1 = (rt, w2) ->
  mmapi f start (x :: xs) w
  = ((let* y := rh in let* ys := rt in Ok (y :: ys))%res,
     if is_ok rh then w2 else w1).
Proof.
  intros Hh Ht. cbn [mmapi]. unfold bind at 1. rewrite Hh.
  destruct rh as [y|e]; [|reflexivity].
  unfold bind. rewrite Ht. now destruct rt.
Qed.

Lemma exports_loop_spec (commodity : string) (year current_month : Z)
    (vols : list float) :
  forall (start : nat) (w : world),
  exists (pd : option Z) (n : nat),
    mmapi (export_row clock commodity year current_month) start vols w
    = (rmapi (export_row_at commodity year current_month pd) start vols, set_reads n w)
    /\ (reads w <= n)%nat
    /\ (forall d, pd = Some d ->
          exists k j, d = Datetime.day (clock k) /\ year = Datetime.year (clock j)).
Proof.
  induction vols as [|vol vols IH]; intros start w.
  - exists None, (reads w). split; [now destruct w|]. split; [lia|discriminate].
  - destruct (export_row_spec commodity year current_month start vol w)
      as (pdh & nh & Hh & Hnh & Hpdh).
    destruct (IH (S start) (set_reads nh w)) as (pdt & nt & Ht & Hnt & Hpdt).
    cbn [reads set_reads] in Hnt.
    rewrite (mmapi_cons _ _ _ _ _ _ _ _ _ Hh Ht). cbn [rmapi].
    exists (if (Z.of_nat start + 1 =? current_month)%Z then pdh else pdt),
           (if is_ok (export_row_at commodity year current_month pdh start vol)
            then nt else nh).
    split; [|split].
    + f_equal.
      * destruct (Z.eqb_spec (Z.of_nat start + 1) current_month) as [Hm|Hm].
        -- (* the head is the row of the current month: no later row is *)
           f_equal.
           rewrite (rmapi_ext_from
                      (export_row_at commodity year current_month pdt)
                      (export_row_at commodity year current_month pdh)); [reflexivity|].
           intros i x Hi. unfold export_row_at.
           destruct (Z.eqb_spec (Z.of_nat i + 1) current_month) as [Hi'|_]; [lia|].
           now destruct pdt, pdh.
        -- replace (export_row_at commodity year current_month pdh start vol)
             with (export_row_at commodity year current_month pdt start vol);
             [reflexivity|].
           unfold export_row_at.
           destruct (Z.eqb_spec (Z.of_nat start + 1) current_month) as [Hi'|_]; [lia|].
           now destruct pdt, pdh.
      * now destruct (is_ok _).
    + destruct (is_ok _); lia.
    + destruct (Z.of_nat start + 1 =? current_month)%Z; assumption.
Qed.

Lemma exports_fallback_spec (commodity : string) (year : Z) (w : world) :
  exists (current_month : Z) (pd : option Z) (n : nat),
    _get_monthly_exports_fallback clock commodity year w
    = (rmapi (export_row_at commodity year current_month pd) 0
             (export_volumes commodity year),
       set_reads n w)
    /\ (reads w < n)%nat
    /\ (current_month = 12%Z \/ exists k, current_month = Datetime.month (clock k))
    /\ (forall d, pd = Some d ->
          exists k j, d = Datetime.day (clock k) /\ year = Datetime.year (clock j)).
Proof.
  unfold _get_monthly_exports_fallback.
  unfold bind at 1. unfold datetime_now at 1.
  destruct (year =? Datetime.year (clock (reads w)))%Z.
  - unfold bind at 1. unfold bind at 1. unfold datetime_now at 1. unfold ret at 1.
    cbn [reads set_reads].
    destruct (exports_loop_spec commodity year
                (Datetime.month (clock (S (reads w))))
                (export_volumes commodity year) 0
                (set_reads (S (S (reads w))) w)) as (pd & n & H & Hn & Hpd).
    cbn [reads set_reads] in Hn.
    exists (Datetime.month (clock (S (reads w)))), pd, n.
    split; [exact H|]. split; [lia|]. split; [right; eauto|assumption].
  - unfold bind at 1. unfold ret at 1.
    destruct (exports_loop_spec commodity year 12
                (export_volumes commodity year) 0
                (set_reads (S (reads w)) w)) as (pd & n & H & Hn & Hpd).
    cbn [reads set_reads] in Hn.
    exists 12%Z, pd, n.
    split; [exact H|]. split; [lia|]. split; [now left|assumption].
Qed.
End ExportRows.

(** ** Monthly exports: the response *)

Section ExportsResponse.
Variable clock : nat -> datetime.

(** The part of [get_monthly_exports] after [data] is known. *)
Lemma exports_summary_spec (commodity : string) (year : Z) (include_china : bool)
    (data : pyval) (w : world) :
  exists n : nat,
    (let* rows := lift (PyVal.iter data) in
     let* ytd_total :=
       lift (PyVal.sum_gen (fun row => PyVal.get row "volumeMmt" (PyInt 0)) rows) in
     let* ytd_china :=
       (if include_china
        then
          let* s := lift (PyVal.sum_gen
                            (fun row =>
                               let* v := PyVal.get row "toChinaMt" (PyInt 0) in
                               Ok (PyVal.or_else v (PyInt 0)))%res
                            rows) in
          lift (PyVal.truediv s (PyInt 1000000))
        else ret PyNone) in
     let* stamp := stamp_or_now clock (exports_key commodity year) in
     let* total_rounded := lift (PyVal.round ytd_total 2) in
     let* china_rounded :=
       (if PyVal.truthy ytd_china then lift (PyVal.round ytd_china 2)
        else ret PyNone) in
     ret (PyDict [("success", PyBool true);
                  ("commodity", PyStr commodity);
                  ("ncmCode", PyStr (get_ncm_code commodity));
                  ("year", PyInt year);
                  ("source", PyStr "SECEX/MDIC ComexStat");
                  ("last_updated", PyDatetime stamp);
                  ("data", data);
                  ("ytdTotalMmt", total_rounded);
                  ("ytdToChinaMmt", china_rounded)]))%svc w
    = (exports_response commodity year include_china data
         (default (clock (reads w))
                  (last_updated (svc w) !! exports_key commodity year)),
       set_reads n w)
    /\ (reads w <= n)%nat.
Proof.
  unfold exports_response, ytd_total_of, ytd_china_of.
  unfold bind at 1. unfold lift at 1.
  destruct (PyVal.iter data) as [rows|e];
    [|exists (reads w); split; [now destruct w|lia]].
  cbn [rbind]. unfold bind at 1. unfold lift at 1.
  destruct (PyVal.sum_gen _ rows) as [total|e];
    [|exists (reads w); split; [now destruct w|lia]].
  cbn [rbind].
  assert (Hrest : forall ytd_china : pyval, exists n : nat,
    (let* stamp := stamp_or_now clock (exports_key commodity year) in
     let* total_rounded := lift (PyVal.round total 2) in
     let* china_rounded :=
       (if PyVal.truthy ytd_china then lift (PyVal.round ytd_china 2)
        else ret PyNone) in
     ret (PyDict [("success", PyBool true);
                  ("commodity", PyStr commodity);
                  ("ncmCode", PyStr (get_ncm_code commodity));
                  ("year", PyInt year);
                  ("source", PyStr "SECEX/MDIC ComexStat");
                  ("last_updated", PyDatetime stamp);
                  ("data", data);
                  ("ytdTotalMmt", total_rounded);
                  ("ytdToChinaMmt", china_rounded)]))%svc w
    = ((let* total_rounded := PyVal.round total 2 in
        let* china_rounded :=
          (if PyVal.truthy ytd_china then PyVal.round ytd_china 2 else Ok PyNone) in
        Ok (PyDict [("success", PyBool true);
               ("commodity", PyStr commodity);
               ("ncmCode", PyStr (get_ncm_code commodity));
               ("year", PyInt year);
               ("source", PyStr "SECEX/MDIC ComexStat");
               ("last_updated", PyDatetime (default (clock (reads w))
                  (last_updated (svc w) !! exports_key commodity year)));
               ("data", data);
               ("ytdTotalMmt", total_rounded);
               ("ytdToChinaMmt", china_rounded)]))%res,
       set_reads n w) /\ (reads w <= n)%nat).
  { intros ytd_china. exists (S (reads w)). split; [|lia].
    unfold bind, stamp_or_now, bind, datetime_now, read_last_updated, ret, lift.
    cbn [svc set_reads].
    destruct (PyVal.round total 2) as [tr|e]; [|reflexivity]. cbn [rbind].
    destruct (PyVal.truthy ytd_china); [|reflexivity].
    now destruct (PyVal.round ytd_china 2). }
  destruct include_china.
  - unfold bind at 1. unfold bind at 1. unfold lift at 1.
    destruct (PyVal.sum_gen _ rows) as [s|e];
      [|exists (reads w); split; [now destruct w|lia]].
    cbn [rbind]. unfold lift at 1.
    destruct (PyVal.truediv s (PyInt 1000000)) as [q|e];
      [|exists (reads w); split; [now destruct w|lia]].
    apply Hrest.
  - unfold bind at 1. unfold ret at 1. cbn [rbind]. apply Hrest.
Qed.

Lemma get_monthly_exports_cached (commodity : string) (year : Z)
    (include_china : bool) (data : pyval) (w : world) :
  _cache (svc w) !! exports_key commodity year = Some data ->
  exists n : nat,
    get_monthly_exports clock commodity year include_china w
    = (exports_response commodity year include_china data
         (default (clock (reads w))
                  (last_updated (svc w) !! exports_key commodity year)),
       set_reads n w)
    /\ (reads w <= n)%nat.
Proof.
  intros Hk. unfold get_monthly_exports.
  unfold bind at 1. unfold read_cache at 1. rewrite Hk.
  unfold bind at 1. unfold ret at 1.
  apply exports_summary_spec.
Qed.

Lemma get_monthly_exports_fresh (commodity : string) (year : Z)
    (include_china : bool) (rows : list pyval) (w w1 : world) :
  _cache (svc w) !! exports_key commodity year = None ->
  _get_monthly_exports_fallback clock commodity year w = (Ok rows, w1) ->
  exists n : nat,
    get_monthly_exports clock commodity year include_china w
    = (exports_response commodity year include_china (PyList rows) (clock (reads w1)),
       set_reads n
         (set_last_updated
            (<[exports_key commodity year := clock (reads w1)]> (last_updated (svc w1)))
            (set_cache (<[exports_key commodity year := PyList rows]> (_cache (svc w1)))
                       w1)))
    /\ (reads w1 < n)%nat.
Proof.
  intros Hk Hf. unfold get_monthly_exports.
  unfold bind at 1. unfold read_cache at 1. rewrite Hk.
  unfold bind at 1. unfold bind at 1. rewrite Hf.
  unfold bind at 1. unfold cache_store at 1.
  unfold bind at 1. unfold datetime_now at 1.
  unfold bind at 1. unfold stamp_store at 1. unfold ret at 1.
  match goal with
  | |- context [bind _ _ ?w2] =>
      destruct (exports_summary_spec commodity year include_china (PyList rows) w2)
        as (n & Hn & Hle)
  end.
  cbn [reads set_reads set_cache set_last_updated svc last_updated] in Hn, Hle.
  rewrite lookup_insert_eq in Hn. cbn [default] in Hn.
  exists n. split; [|lia]. exact Hn.
Qed.
End ExportsResponse.

(** ** Monthly exports: the canned volumes *)

Lemma canned_round_identity :
  Forall (Forall (fun vol => PyNum.round_float vol 2 = Ok vol)) all_export_volumes.
Proof.
  repeat (apply List.Forall_cons;
          [repeat (apply List.Forall_cons; [vm_compute; reflexivity|]);
           apply List.Forall_nil|]).
  apply List.Forall_nil.
Qed.

Lemma canned_partial_round :
  forallb (fun vols =>
    forallb (fun vol =>
      forallb (fun frac => is_ok (PyNum.round_float (vol * frac)%float 2)) day_fractions)
      vols)
    all_export_volumes = true.
Proof. vm_compute. reflexivity. Qed.

Lemma canned_total_check :
  forallb (fun vols =>
    forallb (fun cm => forallb (total_check vols cm) partial_fractions) month_numbers)
    all_export_volumes = true.
Proof. vm_compute. reflexivity. Qed.

Lemma canned_china_check :
  forallb (fun share =>
    forallb (fun vols =>
      forallb (fun cm => forallb (china_check share vols cm) partial_fractions)
              month_numbers)
      all_export_volumes)
    [0.77%float; 0.02%float] = true.
Proof. vm_compute. reflexivity. Qed.

Lemma canned_volumes_length :
  Forall (fun vols : list float => length vols = 12%nat) all_export_volumes.
Proof. repeat (apply List.Forall_cons; [reflexivity|]). apply List.Forall_nil. Qed.

Lemma export_volumes_canned (commodity : string) (year : Z) :
  In (export_volumes commodity year) all_export_volumes.
Proof.
  unfold export_volumes, export_patterns. cbn [PyVal.assoc].
  repeat (destruct (String.eqb commodity _);
          [cbn [assoc_int];
           repeat (destruct (Z.eqb year _); [cbn; tauto|]); cbn; tauto|]).
  cbn; tauto.
Qed.

Lemma day_fraction (d : Z) :
  (1 <= d <= 31)%Z ->
  PyNum.is_finite (PyNum.nearest_float d 30) = true
  /\ In (PyNum.nearest_float d 30) day_fractions.
Proof.
  intros Hd.
  assert (Hn : d = Z.of_nat (Z.to_nat d)) by lia.
  assert (Hr : (1 <= Z.to_nat d <= 31)%nat) by lia.
  rewrite Hn. generalize dependent (Z.to_nat d). intros n _ Hr.
  do 32 (destruct n as [|n]; [first [lia | vm_compute; tauto]|]). lia.
Qed.

Lemma china_share_cases (commodity : string) :
  has_china_split commodity = true ->
  In (china_share commodity) [0.77%float; 0.02%float].
Proof.
  unfold has_china_split, china_share. intros _.
  destruct (String.eqb commodity "soybeans"); cbn; tauto.
Qed.

Lemma rmapi_ok_inv {A B : Type} (f : nat -> A -> result B) (xs : list A) :
  forall (start : nat) (ys : list B),
    rmapi f start xs = Ok ys ->
    length ys = length xs
    /\ forall (i : nat) (x : A),
         xs !! i = Some x -> exists y, f (start + i)%nat x = Ok y /\ ys !! i = Some y.
Proof.
  induction xs as [|x xs IH]; intros start ys H; cbn [rmapi] in H.
  - injection H as <-. split; [reflexivity|]. intros i x Hi. discriminate.
  - destruct (f start x) as [y|e] eqn:Hy; [|discriminate]. cbn [rbind] in H.
    destruct (rmapi f (S start) xs) as [ys'|e] eqn:Hys; [|discriminate].
    cbn [rbind] in H. injection H as <-.
    destruct (IH _ _ Hys) as [Hlen Hrows].
    split; [cbn; now rewrite Hlen|].
    intros [|i] x' Hi; cbn in Hi.
    + injection Hi as <-. exists y. rewrite Nat.add_0_r. now split.
    + destruct (Hrows i x' Hi) as (y' & Hf & Hy').
      exists y'. split; [|exact Hy']. now rewrite Nat.add_succ_r.
Qed.

Lemma rmapi_ok_intro {A B : Type} (f : nat -> A -> result B) (xs : list A) :
  forall start : nat,
    (forall (i : nat) (x : A), xs !! i = Some x -> is_ok (f (start + i)%nat x) = true) ->
    exists ys, rmapi f start xs = Ok ys.
Proof.
  induction xs as [|x xs IH]; intros start H; cbn [rmapi].
  - now exists [].
  - pose proof (H 0%nat x eq_refl) as Hx. rewrite Nat.add_0_r in Hx.
    destruct (f start x) as [y|e]; [|discriminate]. cbn [rbind].
    destruct (IH (S start)) as [ys Hys].
    { intros i x' Hi. specialize (H (S i) x' Hi). now rewrite Nat.add_succ_r in H. }
    rewrite Hys. now exists (y :: ys).
Qed.

Lemma rmapi_Forall2 {A B C : Type} (f : nat -> A -> result B) (g : nat -> A -> result C)
    (P : B -> C -> Prop) (xs : list A) :
  forall (start : nat) (ys : list B) (zs : list C),
    rmapi f start xs = Ok ys ->
    rmapi g start xs = Ok zs ->
    (forall (i : nat) (x : A) (y : B) (z : C),
        xs !! i = Some x -> f (start + i)%nat x = Ok y -> g (start + i)%nat x = Ok z ->
        P y z) ->
    Forall2 P ys zs.
Proof.
  induction xs as [|x xs IH]; intros start ys zs Hf Hg HP; cbn [rmapi] in Hf, Hg.
  - injection Hf as <-. injection Hg as <-. constructor.
  - destruct (f start x) as [y|e] eqn:Hy; [|discriminate]. cbn [rbind] in Hf.
    destruct (rmapi f (S start) xs) as [ys'|e] eqn:Hys; [|discriminate].
    cbn [rbind] in Hf. injection Hf as <-.
    destruct (g start x) as [z|e] eqn:Hz; [|discriminate]. cbn [rbind] in Hg.
    destruct (rmapi g (S start) xs) as [zs'|e] eqn:Hzs; [|discriminate].
    cbn [rbind] in Hg. injection Hg as <-.
    constructor.
    + apply (HP 0%nat x); [reflexivity| |]; now rewrite Nat.add_0_r.
    + apply (IH (S start)); [assumption..|].
      intros i x' y' z' Hi Hf' Hg'. apply (HP (S i) x'); [exact Hi| |];
        now rewrite Nat.add_succ_r.
Qed.

(** A generator sum is the sum of the terms it yields. *)
Lemma sum_gen_from_terms (f : pyval -> result pyval) (rows terms : list pyval) :
  Forall2 (fun row v => f row = Ok v) rows terms ->
  forall acc : pyval, PyVal.sum_gen_from f acc rows = PyVal.sum_from acc terms.
Proof.
  induction 1 as [|row v rows terms Hf _ IH]; intros acc; [reflexivity|].
  cbn [PyVal.sum_gen_from PyVal.sum_from]. rewrite Hf. cbn [rbind].
  destruct (PyVal.add acc v) as [acc'|e]; [|reflexivity]. cbn [rbind]. apply IH.
Qed.

Lemma sum_gen_zero (f : pyval -> result pyval) (rows : list pyval) :
  Forall (fun row => f row = Ok (PyInt 0)) rows ->
  PyVal.sum_gen f rows = Ok (PyInt 0).
Proof.
  unfold PyVal.sum_gen. induction 1 as [|row rows Hf _ IH]; [reflexivity|].
  cbn [PyVal.sum_gen_from]. rewrite Hf. cbn [rbind]. exact IH.
Qed.

Lemma export_row_of_inv (commodity : string) (year : Z) (i : nat) (v : float)
    (p : bool) (row : pyval) :
  export_row_of commodity year i v p = Ok row ->
  exists (name : string) (r : float),
    MONTH_NAMES !! i = Some name
    /\ PyNum.round_float v 2 = Ok r
    /\ row = export_row_dict commodity year i name v r p.
Proof.
  unfold export_row_of, PyVal.index. intros H.
  destruct (MONTH_NAMES !! i) as [name|]; [|discriminate]. cbn [rbind] in H.
  destruct (PyNum.round_float v 2) as [r|e]; [|discriminate]. cbn [rbind] in H.
  injection H as <-. now exists name, r.
Qed.

Lemma month_name_ok (i : nat) :
  (i < 12)%nat -> exists name, MONTH_NAMES !! i = Some name.
Proof.
  intros Hi. do 12 (destruct i as [|i]; [eexists; reflexivity|]). lia.
Qed.

Lemma adjusted_round_ok (vols : list float) (cm : Z) (pf : option float)
    (i : nat) (vol : float) :
  In vols all_export_volumes ->
  In pf partial_fractions ->
  vols !! i = Some vol ->
  is_ok (PyNum.round_float (adjusted_volume cm pf i vol) 2) = true.
Proof.
  intros Hvols Hpf Hi.
  assert (Hin : In vol vols).
  { apply list_elem_of_In. eapply list_elem_of_lookup_2. exact Hi. }
  assert (Hid : PyNum.round_float vol 2 = Ok vol).
  { pose proof canned_round_identity as H.
    rewrite List.Forall_forall in H. specialize (H vols Hvols).
    rewrite List.Forall_forall in H. exact (H vol Hin). }
  unfold adjusted_volume.
  destruct pf as [frac|]; [|now rewrite Hid].
  destruct (Z.of_nat i + 1 =? cm)%Z; [|now rewrite Hid].
  pose proof canned_partial_round as H.
  rewrite forallb_forall in H. specialize (H vols Hvols).
  rewrite forallb_forall in H. specialize (H vol Hin).
  rewrite forallb_forall in H. apply H.
  destruct Hpf as [Hpf|Hpf]; [discriminate|].
  apply in_map_iff in Hpf as (f & [= ->] & Hf). exact Hf.
Qed.

Lemma canned_rows_exist (commodity : string) (year cm : Z) (pf : option float) :
  In pf partial_fractions ->
  exists rows,
    rmapi (export_row_frac commodity year cm pf) 0 (export_volumes commodity year)
    = Ok rows.
Proof.
  intros Hpf. apply rmapi_ok_intro. intros i vol Hi. cbn [Nat.add].
  pose proof (export_volumes_canned commodity year) as Hvols.
  assert (Hlen : length (export_volumes commodity year) = 12%nat).
  { pose proof canned_volumes_length as H. rewrite List.Forall_forall in H.
    exact (H _ Hvols). }
  assert (Hlt : (i < 12)%nat).
  { rewrite <- Hlen. eapply lookup_lt_Some. exact Hi. }
  destruct (month_name_ok i Hlt) as [name Hname].
  pose proof (adjusted_round_ok _ cm pf i vol Hvols Hpf Hi) as Hr.
  unfold export_row_frac, export_row_of, PyVal.index. rewrite Hname. cbn [rbind].
  destruct (PyNum.round_float _ 2); [reflexivity|discriminate].
Qed.

(** The rows of a fallback, one by one. *)
Lemma canned_rows_lookup (commodity : string) (year cm : Z) (pf : option float)
    (rows : list pyval) :
  rmapi (export_row_frac commodity year cm pf) 0 (export_volumes commodity year)
  = Ok rows ->
  length rows = length (export_volumes commodity year)
  /\ forall (i : nat) (vol : float),
       export_volumes commodity year !! i = Some vol ->
       exists (name : string) (r : float),
         MONTH_NAMES !! i = Some name
         /\ PyNum.round_float (adjusted_volume cm pf i vol) 2 = Ok r
         /\ rows !! i
            = Some (export_row_dict commodity year i name
                      (adjusted_volume cm pf i vol) r (row_is_partial cm pf i)).
Proof.
  intros H. destruct (rmapi_ok_inv _ _ _ _ H) as [Hlen Hrows]. split; [exact Hlen|].
  intros i vol Hi. destruct (Hrows i vol Hi) as (row & Hrow & Hlook).
  cbn [Nat.add] in Hrow. unfold export_row_frac in Hrow.
  apply export_row_of_inv in Hrow as (name & r & Hname & Hr & ->).
  now exists name, r.
Qed.

(** The [volumeMmt] column of the rows. *)
Lemma canned_rows_volume_column (commodity : string) (year cm : Z) (pf : option float)
    (rows rs : list pyval) :
  rmapi (export_row_frac commodity year cm pf) 0 (export_volumes commodity year)
  = Ok rows ->
  rounded_volumes cm pf (export_volumes commodity year) = Ok rs ->
  Forall2 (fun row v =>
             response_field "volumeMmt" row = Some v
             /\ PyVal.get row "volumeMmt" (PyInt 0) = Ok v) rows rs.
Proof.
  intros Hrows Hrs. eapply rmapi_Forall2; [exact Hrows|exact Hrs|].
  intros i vol row v Hi Hf Hg. cbn [Nat.add] in Hf, Hg.
  unfold export_row_frac in Hf.
  apply export_row_of_inv in Hf as (name & r & _ & Hr & ->).
  assert (Hv : v = PyFloat r).
  { unfold row_is_partial, adjusted_volume in *.
    destruct pf as [frac|].
    - destruct (Z.of_nat i + 1 =? cm)%Z.
      + rewrite Hr in Hg. cbn [rbind] in Hg. now injection Hg as <-.
      + injection Hg as <-.
        assert (Hin : In vol (export_volumes commodity year)).
        { apply list_elem_of_In. eapply list_elem_of_lookup_2. exact Hi. }
        pose proof canned_round_identity as H.
        rewrite List.Forall_forall in H.
        specialize (H _ (export_volumes_canned commodity year)).
        rewrite List.Forall_forall in H. rewrite (H vol Hin) in Hr.
        now injection Hr as <-.
    - injection Hg as <-.
      assert (Hin : In vol (export_volumes commodity year)).
      { apply list_elem_of_In. eapply list_elem_of_lookup_2. exact Hi. }
      pose proof canned_round_identity as H.
      rewrite List.Forall_forall in H.
      specialize (H _ (export_volumes_canned commodity year)).
      rewrite List.Forall_forall in H. rewrite (H vol Hin) in Hr.
      now injection Hr as <-. }
  subst v. split; reflexivity.
Qed.

(** The [toChinaMt] column, for a commodity with a China split. *)
Lemma canned_rows_china_column (commodity : string) (year cm : Z) (pf : option float)
    (rows cs : list pyval) :
  has_china_split commodity = true ->
  rmapi (export_row_frac commodity year cm pf) 0 (export_volumes commodity year)
  = Ok rows ->
  china_volumes (china_share commodity) cm pf (export_volumes commodity year) = Ok cs ->
  Forall2 (fun row v =>
             response_field "toChinaMt" row = Some v
             /\ PyVal.get row "toChinaMt" (PyInt 0) = Ok v) rows cs.
Proof.
  intros Hsplit Hrows Hcs. eapply rmapi_Forall2; [exact Hrows|exact Hcs|].
  intros i vol row v Hi Hf Hg. cbn [Nat.add] in Hf, Hg.
  unfold export_row_frac in Hf.
  apply export_row_of_inv in Hf as (name & r & _ & Hr & ->).
  injection Hg as <-. unfold export_row_dict. rewrite Hsplit. split; reflexivity.
Qed.

(** Without a China split every row carries [None]. *)
Lemma canned_rows_no_china (commodity : string) (year cm : Z) (pf : option float)
    (rows : list pyval) :
  has_china_split commodity = false ->
  rmapi (export_row_frac commodity year cm pf) 0 (export_volumes commodity year)
  = Ok rows ->
  Forall (fun row => response_field "toChinaMt" row = Some PyNone
                     /\ PyVal.get row "toChinaMt" (PyInt 0) = Ok PyNone) rows.
Proof.
  intros Hsplit Hrows. apply Forall_lookup. intros i row Hrow.
  destruct (canned_rows_lookup _ _ _ _ _ Hrows) as [Hlen Hlook].
  assert (Hlt : (i < length (export_volumes commodity year))%nat).
  { rewrite <- Hlen. eapply lookup_lt_Some. exact Hrow. }
  destruct (lookup_lt_is_Some_2 _ _ Hlt) as [vol Hvol].
  destruct (Hlook i vol Hvol) as (name & r & _ & _ & Hrow').
  rewrite Hrow in Hrow'. injection Hrow' as ->.
  unfold export_row_dict. rewrite Hsplit. split; reflexivity.
Qed.

Lemma valid_month_range (t : datetime) :
  Datetime.valid t = true -> In (Datetime.month t) month_numbers.
Proof.
  unfold Datetime.valid, Datetime.in_range. intros H.
  repeat (apply andb_true_iff in H as [H ?]).
  assert (Hm : (1 <= Datetime.month t <= 12)%Z) by lia.
  unfold month_numbers. cbn [In].
  assert (Datetime.month t = 1 \/ Datetime.month t = 2 \/ Datetime.month t = 3
          \/ Datetime.month t = 4 \/ Datetime.month t = 5 \/ Datetime.month t = 6
          \/ Datetime.month t = 7 \/ Datetime.month t = 8 \/ Datetime.month t = 9
          \/ Datetime.month t = 10 \/ Datetime.month t = 11 \/ Datetime.month t = 12)%Z
    as Hc by lia.
  intuition auto.
Qed.

Lemma valid_day_range (t : datetime) :
  Datetime.valid t = true -> (1 <= Datetime.day t <= 31)%Z.
Proof.
  unfold Datetime.valid, Datetime.in_range. intros H.
  repeat (apply andb_true_iff in H as [H ?]).
  assert (Hd : (Datetime.days_in_month (Datetime.year t) (Datetime.month t) <= 31)%Z).
  { unfold Datetime.days_in_month.
    repeat match goal with |- context [if ?b then _ else _] => destruct b end; lia. }
  lia.
Qed.

Lemma export_row_at_frac (commodity : string) (year cm : Z) (pd : option Z)
    (i : nat) (vol : float) :
  (forall d, pd = Some d -> (1 <= d <= 31)%Z) ->
  export_row_at commodity year cm pd i vol
  = export_row_frac commodity year cm
      (option_map (fun d => PyNum.nearest_float d 30) pd) i vol.
Proof.
  intros Hpd. unfold export_row_at, export_row_frac, adjusted_volume, row_is_partial.
  destruct pd as [d|]; cbn [option_map]; [|reflexivity].
  destruct (Z.of_nat i + 1 =? cm)%Z; [|reflexivity].
  unfold scale_partial.
  destruct (day_fraction d (Hpd d eq_refl)) as [-> _]. reflexivity.
Qed.

Section ExportsValidClock.
Variable clock : nat -> datetime.
Hypothesis clock_valid : forall n, Datetime.valid (clock n) = true.

Lemma exports_fallback_rows (commodity : string) (year : Z) (w : world) :
  exists (cm : Z) (pf : option float) (n : nat),
    _get_monthly_exports_fallback clock commodity year w
    = (rmapi (export_row_frac commodity year cm pf) 0 (export_volumes commodity year),
       set_reads n w)
    /\ (reads w < n)%nat
    /\ In cm month_numbers
    /\ In pf partial_fractions
    /\ (cm = 12%Z \/ exists k, cm = Datetime.month (clock k))
    /\ (forall frac, pf = Some frac ->
          exists k j,
            frac = PyNum.nearest_float (Datetime.day (clock k)) 30
            /\ year = Datetime.year (clock j)).
Proof.
  destruct (exports_fallback_spec clock commodity year w)
    as (cm & pd & n & Hrun & Hn & Hcm & Hpd).
  assert (Hrange : forall d, pd = Some d -> (1 <= d <= 31)%Z).
  { intros d Hd. destruct (Hpd d Hd) as (k & _ & -> & _).
    apply valid_day_range, clock_valid. }
  exists cm, (option_map (fun d => PyNum.nearest_float d 30) pd), n.
  split; [|split; [exact Hn|split; [|split; [|split; [exact Hcm|]]]]].
  - rewrite Hrun. f_equal. apply rmapi_ext_from. intros i vol _.
    now apply export_row_at_frac.
  - destruct Hcm as [->|[k ->]]; [cbn; tauto|]. apply valid_month_range, clock_valid.
  - destruct pd as [d|]; cbn [option_map]; [|now left].
    right. apply in_map. apply (day_fraction d (Hrange d eq_refl)).
  - intros frac Hfrac. destruct pd as [d|]; [|discriminate].
    injection Hfrac as <-. destruct (Hpd d eq_refl) as (k & j & -> & ->).
    now exists k, j.
Qed.
End ExportsValidClock.

Lemma Forall2_with_right {A B : Type} (P : A -> B -> Prop) (Q : B -> Prop)
    (xs : list A) (ys : list B) :
  Forall2 P xs ys -> Forall Q ys -> Forall2 (fun x y => P x y /\ Q y) xs ys.
Proof.
  induction 1 as [|x y xs ys HP _ IH]; intros HQ; constructor.
  - split; [exact HP|]. now inversion HQ.
  - apply IH. now inversion HQ.
Qed.

Lemma truediv_zero_million :
  PyVal.truediv (PyInt 0) (PyInt 1000000) = Ok (PyFloat 0%float).
Proof. vm_compute. reflexivity. Qed.

(** The summary fields of the response, for the rows of a fallback. *)
Lemma canned_exports_response (commodity : string) (year cm : Z) (pf : option float)
    (rows : list pyval) (include_china : bool) (stamp : datetime) :
  In cm month_numbers ->
  In pf partial_fractions ->
  rmapi (export_row_frac commodity year cm pf) 0 (export_volumes commodity year)
  = Ok rows ->
  exists resp : pyval,
    exports_response commodity year include_china (PyList rows) stamp = Ok resp
    /\ response_field "data" resp = Some (PyList rows)
    /\ response_field "last_updated" resp = Some (PyDatetime stamp)
    /\ ytd_total_correct resp
    /\ (if include_china && has_china_split commodity
        then ytd_china_correct resp
        else response_field "ytdToChinaMmt" resp = Some PyNone).
Proof.
  intros Hcm Hpf Hrows.
  pose proof (export_volumes_canned commodity year) as Hvols.
  (* the total *)
  pose proof canned_total_check as Ht.
  rewrite forallb_forall in Ht. specialize (Ht _ Hvols).
  rewrite forallb_forall in Ht. specialize (Ht _ Hcm).
  rewrite forallb_forall in Ht. specialize (Ht _ Hpf).
  unfold total_check in Ht.
  destruct (rounded_volumes cm pf (export_volumes commodity year)) as [rs|e] eqn:Hrs;
    [|discriminate].
  cbn [rbind] in Ht.
  destruct (PyVal.sum rs) as [total|e] eqn:Htotal; [|discriminate]. cbn [rbind] in Ht.
  destruct (PyVal.round total 2) as [ytd|e] eqn:Hytd; [|discriminate]. clear Ht.
  pose proof (canned_rows_volume_column _ _ _ _ _ _ Hrows Hrs) as Hcol.
  assert (Hsum : ytd_total_of rows = Ok total).
  { unfold ytd_total_of, PyVal.sum_gen.
    rewrite (sum_gen_from_terms _ rows rs); [exact Htotal|].
    eapply Forall2_impl; [exact Hcol|]. now intros row v [_ H]. }
  assert (Hvals : Forall2 (fun row v => response_field "volumeMmt" row = Some v) rows rs).
  { eapply Forall2_impl; [exact Hcol|]. now intros row v [H _]. }
  unfold exports_response. cbn [PyVal.iter rbind]. rewrite Hsum. cbn [rbind].
  destruct include_china; cbn [andb ytd_china_of].
  - destruct (has_china_split commodity) eqn:Hsplit.
    + (* a China split: the ratio is not zero *)
      pose proof canned_china_check as Hc.
      rewrite forallb_forall in Hc. specialize (Hc _ (china_share_cases _ Hsplit)).
      rewrite forallb_forall in Hc. specialize (Hc _ Hvols).
      rewrite forallb_forall in Hc. specialize (Hc _ Hcm).
      rewrite forallb_forall in Hc. specialize (Hc _ Hpf).
      unfold china_check in Hc.
      destruct (china_volumes (china_share commodity) cm pf
                  (export_volumes commodity year)) as [cs|e] eqn:Hcs; [|discriminate].
      apply andb_true_iff in Hc as [Htruthy Hc].
      destruct (PyVal.sum cs) as [s|e] eqn:Hs; [|discriminate]. cbn [rbind] in Hc.
      destruct (PyVal.truediv s (PyInt 1000000)) as [q|e] eqn:Hq; [|discriminate].
      apply andb_true_iff in Hc as [Hqt Hc].
      destruct (PyVal.round q 2) as [r|e] eqn:Hr; [|discriminate]. clear Hc.
      pose proof (canned_rows_china_column _ _ _ _ _ _ Hsplit Hrows Hcs) as Hccol.
      rewrite forallb_forall in Htruthy.
      assert (Hterms : Forall2 (fun row v =>
                 (let* v0 := PyVal.get row "toChinaMt" (PyInt 0) in
                  Ok (PyVal.or_else v0 (PyInt 0)))%res = Ok v) rows cs).
      { eapply Forall2_impl.
        - apply (Forall2_with_right _ (fun v => PyVal.truthy v = true) _ _ Hccol).
          apply List.Forall_forall. exact Htruthy.
        - intros row v [[_ Hget] Hv]. cbn beta in *. rewrite Hget. cbn [rbind].
          unfold PyVal.or_else. now rewrite Hv. }
      unfold PyVal.sum_gen. rewrite (sum_gen_from_terms _ rows cs Hterms).
      fold (PyVal.sum cs). rewrite Hs. cbn [rbind]. rewrite Hq. cbn [rbind].
      rewrite Hytd. cbn [rbind]. rewrite Hqt, Hr. cbn [rbind].
      eexists. split; [reflexivity|]. split; [reflexivity|]. split; [reflexivity|].
      split.
      * exists rows, rs, total, ytd. repeat split; assumption.
      * exists rows, cs, s, q, r. repeat split; try assumption.
        eapply Forall2_impl; [exact Hccol|]. now intros row v [H _].
    + (* no split: the sum is the int 0, the ratio 0.0 *)
      pose proof (canned_rows_no_china _ _ _ _ _ Hsplit Hrows) as Hnone.
      rewrite sum_gen_zero.
      2:{ eapply Forall_impl; [exact Hnone|]. intros row [_ Hget]. cbn beta.
          now rewrite Hget. }
      cbn [rbind]. rewrite truediv_zero_million. cbn [rbind].
      rewrite Hytd. cbn [rbind].
      replace (PyVal.truthy (PyFloat 0%float)) with false by (vm_compute; reflexivity).
      cbn [rbind].
      eexists. split; [reflexivity|]. split; [reflexivity|]. split; [reflexivity|].
      split; [|reflexivity].
      exists rows, rs, total, ytd. repeat split; assumption.
  - cbn [rbind]. rewrite Hytd. cbn [rbind PyVal.truthy].
    eexists. split; [reflexivity|]. split; [reflexivity|]. split; [reflexivity|].
    split; [|reflexivity].
    exists rows, rs, total, ytd. repeat split; assumption.
Qed.

(** ** Monthly exports in a well-formed state *)

Lemma example_clock_valid (n : nat) : Datetime.valid (example_clock n) = true.
Proof.
  unfold Datetime.valid, example_clock, Datetime.in_range. cbn -[Nat.modulo].
  assert (H : (n mod 60 < 60)%nat) by (apply Nat.mod_upper_bound; discriminate).
  rewrite !andb_true_r.
  apply andb_true_iff. split; lia.
Qed.

Section ExportsWellFormed.
Variable clock : nat -> datetime.
Hypothesis clock_valid : forall n, Datetime.valid (clock n) = true.

(** [get_monthly_exports] in a well-formed state: it succeeds, its rows
    are those of a fallback, and it touches nothing but its own key. *)
Lemma get_monthly_exports_wf (commodity : string) (year : Z) (include_china : bool)
    (w : world) :
  cache_wf (_cache (svc w)) ->
  exists (resp : pyval) (w' : world) (rows : list pyval) (cm : Z)
         (pf : option float) (stamp : datetime),
    get_monthly_exports clock commodity year include_china w = (Ok resp, w')
    /\ In cm month_numbers
    /\ In pf partial_fractions
    /\ rmapi (export_row_frac commodity year cm pf) 0 (export_volumes commodity year)
       = Ok rows
    /\ exports_response commodity year include_china (PyList rows) stamp = Ok resp
    /\ export_rows_of commodity year (PyList rows)
    /\ disk w' = disk w
    /\ _initialized (svc w') = _initialized (svc w)
    /\ (reads w <= reads w')%nat
    /\ ((_cache (svc w) !! exports_key commodity year = Some (PyList rows)
         /\ svc w' = svc w
         /\ stamp = default (clock (reads w))
                            (last_updated (svc w) !! exports_key commodity year))
        \/ (_cache (svc w) !! exports_key commodity year = None
            /\ _cache (svc w')
               = <[exports_key commodity year := PyList rows]> (_cache (svc w))
            /\ last_updated (svc w')
               = <[exports_key commodity year := stamp]> (last_updated (svc w))
            /\ (exists k, stamp = clock k /\ (reads w <= k < reads w')%nat)
            /\ (pf <> None -> exists j, year = Datetime.year (clock j)))).
Proof.
  intros Hwf.
  destruct (_cache (svc w) !! exports_key commodity year) as [v|] eqn:Hk.
  - pose proof (cache_wf_exports _ _ _ _ Hwf Hk) as Hentry.
    destruct Hentry as (clk & w0 & w1 & rows & Hclk & Hfall & ->).
    destruct (exports_fallback_rows clk Hclk commodity year w0)
      as (cm & pf & n0 & Hrun & _ & Hcm & Hpf & _).
    rewrite Hfall in Hrun. injection Hrun as Hrows _. symmetry in Hrows.
    destruct (get_monthly_exports_cached clock commodity year include_china _ w Hk)
      as (n & Hget & Hn).
    destruct (canned_exports_response commodity year cm pf rows include_china
                (default (clock (reads w))
                   (last_updated (svc w) !! exports_key commodity year))
                Hcm Hpf Hrows) as (resp & Hresp & _).
    rewrite Hresp in Hget.
    exists resp, (set_reads n w), rows, cm, pf,
      (default (clock (reads w)) (last_updated (svc w) !! exports_key commodity year)).
    split; [exact Hget|]. split; [exact Hcm|]. split; [exact Hpf|].
    split; [exact Hrows|]. split; [exact Hresp|].
    split; [now exists clk, w0, w1, rows|].
    split; [reflexivity|]. split; [reflexivity|]. split; [exact Hn|].
    left. repeat split; reflexivity.
  - destruct (exports_fallback_rows clock clock_valid commodity year w)
      as (cm & pf & n0 & Hrun & Hn0 & Hcm & Hpf & _ & Hyear).
    destruct (canned_rows_exist commodity year cm pf Hpf) as [rows Hrows].
    rewrite Hrows in Hrun.
    destruct (get_monthly_exports_fresh clock commodity year include_china rows w _
                Hk Hrun) as (n & Hget & Hn).
    cbn [reads set_reads svc last_updated _cache] in Hget, Hn.
    destruct (canned_exports_response commodity year cm pf rows include_china
                (clock n0) Hcm Hpf Hrows) as (resp & Hresp & _).
    rewrite Hresp in Hget.
    eexists resp, _, rows, cm, pf, (clock n0).
    split; [exact Hget|]. split; [exact Hcm|]. split; [exact Hpf|].
    split; [exact Hrows|]. split; [exact Hresp|].
    split; [now exists clock, w, (set_reads n0 w), rows|].
    split; [reflexivity|]. split; [reflexivity|].
    split; [cbn [reads set_reads]; lia|].
    right. split; [reflexivity|]. split; [reflexivity|]. split; [reflexivity|].
    split.
    + exists n0. split; [reflexivity|]. cbn [reads set_reads]. lia.
    + intros Hne. destruct pf as [frac|]; [|contradiction].
      destruct (Hyear frac eq_refl) as (_ & j & _ & ->). now exists j.
Qed.

(** C5. In a well-formed state and with a clock that shows valid dates,
    every monthly-exports query succeeds; [ytdTotalMmt] is the sum of
    the [volumeMmt] of the rows in [data] rounded to two decimals;
    [ytdToChinaMmt] is the sum of their [toChinaMt] divided by 1,000,000
    and rounded to two decimals when [include_china] is set and the
    commodity is soybeans or soy meal, and [None] otherwise. *)
Theorem monthly_exports_year_to_date :
  forall (commodity : string) (year : Z) (include_china : bool) (w : world),
    world_wf w ->
    exists (resp : pyval) (w' : world),
      get_monthly_exports clock commodity year include_china w = (Ok resp, w')
      /\ ytd_total_correct resp
      /\ (if include_china && has_china_split commodity
          then ytd_china_correct resp
          else response_field "ytdToChinaMmt" resp = Some PyNone).
Proof.
  intros commodity year include_china w [[Hcache _] _].
  destruct (get_monthly_exports_wf commodity year include_china w Hcache)
    as (resp & w' & rows & cm & pf & stamp & Hget & Hcm & Hpf & Hrows & Hresp & _).
  destruct (canned_exports_response commodity year cm pf rows include_china stamp
              Hcm Hpf Hrows) as (resp' & Hresp' & _ & _ & Htot & Hchina).
  rewrite Hresp in Hresp'. injection Hresp' as <-.
  now exists resp, w'.
Qed.
End ExportsWellFormed.

Lemma monthly_exports_year_to_date_witness :
  exists (resp : pyval) (w' : world),
    get_monthly_exports example_clock "soybeans" 2025 true initial_world = (Ok resp, w')
    /\ ytd_total_correct resp
    /\ ytd_china_correct resp.
Proof.
  exact (monthly_exports_year_to_date example_clock example_clock_valid
           "soybeans" 2025 true initial_world initial_world_wf).
Defined.

(** ** Monthly exports: the partial month *)

Section ExportsSteadyClock.
Variable clock : nat -> datetime.




End ExportsSteadyClock.


(** ** Monthly prices *)

Lemma all_price_series_positive :
  forallb (forallb (fun p => (0 <? p)%Z)) all_price_series = true.
Proof. vm_compute. reflexivity. Qed.

Lemma all_price_series_rows_ok (year : Z) (loc : string) :
  forallb (fun ps => is_ok (rmapi (price_row year loc ps) 0 ps)) all_price_series = true.
Proof. vm_compute. reflexivity. Qed.

Lemma location_prices_canned (commodity loc : string) :
  In (location_prices (default [] (PyVal.assoc commodity price_table)) loc)
     all_price_series.
Proof.
  unfold location_prices, price_table. cbn [PyVal.assoc].
  repeat (destruct (String.eqb commodity _);
          [cbn [from_option]; unfold id; cbn [PyVal.assoc];
           repeat (destruct (String.eqb loc _); [cbn; tauto|]); cbn; tauto|]).
  cbn; tauto.
Qed.

Lemma nearest_float_zero (d : Z) :
  (0 < d)%Z -> PyNum.nearest_float 0 d = 0%float.
Proof.
  intros Hd. unfold PyNum.nearest_float.
  cbn [Z.abs]. rewrite Z.mul_0_l. rewrite Z.div_0_l by lia.
  rewrite Zmod_0_l. reflexivity.
Qed.

(** The change of a first month: [(p - p) / p * 100] is [0.0]. *)
Lemma first_month_change (p : Z) :
  (0 < p)%Z ->
  (let* diff := PyVal.sub (PyInt p) (PyInt p) in
   let* ratio := PyVal.truediv diff (PyInt p) in
   let* pct := PyVal.mul ratio (PyInt 100) in
   PyVal.round pct 1)%res = Ok (PyFloat 0%float).
Proof.
  intros Hp. unfold PyVal.sub, PyVal.arith. cbn [PyVal.as_num rbind PyNum.sub PyVal.of_num].
  rewrite Z.sub_diag. rewrite truediv_int_int by assumption.
  rewrite nearest_float_zero by assumption.
  vm_compute. reflexivity.
Qed.

Lemma price_row_correct (year : Z) (loc : string) (ps : list Z) (i : nat) (p : Z)
    (row : pyval) :
  Forall (fun q => (0 < q)%Z) ps ->
  ps !! i = Some p ->
  price_row year loc ps i p = Ok row ->
  response_field "location" row = Some (PyStr loc)
  /\ response_field "month" row = Some (PyInt (Z.of_nat i + 1))
  /\ response_field "priceBrl" row = Some (PyInt p)
  /\ mom_change_correct ps i p row.
Proof.
  intros Hpos Hi Hrow.
  assert (Hp : (0 < p)%Z).
  { rewrite List.Forall_forall in Hpos. apply Hpos.
    apply list_elem_of_In. eapply list_elem_of_lookup_2. exact Hi. }
  unfold price_row in Hrow.
  destruct i as [|j].
  - cbn [Nat.ltb Nat.leb rbind] in Hrow.
    replace (PyVal.truthy (PyInt p)) with true in Hrow
      by (cbn; destruct (Z.eqb_spec p 0); [lia|reflexivity]).
    pose proof (first_month_change p Hp) as Hfirst.
    destruct (PyVal.sub (PyInt p) (PyInt p)) as [diff|e]; [|discriminate].
    cbn [rbind] in Hrow, Hfirst.
    destruct (PyVal.truediv diff (PyInt p)) as [ratio|e]; [|discriminate].
    cbn [rbind] in Hrow, Hfirst.
    destruct (PyVal.mul ratio (PyInt 100)) as [pct|e]; [|discriminate].
    cbn [rbind] in Hrow, Hfirst.
    destruct (PyVal.index MONTH_NAMES 0) as [name|e]; [|discriminate].
    cbn [rbind] in Hrow.
    destruct (PyVal.truediv (PyInt p) (PyFloat 6)) as [usd|e]; [|discriminate].
    cbn [rbind] in Hrow.
    destruct (PyVal.round usd 2) as [price_usd|e]; [|discriminate].
    cbn [rbind] in Hrow. rewrite Hfirst in Hrow. cbn [rbind] in Hrow.
    injection Hrow as <-. repeat split; reflexivity.
  - replace (0 <? S j)%nat with true in Hrow by reflexivity.
    replace (S j - 1)%nat with j in Hrow by lia.
    unfold PyVal.index at 1 in Hrow.
    destruct (ps !! j) as [prev|] eqn:Hprev; [|discriminate]. cbn [rbind] in Hrow.
    assert (Hq : (0 < prev)%Z).
    { rewrite List.Forall_forall in Hpos. apply Hpos.
      apply list_elem_of_In. eapply list_elem_of_lookup_2. exact Hprev. }
    replace (PyVal.truthy (PyInt prev)) with true in Hrow
      by (cbn; destruct (Z.eqb_spec prev 0); [lia|reflexivity]).
    destruct (PyVal.sub (PyInt p) (PyInt prev)) as [diff|e] eqn:Hdiff; [|discriminate].
    cbn [rbind] in Hrow.
    destruct (PyVal.truediv diff (PyInt prev)) as [ratio|e] eqn:Hratio; [|discriminate].
    cbn [rbind] in Hrow.
    destruct (PyVal.mul ratio (PyInt 100)) as [pct|e] eqn:Hpct; [|discriminate].
    cbn [rbind] in Hrow.
    destruct (PyVal.index MONTH_NAMES (S j)) as [name|e]; [|discriminate].
    cbn [rbind] in Hrow.
    destruct (PyVal.truediv (PyInt p) (PyFloat 6)) as [usd|e]; [|discriminate].
    cbn [rbind] in Hrow.
    destruct (PyVal.round usd 2) as [price_usd|e]; [|discriminate].
    cbn [rbind] in Hrow.
    destruct (PyVal.round pct 1) as [mom|e] eqn:Hmom; [|discriminate].
    cbn [rbind] in Hrow. injection Hrow as <-.
    split; [reflexivity|]. split; [reflexivity|]. split; [reflexivity|].
    exists prev, diff, ratio, pct, mom. repeat split; try assumption; reflexivity.
Qed.

Lemma location_rows_correct (commodity : string) (year : Z) (loc : string) :
  exists rows : list pyval,
    location_rows (default [] (PyVal.assoc commodity price_table)) year loc = Ok rows
    /\ price_series_correct loc
         (location_prices (default [] (PyVal.assoc commodity price_table)) loc) rows.
Proof.
  unfold location_rows.
  set (ps := location_prices (default [] (PyVal.assoc commodity price_table)) loc).
  assert (Hin : In ps all_price_series) by apply location_prices_canned.
  assert (Hpos : Forall (fun q => (0 < q)%Z) ps).
  { pose proof all_price_series_positive as H. rewrite forallb_forall in H.
    specialize (H ps Hin). rewrite forallb_forall in H.
    apply List.Forall_forall. intros q Hq. specialize (H q Hq). lia. }
  pose proof (all_price_series_rows_ok year loc) as Hok.
  rewrite forallb_forall in Hok. specialize (Hok ps Hin).
  destruct (rmapi (price_row year loc ps) 0 ps) as [rows|e] eqn:Hrows; [|discriminate].
  exists rows. split; [reflexivity|].
  destruct (rmapi_ok_inv _ _ _ _ Hrows) as [Hlen Hlook].
  split; [exact Hlen|].
  intros i p Hi. destruct (Hlook i p Hi) as (row & Hrow & Hget).
  exists row. split; [exact Hget|].
  cbn [Nat.add] in Hrow. now apply (price_row_correct year loc ps i p row).
Qed.

Lemma concat_rows_correct (f : string -> result (list pyval))
    (P : string -> list pyval -> Prop) (locs : list string) :
  (forall loc, exists rows, f loc = Ok rows /\ P loc rows) ->
  exists series : list (list pyval),
    concat_rows f locs = Ok (concat series) /\ Forall2 P locs series.
Proof.
  intros Hf. induction locs as [|loc locs IH].
  - exists []. split; [reflexivity|constructor].
  - destruct (Hf loc) as (rows & Hrows & HP).
    destruct IH as (series & Hrest & HF).
    exists (rows :: series). cbn [concat_rows concat]. rewrite Hrows, Hrest.
    split; [reflexivity|]. now constructor.
Qed.

Section MonthlyPrices.
Variable clock : nat -> datetime.

(** C7. [get_monthly_prices] always succeeds; its [data] is the rows of
    each location in turn, one row per month of the location's series,
    and in every row [momChangePct] is
    [(price - previous) / previous * 100] rounded to one decimal, with
    [previous] the price of the month before in the same series; in
    the first row of each series, which has no month before, it is
    zero. *)
Theorem month_over_month_change :
  forall (commodity : string) (year : Z) (location : option string) (w : world),
    let commodity_prices := default [] (PyVal.assoc commodity price_table) in
    exists (resp : pyval) (w' : world) (series : list (list pyval)),
      get_monthly_prices clock commodity year location w = (Ok resp, w')
      /\ response_field "data" resp = Some (PyList (concat series))
      /\ Forall2 (fun loc rows =>
                    price_series_correct loc (location_prices commodity_prices loc) rows)
                 (locations_to_use commodity_prices location) series.
Proof.
  intros commodity year location w commodity_prices.
  destruct (concat_rows_correct
              (location_rows commodity_prices year)
              (fun loc rows =>
                 price_series_correct loc (location_prices commodity_prices loc) rows)
              (locations_to_use commodity_prices location)
              (location_rows_correct commodity year))
    as (series & Hrows & Hseries).
  unfold get_monthly_prices, _get_prices_fallback.
  fold commodity_prices. unfold bind at 1. unfold lift at 1. rewrite Hrows.
  eexists _, _, series. split; [reflexivity|]. split; [reflexivity|exact Hseries].
Qed.
End MonthlyPrices.

(** ** Effects of the operations *)

Lemma destinations_computed :
  rmapi (fun _ d => add_calculated_fields d) 0 destinations_literal
  = Ok destinations_with_fields.
Proof. vm_compute. reflexivity. Qed.

Lemma destinations_total_computed :
  (let* t := PyVal.sum_gen (fun d => PyVal.getitem d "volumeMmt")
               destinations_with_fields in
   PyVal.round t 1)%res = Ok destinations_total.
Proof. vm_compute. reflexivity. Qed.

Section Effects.
Variable clock : nat -> datetime.

Lemma extends_reads (w : world) (n : nat) :
  (reads w <= n)%nat -> extends clock w (set_reads n w).
Proof.
  intros Hn. repeat split; cbn [svc set_reads reads]; try done.
  intros k Hnone [v Hv]. congruence.
Qed.

Lemma extends_trans (w1 w2 w3 : world) :
  extends clock w1 w2 -> extends clock w2 w3 -> extends clock w1 w3.
Proof.
  intros (Hc1 & Hs1 & Hn1 & Hd1 & Hi1 & Hr1) (Hc2 & Hs2 & Hn2 & Hd2 & Hi2 & Hr2).
  split; [|split; [|split; [|split; [|split]]]].
  - intros k v Hk. auto.
  - intros k [[v Hk]|Hk].
    + rewrite Hs2 by (left; exists v; auto). apply Hs1. left. now exists v.
    + rewrite Hs2 by now right. apply Hs1. right.
      destruct (_cache (svc w2) !! k) as [v|] eqn:Hk2; [|reflexivity].
      apply Hc2 in Hk2. congruence.
  - intros k Hk1 Hk3.
    destruct (_cache (svc w2) !! k) as [v|] eqn:Hk2.
    + destruct (Hn1 k Hk1) as (n & Hn & Hlu); [now exists v|].
      exists n. split; [lia|]. rewrite Hs2; [exact Hlu|]. left. now exists v.
    + destruct (Hn2 k Hk2 Hk3) as (n & Hn & Hlu). exists n. split; [lia|exact Hlu].
  - congruence.
  - congruence.
  - lia.
Qed.

Lemma triple_bind {A B : Type} (K1 K2 : gset string) (m : M A) (k : A -> M B)
    (Q1 : A -> Prop) (Q2 : B -> Prop) :
  triple clock K1 m Q1 ->
  (forall a, Q1 a -> triple clock K2 (k a) Q2) ->
  triple clock (K1 ∪ K2) (bind m k) Q2.
Proof.
  intros Hm Hk w Hwf.
  destruct (Hm w Hwf) as (a & w1 & Hrun1 & Ha & Hext1 & Hwf1 & Hdom1).
  destruct (Hk a Ha w1 Hwf1) as (b & w2 & Hrun2 & Hb & Hext2 & Hwf2 & Hdom2).
  exists b, w2. rewrite (bind_ok _ _ _ _ _ Hrun1).
  split; [exact Hrun2|]. split; [exact Hb|].
  split; [now apply (extends_trans w w1 w2)|]. split; [exact Hwf2|].
  rewrite Hdom2, Hdom1. now rewrite (assoc_L (∪)).
Qed.

Lemma triple_pure {A : Type} (m : M A) (Q : A -> Prop) :
  (forall w, exists a n, m w = (Ok a, set_reads n w) /\ Q a /\ (reads w <= n)%nat) ->
  triple clock ∅ m Q.
Proof.
  intros Hm w Hwf. destruct (Hm w) as (a & n & Hrun & Ha & Hn).
  exists a, (set_reads n w). split; [exact Hrun|]. split; [exact Ha|].
  split; [now apply extends_reads|]. split; [exact Hwf|].
  cbn [svc set_reads]. now rewrite (right_id_L ∅ (∪)).
Qed.

Lemma triple_field (resp : pyval) (k : string) :
  has_field k resp -> triple clock ∅ (field resp k) (fun _ => True).
Proof.
  intros [v Hv]. apply triple_pure. intros w.
  exists v, (reads w). unfold field, lift. rewrite Hv.
  split; [now destruct w|]. split; [exact I|lia].
Qed.

Lemma triple_ret {A : Type} (a : A) (Q : A -> Prop) :
  Q a -> triple clock ∅ (ret a) Q.
Proof.
  intros Ha. apply triple_pure. intros w.
  exists a, (reads w). split; [now destruct w|]. split; [exact Ha|lia].
Qed.

Lemma triple_now (Q : datetime -> Prop) :
  (forall t, Q t) -> triple clock ∅ (datetime_now clock) Q.
Proof.
  intros HQ. apply triple_pure. intros w.
  exists (clock (reads w)), (S (reads w)). split; [reflexivity|]. split; [apply HQ|lia].
Qed.

Lemma get_production_triple (commodity : string) (years : Z) (state : option string) :
  triple clock ∅ (get_production clock commodity years state) (has_field "data").
Proof.
  apply triple_pure. intros w.
  eexists _, (S (reads w)). split; [reflexivity|]. split; [|lia].
  eexists. reflexivity.
Qed.

Lemma get_exports_by_port_triple (commodity : string) (year : Z) :
  triple clock ∅ (get_exports_by_port clock commodity year) (has_field "data").
Proof.
  apply triple_pure. intros w.
  eexists _, (S (reads w)). split; [reflexivity|]. split; [|lia].
  eexists. reflexivity.
Qed.

Lemma get_soy_complex_balance_triple :
  triple clock ∅ (get_soy_complex_balance clock)
    (fun resp => has_field "soja_graos" resp /\ has_field "farelo" resp
                 /\ has_field "oleo" resp).
Proof.
  apply triple_pure. intros w.
  eexists _, (S (reads w)). split; [reflexivity|]. split; [|lia].
  repeat split; eexists; reflexivity.
Qed.

Lemma get_exports_by_destination_spec (commodity : string) (year top_n : Z)
    (w : world) :
  get_exports_by_destination clock commodity year top_n w
  = (Ok (PyDict [("success", PyBool true);
                 ("commodity", PyStr commodity);
                 ("year", PyInt year);
                 ("source", PyStr "SECEX/MDIC ComexStat");
                 ("last_updated", PyDatetime (clock (reads w)));
                 ("totalMmt", destinations_total);
                 ("data", PyList (PyVal.slice_to destinations_with_fields top_n))]),
     set_reads (S (reads w)) w).
Proof.
  unfold get_exports_by_destination.
  unfold bind at 1. unfold lift at 1. rewrite destinations_computed.
  pose proof destinations_total_computed as Ht.
  unfold bind at 1. unfold lift at 1.
  destruct (PyVal.sum_gen _ destinations_with_fields) as [t|e]; [|discriminate].
  cbn [rbind] in Ht.
  unfold bind at 1. unfold datetime_now at 1.
  unfold bind at 1. unfold lift at 1. rewrite Ht. reflexivity.
Qed.

Lemma get_exports_by_destination_triple (commodity : string) (year top_n : Z) :
  triple clock ∅ (get_exports_by_destination clock commodity year top_n)
    (has_field "data").
Proof.
  apply triple_pure. intros w.
  rewrite get_exports_by_destination_spec.
  eexists _, (S (reads w)). split; [reflexivity|]. split; [|lia].
  eexists. reflexivity.
Qed.

Lemma get_monthly_prices_spec (commodity : string) (year : Z)
    (location : option string) (w : world) :
  exists data : list pyval,
    _get_prices_fallback commodity year location = Ok data
    /\ get_monthly_prices clock commodity year location w
       = (Ok (PyDict [("success", PyBool true);
                      ("commodity", PyStr commodity);
                      ("unit", PyStr "BRL/60kg bag");
                      ("source", PyStr "CONAB PrecosMensalUF");
                      ("last_updated", PyDatetime (clock (reads w)));
                      ("data", PyList data)]),
          set_reads (S (reads w)) w).
Proof.
  destruct (concat_rows_correct
              (location_rows (default [] (PyVal.assoc commodity price_table)) year)
              (fun _ _ => True)
              (locations_to_use (default [] (PyVal.assoc commodity price_table)) location))
    as (series & Hrows & _).
  { intros loc. destruct (location_rows_correct commodity year loc) as (rows & H & _).
    now exists rows. }
  exists (concat series). unfold get_monthly_prices, _get_prices_fallback.
  split; [exact Hrows|].
  unfold bind at 1. unfold lift at 1. rewrite Hrows. reflexivity.
Qed.

Lemma get_monthly_prices_triple (commodity : string) (year : Z)
    (location : option string) :
  triple clock ∅ (get_monthly_prices clock commodity year location) (has_field "data").
Proof.
  apply triple_pure. intros w.
  destruct (get_monthly_prices_spec commodity year location w) as (data & _ & Hrun).
  rewrite Hrun. eexists _, (S (reads w)). split; [reflexivity|]. split; [|lia].
  eexists. reflexivity.
Qed.
End Effects.

Lemma get_status_spec (w : world) :
  exists resp : pyval,
    get_status w = (Ok resp, w)
    /\ (forall k, status_lists_cache_key k resp <-> k ∈ dom (_cache (svc w)))
    /\ (forall k, status_lists_stamp k resp <-> k ∈ dom (last_updated (svc w))).
Proof.
  eexists. split; [reflexivity|]. split.
  - intros k. unfold status_lists_cache_key. cbn [response_field PyVal.assoc String.eqb].
    split.
    + intros (keys & [= <-] & Hin). apply in_map_iff in Hin as ([k' v] & [= ->] & Hin).
      apply list_elem_of_In, elem_of_map_to_list in Hin. now apply elem_of_dom_2 in Hin.
    + intros [v Hv]%elem_of_dom. eexists. split; [reflexivity|].
      apply in_map_iff. exists (k, v). split; [reflexivity|].
      now apply list_elem_of_In, elem_of_map_to_list.
  - intros k. unfold status_lists_stamp. cbn [response_field PyVal.assoc String.eqb].
    split.
    + intros (entries & v & [= <-] & Hin).
      apply in_map_iff in Hin as ([k' t] & [= -> _] & Hin).
      apply list_elem_of_In, elem_of_map_to_list in Hin. now apply elem_of_dom_2 in Hin.
    + intros [t Ht]%elem_of_dom. eexists _, _. split; [reflexivity|].
      apply in_map_iff. exists (k, t). split; [reflexivity|].
      now apply list_elem_of_In, elem_of_map_to_list.
Qed.

Lemma dom_add_present (c : gmap string pyval) (k : string) :
  k ∈ dom c -> dom c = dom c ∪ {[k]}.
Proof. set_solver. Qed.

Lemma dom_add_insert (c : gmap string pyval) (k : string) (v : pyval) :
  dom (<[k := v]> c) = dom c ∪ {[k]}.
Proof. rewrite dom_insert_L. apply (comm_L (∪)). Qed.

Lemma save_cache_spec (w : world) :
  exists d : disk_state, _save_cache_to_disk w = (Ok tt, set_disk d w).
Proof.
  unfold _save_cache_to_disk, try_except.
  case_bool_decide; eexists; reflexivity.
Qed.

Section EffectsValidClock.
Variable clock : nat -> datetime.
Hypothesis clock_valid : forall n, Datetime.valid (clock n) = true.

Lemma get_balance_sheet_triple (commodity : string) (years : Z) :
  triple clock {[ "balance_" +:+ commodity ]}
    (get_balance_sheet clock commodity years) (has_field "data").
Proof.
  intros w Hwf.
  destruct (_cache (svc w) !! ("balance_" +:+ commodity)) as [v|] eqn:Hk.
  - pose proof (cache_wf_balance _ _ _ Hwf Hk) as ->.
    rewrite (get_balance_sheet_cached clock _ years _ _ Hk).
    eexists _, _. split; [reflexivity|]. split; [eexists; reflexivity|].
    split; [apply extends_reads; cbn; lia|]. split; [exact Hwf|].
    cbn [svc set_reads]. apply elem_of_dom_2 in Hk. now apply dom_add_present.
  - rewrite (get_balance_sheet_fresh clock _ years _ Hk).
    eexists _, _. split; [reflexivity|]. split; [eexists; reflexivity|].
    cbn [svc set_last_updated set_reads set_cache _cache last_updated disk reads
         _initialized].
    split; [|split].
    + split; [|split; [|split; [|split; [|split]]]];
        cbn [svc set_last_updated set_reads set_cache _cache last_updated disk reads
             _initialized]; try reflexivity; try lia.
      * intros k v Hv. rewrite lookup_insert_ne; [exact Hv|]. congruence.
      * intros k [[v Hv]|Hnone].
        -- rewrite lookup_insert_ne; [reflexivity|]. congruence.
        -- rewrite lookup_insert_ne; [reflexivity|]. intros <-.
           now rewrite lookup_insert_eq in Hnone.
      * intros k Hnone [v Hv]. destruct (decide (k = "balance_" +:+ commodity)) as [->|Hne].
        -- exists (reads w). split; [lia|]. now rewrite lookup_insert_eq.
        -- rewrite lookup_insert_ne in Hv by congruence. congruence.
    + apply cache_wf_insert; [exact Hwf|]. left. now exists commodity.
    + apply dom_add_insert.
Qed.

Lemma get_monthly_exports_triple (commodity : string) (year : Z)
    (include_china : bool) :
  triple clock {[ exports_key commodity year ]}
    (get_monthly_exports clock commodity year include_china) (has_field "data").
Proof.
  intros w Hwf.
  destruct (get_monthly_exports_wf clock clock_valid commodity year include_china w Hwf)
    as (resp & w' & rows & cm & pf & stamp & Hget & Hcm & Hpf & Hrows & Hresp & Hentry
        & Hdisk & Hinit & Hreads & Hcase).
  destruct (canned_exports_response commodity year cm pf rows include_china stamp
              Hcm Hpf Hrows) as (resp' & Hresp' & Hdata & _).
  rewrite Hresp in Hresp'. injection Hresp' as <-.
  exists resp, w'. split; [exact Hget|]. split.
  { exists (PyList rows). destruct resp; try discriminate. cbn in Hdata |- *.
    now rewrite Hdata. }
  destruct Hcase as [(Hk & Hsvc & _)|(Hk & Hc & Hlu & (n & -> & Hn) & _)].
  - rewrite Hsvc. split; [|split].
    + split; [|split; [|split; [|split; [|split]]]]; rewrite ?Hsvc; try done.
      intros k Hnone [v Hv]. congruence.
    + exact Hwf.
    + apply elem_of_dom_2 in Hk. now apply dom_add_present.
  - split; [|split].
    + split; [|split; [|split; [|split; [|split]]]]; rewrite ?Hc, ?Hlu; try done.
      * intros k v Hv. rewrite lookup_insert_ne; [exact Hv|]. congruence.
      * intros k [[v Hv]|Hnone].
        -- rewrite lookup_insert_ne; [reflexivity|]. congruence.
        -- rewrite lookup_insert_ne; [reflexivity|]. intros <-.
           now rewrite lookup_insert_eq in Hnone.
      * intros k Hnone [v Hv]. destruct (decide (k = exports_key commodity year)) as [->|Hne].
        -- exists n. split; [exact Hn|]. now rewrite lookup_insert_eq.
        -- rewrite lookup_insert_ne in Hv by congruence. congruence.
    + rewrite Hc. apply cache_wf_insert; [exact Hwf|]. right. now exists commodity, year.
    + rewrite Hc. apply dom_add_insert.
Qed.

Lemma triple_keys {A : Type} (K K' : gset string) (m : M A) (Q : A -> Prop) :
  K = K' -> triple clock K m Q -> triple clock K' m Q.
Proof. now intros ->. Qed.

Lemma get_dashboard_summary_triple :
  triple clock dashboard_keys (get_dashboard_summary clock) (fun _ => True).
Proof.
  unfold get_dashboard_summary.
  eapply triple_keys; cycle 1.
  - eapply triple_bind; [apply get_balance_sheet_triple|intros soy_balance Hsb].
    eapply triple_bind; [apply get_balance_sheet_triple|intros corn_balance Hcb].
    eapply triple_bind; [apply get_monthly_exports_triple|intros se24 Hse24].
    eapply triple_bind; [apply get_monthly_exports_triple|intros se25 Hse25].
    eapply triple_bind; [apply get_monthly_exports_triple|intros ce24 Hce24].
    eapply triple_bind; [apply get_monthly_exports_triple|intros ce25 Hce25].
    eapply triple_bind; [apply get_production_triple|intros sp Hsp].
    eapply triple_bind; [apply get_production_triple|intros cp Hcp].
    eapply triple_bind; [apply get_monthly_prices_triple|intros sp24 Hsp24].
    eapply triple_bind; [apply get_monthly_prices_triple|intros sp25 Hsp25].
    eapply triple_bind; [apply get_monthly_prices_triple|intros cp24 Hcp24].
    eapply triple_bind; [apply get_monthly_prices_triple|intros cp25 Hcp25].
    eapply triple_bind; [apply get_exports_by_destination_triple|intros ed Hed].
    eapply triple_bind; [apply get_exports_by_port_triple|intros ep Hep].
    eapply triple_bind; [apply get_soy_complex_balance_triple|intros sc (Hsc1 & Hsc2 & Hsc3)].
    eapply triple_bind; [apply (triple_now clock (fun _ => True)); auto|intros now _].
    do 17 (eapply triple_bind; [apply triple_field; assumption|intros ? _]).
    apply triple_ret. exact I.
  - unfold dashboard_keys. set_solver.
Qed.

(** [refresh_all]: the cache is emptied, the dashboard summary fills it
    again, and the cache file is rewritten. *)
Lemma refresh_all_spec (w : world) :
  exists (resp : pyval) (w1 : world) (d : disk_state),
    get_dashboard_summary clock (set_cache ∅ w) = (Ok resp, w1)
    /\ refresh_all clock w = (Ok tt, set_disk d w1)
    /\ extends clock (set_cache ∅ w) w1
    /\ cache_wf (_cache (svc w1))
    /\ dom (_cache (svc w1)) = dashboard_keys.
Proof.
  destruct (get_dashboard_summary_triple (set_cache ∅ w))
    as (resp & w1 & Hrun & _ & Hext & Hwf & Hdom).
  { cbn. apply cache_wf_empty. }
  destruct (save_cache_spec w1) as [d Hsave].
  exists resp, w1, d. split; [exact Hrun|]. split.
  - unfold refresh_all. unfold bind at 1. unfold bind at 1. now rewrite Hrun.
  - split; [exact Hext|]. split; [exact Hwf|].
    rewrite Hdom. cbn [svc set_cache _cache]. rewrite dom_empty_L.
    now rewrite (left_id_L ∅ (∪)).
Qed.
End EffectsValidClock.

(** ** Refresh *)

Lemma dashboard_keys_literal :
  dashboard_keys
  = {[ "balance_soybeans"; "balance_corn";
       "exports_soybeans_2024"; "exports_soybeans_2025";
       "exports_corn_2024"; "exports_corn_2025" ]}.
Proof. reflexivity. Qed.

Section Refresh.
Variable clock : nat -> datetime.
Hypothesis clock_valid : forall n, Datetime.valid (clock n) = true.

(** C3. [refresh_all] succeeds from any state, and when it is done the
    cache holds exactly the keys [get_dashboard_summary] populates from
    an empty cache: the two balance sheets and the four monthly-exports
    series of the dashboard. Whatever was cached before is gone, and
    every key outside that set is absent. *)
Theorem refresh_all_cache_keys :
  forall w : world,
    exists (w' : world) (resp : pyval) (w1 : world),
      refresh_all clock w = (Ok tt, w')
      /\ get_dashboard_summary clock (set_cache ∅ w) = (Ok resp, w1)
      /\ _cache (svc w') = _cache (svc w1)
      /\ dom (_cache (svc w'))
         = {[ "balance_soybeans"; "balance_corn";
              "exports_soybeans_2024"; "exports_soybeans_2025";
              "exports_corn_2024"; "exports_corn_2025" ]}
      /\ (forall k, k ∉ dashboard_keys -> _cache (svc w') !! k = None).
Proof.
  intros w.
  destruct (refresh_all_spec clock clock_valid w)
    as (resp & w1 & d & Hdash & Hrun & _ & _ & Hdom).
  exists (set_disk d w1), resp, w1.
  split; [exact Hrun|]. split; [exact Hdash|]. split; [reflexivity|].
  cbn [svc set_disk]. split; [now rewrite Hdom, dashboard_keys_literal|].
  intros k Hk. apply not_elem_of_dom. now rewrite Hdom.
Qed.

(** C10. [refresh_all] empties the cache map only. Every key that had
    a timestamp still has one afterwards, and outside the dashboard keys
    the timestamp is the old one while the cache entry is gone: the
    status report then lists a timestamp for a key that is not among
    its cache keys. A later fetch of such a key stores a new reading of
    the clock in the same slot. *)
Theorem refresh_all_keeps_timestamps :
  forall w : world,
    exists w' : world,
      refresh_all clock w = (Ok tt, w')
      /\ dom (last_updated (svc w)) ⊆ dom (last_updated (svc w'))
      /\ (forall k,
            k ∉ dashboard_keys ->
            last_updated (svc w') !! k = last_updated (svc w) !! k
            /\ _cache (svc w') !! k = None)
      /\ (forall k,
            k ∈ dom (last_updated (svc w)) ->
            k ∉ dashboard_keys ->
            exists status : pyval,
              get_status w' = (Ok status, w')
              /\ status_lists_stamp k status
              /\ ~ status_lists_cache_key k status)
      /\ (forall commodity years,
            "balance_" +:+ commodity ∉ dashboard_keys ->
            exists (resp : pyval) (w'' : world),
              get_balance_sheet clock commodity years w' = (Ok resp, w'')
              /\ last_updated (svc w'') !! ("balance_" +:+ commodity)
                 = Some (clock (reads w'))
              /\ response_field "last_updated" resp
                 = Some (PyDatetime (clock (reads w'))))
      /\ (forall commodity year include_china,
            exports_key commodity year ∉ dashboard_keys ->
            exists (resp : pyval) (w'' : world) (n : nat),
              get_monthly_exports clock commodity year include_china w' = (Ok resp, w'')
              /\ (reads w' <= n < reads w'')%nat
              /\ last_updated (svc w'') !! exports_key commodity year = Some (clock n)
              /\ response_field "last_updated" resp = Some (PyDatetime (clock n))).
Proof.
  intros w.
  destruct (refresh_all_spec clock clock_valid w)
    as (resp & w1 & d & _ & Hrun & Hext & Hwf & Hdom).
  destruct Hext as (_ & Hsame & Hnew & _).
  cbn [svc set_cache _cache last_updated] in Hsame, Hnew.
  assert (Habsent : forall k, k ∉ dashboard_keys -> _cache (svc w1) !! k = None).
  { intros k Hk. apply not_elem_of_dom. now rewrite Hdom. }
  exists (set_disk d w1). split; [exact Hrun|]. cbn [svc set_disk reads].
  split; [|split; [|split; [|split]]].
  - intros k [t Ht]%elem_of_dom. apply elem_of_dom.
    destruct (_cache (svc w1) !! k) as [v|] eqn:Hk.
    + destruct (Hnew k) as (n & _ & Hn); [apply lookup_empty|now exists v|].
      now exists (clock n).
    + rewrite Hsame by now right. now exists t.
  - intros k Hk. split; [|now apply Habsent].
    apply Hsame. right. now apply Habsent.
  - intros k Hin Hk.
    destruct (get_status_spec (set_disk d w1)) as (status & Hstatus & Hkeys & Hstamps).
    exists status. split; [exact Hstatus|]. split.
    + apply Hstamps. cbn [svc set_disk]. apply elem_of_dom.
      rewrite Hsame by (right; now apply Habsent). now apply elem_of_dom.
    + intros Hlisted. apply Hkeys in Hlisted. cbn [svc set_disk] in Hlisted.
      rewrite Hdom in Hlisted. contradiction.
  - intros commodity years Hk.
    pose proof (get_balance_sheet_fresh clock commodity years (set_disk d w1)
                  (Habsent _ Hk)) as Hfresh.
    eexists _, _. split; [exact Hfresh|].
    cbn [svc set_last_updated last_updated reads set_disk].
    split; [now rewrite lookup_insert_eq|reflexivity].
  - intros commodity year include_china Hk.
    destruct (get_monthly_exports_wf clock clock_valid commodity year include_china
                (set_disk d w1) Hwf)
      as (resp' & w'' & rows & cm & pf & stamp & Hget & Hcm & Hpf & Hrows & Hresp & _
          & _ & _ & _ & Hcase).
    destruct Hcase as [(Hcached & _)|(_ & _ & Hlu & (n & -> & Hn) & _)].
    { cbn [svc set_disk] in Hcached. rewrite (Habsent _ Hk) in Hcached. discriminate. }
    destruct (canned_exports_response commodity year cm pf rows include_china (clock n)
                Hcm Hpf Hrows) as (resp'' & Hresp'' & _ & Hstamp & _).
    rewrite Hresp in Hresp''. injection Hresp'' as <-.
    exists resp', w'', n. split; [exact Hget|]. split; [exact Hn|].
    split; [|exact Hstamp]. rewrite Hlu. now rewrite lookup_insert_eq.
Qed.
End Refresh.

Lemma refresh_all_cache_keys_witness :
  exists w' : world,
    refresh_all example_clock initial_world = (Ok tt, w')
    /\ dom (_cache (svc w'))
       = {[ "balance_soybeans"; "balance_corn";
            "exports_soybeans_2024"; "exports_soybeans_2025";
            "exports_corn_2024"; "exports_corn_2025" ]}.
Proof.
  destruct (refresh_all_cache_keys example_clock example_clock_valid initial_world)
    as (w' & resp & w1 & Hrun & _ & _ & Hdom & _).
  exists w'. split; assumption.
Defined.

Lemma refresh_all_keeps_timestamps_witness :
  exists w' : world,
    refresh_all example_clock initial_world = (Ok tt, w')
    /\ dom (last_updated (svc initial_world)) ⊆ dom (last_updated (svc w')).
Proof.
  destruct (refresh_all_keeps_timestamps example_clock example_clock_valid initial_world)
    as (w' & Hrun & Hdom & _).
  exists w'. split; assumption.
Defined.

(** ** Timestamps *)

Lemma digit_val_char (d : Z) :
  (0 <= d <= 9)%Z -> Datetime.digit_val (Datetime.digit_char d) = Some d.
Proof.
  intros Hd.
  assert (d = 0 \/ d = 1 \/ d = 2 \/ d = 3 \/ d = 4 \/ d = 5 \/ d = 6 \/ d = 7
          \/ d = 8 \/ d = 9)%Z as Hc by lia.
  repeat (destruct Hc as [->|Hc]; [reflexivity|]). now subst d.
Qed.

(** Reading back the digits [fixed_digits] wrote. *)
Lemma parse_fixed_digits (w : nat) :
  forall (n acc : Z) (rest : string),
    (0 <= n)%Z ->
    Datetime.parse_digits w (Datetime.fixed_digits w n +:+ rest) acc
    = Some ((acc * 10 ^ Z.of_nat w + n mod 10 ^ Z.of_nat w)%Z, rest).
Proof.
  induction w as [|w IH]; intros n acc rest Hn.
  - cbn [Datetime.parse_digits Datetime.fixed_digits]. rewrite append_nil.
    rewrite Z.pow_0_r, Z.mod_1_r. do 2 f_equal. lia.
  - cbn [Datetime.parse_digits Datetime.fixed_digits]. rewrite append_cons.
    assert (Hpow : (0 < 10 ^ Z.of_nat w)%Z) by (apply Z.pow_pos_nonneg; lia).
    rewrite digit_val_char
      by (pose proof (Z.mod_pos_bound (n / 10 ^ Z.of_nat w) 10); lia).
    rewrite IH by assumption. do 2 f_equal.
    rewrite Nat2Z.inj_succ, Z.pow_succ_r by lia.
    rewrite (Z.mul_comm 10 (10 ^ Z.of_nat w)).
    rewrite Z.rem_mul_r by lia. lia.
Qed.

Lemma fixed_digits_split (a b : nat) (n : Z) :
  (0 <= n)%Z ->
  Datetime.fixed_digits (a + b) n
  = Datetime.fixed_digits a (n / 10 ^ Z.of_nat b) +:+ Datetime.fixed_digits b n.
Proof.
  intros Hn. induction a as [|a IH]; [now rewrite append_nil|].
  cbn [Nat.add Datetime.fixed_digits]. rewrite append_cons, IH. f_equal. f_equal.
  rewrite Nat2Z.inj_add, Z.pow_add_r by lia.
  rewrite Z.div_div by (try apply Z.pow_pos_nonneg; try apply Z.pow_nonneg; lia).
  now rewrite Z.mul_comm.
Qed.

Lemma append_empty_r (s : string) : s +:+ "" = s.
Proof. induction s as [|c s IH]; [reflexivity|]. now rewrite append_cons, IH. Qed.

Lemma fixed_digits_nonempty (w : nat) (n : Z) :
  exists c s, Datetime.fixed_digits (S w) n = String c s.
Proof. eexists _, _. reflexivity. Qed.

Lemma valid_ranges (t : datetime) :
  Datetime.valid t = true ->
  (1 <= Datetime.year t <= 9999 /\ 1 <= Datetime.month t <= 12
   /\ 1 <= Datetime.day t <= 31 /\ 0 <= Datetime.hour t <= 23
   /\ 0 <= Datetime.minute t <= 59 /\ 0 <= Datetime.second t <= 59
   /\ 0 <= Datetime.microsecond t <= 999999)%Z.
Proof.
  intros Hv. pose proof (valid_day_range t Hv) as Hday.
  unfold Datetime.valid, Datetime.in_range in Hv.
  repeat (apply andb_true_iff in Hv as [Hv ?]). lia.
Qed.

Lemma parse_fraction_fixed (us : Z) :
  (0 < us <= 999999)%Z ->
  Datetime.parse_fraction ("." +:+ Datetime.fixed_digits 6 us) = Some us.
Proof.
  intros Hus. unfold Datetime.parse_fraction.
  rewrite append_cons, append_nil. cbn [Datetime.expect].
  replace (Ascii.eqb "." ".") with true by reflexivity.
  change (Datetime.fixed_digits 6 us) with (Datetime.fixed_digits (3 + 3) us).
  rewrite (fixed_digits_split 3 3 us) by lia.
  rewrite parse_fixed_digits by (apply Z.div_pos; lia).
  destruct (fixed_digits_nonempty 2 us) as (c & s & Hcs). rewrite Hcs, <- Hcs.
  rewrite <- (append_empty_r (Datetime.fixed_digits 3 us)).
  rewrite parse_fixed_digits by lia.
  f_equal. change (10 ^ Z.of_nat 3)%Z with 1000%Z.
  pose proof (Z.div_mod us 1000 ltac:(lia)) as Hdm.
  assert (Hq : (0 <= us / 1000 < 1000)%Z).
  { split; [apply Z.div_pos; lia|]. apply Z.div_lt_upper_bound; lia. }
  rewrite (Z.mod_small (us / 1000) 1000) by lia. lia.
Qed.

Lemma parse_time_fixed (h mi se us : Z) :
  (0 <= h <= 23)%Z -> (0 <= mi <= 59)%Z -> (0 <= se <= 59)%Z ->
  (0 <= us <= 999999)%Z ->
  Datetime.parse_time
    (Datetime.fixed_digits 2 h +:+ ":" +:+ Datetime.fixed_digits 2 mi +:+ ":" +:+
     Datetime.fixed_digits 2 se +:+
     (if Z.eqb us 0 then "" else "." +:+ Datetime.fixed_digits 6 us))
  = Some (h, mi, se, us).
Proof.
  intros Hh Hmi Hse Hus. unfold Datetime.parse_time.
  rewrite parse_fixed_digits by lia.
  rewrite (append_cons ":" ""), append_nil. cbn [Datetime.expect].
  replace (Ascii.eqb ":" ":") with true by reflexivity.
  rewrite parse_fixed_digits by lia.
  rewrite (append_cons ":" ""), append_nil. cbn [Datetime.expect].
  replace (Ascii.eqb ":" ":") with true by reflexivity.
  rewrite parse_fixed_digits by lia.
  change (10 ^ Z.of_nat 2)%Z with 100%Z.
  rewrite !Z.mod_small by lia. cbn [Z.mul Z.add].
  destruct (Z.eqb_spec us 0) as [->|Hne]; [reflexivity|].
  rewrite parse_fraction_fixed by lia.
  now rewrite append_cons.
Qed.

(** [fromisoformat] inverts [isoformat], to the microsecond. *)
Lemma fromisoformat_isoformat (t : datetime) :
  Datetime.valid t = true ->
  Datetime.fromisoformat (Datetime.isoformat t) = Ok t.
Proof.
  intros Hv. destruct (valid_ranges t Hv) as (Hy & Hm & Hd & Hh & Hmi & Hs & Hus).
  unfold Datetime.fromisoformat, Datetime.isoformat, Datetime.parse_date.
  rewrite parse_fixed_digits by lia.
  rewrite (append_cons "-" ""), append_nil. cbn [Datetime.expect].
  replace (Ascii.eqb "-" "-") with true by reflexivity.
  rewrite parse_fixed_digits by lia.
  rewrite (append_cons "-" ""), append_nil. cbn [Datetime.expect].
  replace (Ascii.eqb "-" "-") with true by reflexivity.
  rewrite parse_fixed_digits by lia.
  rewrite (append_cons "T" ""), append_nil.
  rewrite parse_time_fixed by lia.
  change (10 ^ Z.of_nat 2)%Z with 100%Z. change (10 ^ Z.of_nat 4)%Z with 10000%Z.
  rewrite !Z.mod_small by lia. cbn [Z.mul Z.add].
  destruct t as [y m d h mi se us]. cbn [Datetime.year Datetime.month Datetime.day
    Datetime.hour Datetime.minute Datetime.second Datetime.microsecond] in *.
  change (0 * 10000 + y)%Z with y. change (0 * 100 + m)%Z with m.
  change (0 * 100 + d)%Z with d. now rewrite Hv.
Qed.

(** ** Persistence *)

Lemma balance_table_serializable (commodity : string) :
  PyVal.json_serializable (PyList (_get_balance_sheet_fallback commodity)) = true.
Proof.
  unfold _get_balance_sheet_fallback, balance_sheet_table. cbn [PyVal.assoc].
  repeat (destruct (String.eqb commodity _); [vm_compute; reflexivity|]).
  reflexivity.
Qed.

Lemma export_row_dict_serializable (commodity : string) (year : Z) (i : nat)
    (name : string) (v r : float) (p : bool) :
  PyVal.json_serializable (export_row_dict commodity year i name v r p) = true.
Proof.
  unfold export_row_dict. cbn [PyVal.json_serializable forallb snd andb].
  now destruct (has_china_split commodity).
Qed.

Lemma export_rows_serializable (commodity : string) (year : Z) (v : pyval) :
  export_rows_of commodity year v -> PyVal.json_serializable v = true.
Proof.
  intros (clk & w0 & w1 & rows & Hclk & Hfall & ->).
  destruct (exports_fallback_rows clk Hclk commodity year w0)
    as (cm & pf & n0 & Hrun & _).
  rewrite Hfall in Hrun. injection Hrun as Hrows _. symmetry in Hrows.
  destruct (canned_rows_lookup _ _ _ _ _ Hrows) as [Hlen Hlook].
  cbn [PyVal.json_serializable]. apply forallb_forall. intros row Hin.
  apply list_elem_of_In, list_elem_of_lookup in Hin as [i Hi].
  assert (Hlt : (i < length (export_volumes commodity year))%nat).
  { rewrite <- Hlen. eapply lookup_lt_Some. exact Hi. }
  destruct (lookup_lt_is_Some_2 _ _ Hlt) as [vol Hvol].
  destruct (Hlook i vol Hvol) as (name & r & _ & _ & Hrow).
  rewrite Hi in Hrow. injection Hrow as ->.
  apply export_row_dict_serializable.
Qed.

(** A well-formed cache holds nothing [json.dump] would refuse. *)
Lemma cache_wf_serializable (c : gmap string pyval) :
  cache_wf c -> map_Forall (fun _ v => PyVal.json_serializable v = true) c.
Proof.
  intros Hwf key v Hk.
  destruct (Hwf key v Hk) as [(com & _ & ->)|(com & y & _ & Hv)].
  - apply balance_table_serializable.
  - now apply (export_rows_serializable com y).
Qed.

Lemma save_cache_serializable (w : world) :
  map_Forall (fun _ v => PyVal.json_serializable v = true) (_cache (svc w)) ->
  _save_cache_to_disk w
  = (Ok tt,
     set_disk (Stored {| file_cache := Some (_cache (svc w));
                         file_last_updated :=
                           Some ((fun t => PyStr (Datetime.isoformat t))
                                   <$> last_updated (svc w)) |}) w).
Proof.
  intros Hser. unfold _save_cache_to_disk, try_except.
  now rewrite bool_decide_eq_true_2.
Qed.





(** ** Repeated calls *)

(** [get_balance_sheet] on whatever is cached under its key. *)
Lemma get_balance_sheet_cached_any (clock : nat -> datetime) (commodity : string)
    (years : Z) (w : world) (cached : pyval) :
  _cache (svc w) !! ("balance_" +:+ commodity) = Some cached ->
  get_balance_sheet clock commodity years w
  = match (let* n := PyVal.len cached in
           if (years <? n)%Z then PyVal.slice_from_val cached (- years)
           else Ok cached)%res with
    | Ok data =>
        (Ok (balance_response commodity
               (default (clock (reads w))
                        (last_updated (svc w) !! ("balance_" +:+ commodity)))
               data),
         set_reads (S (reads w)) w)
    | Raise e => (Raise e, w)
    end.
Proof.
  intros Hk. unfold get_balance_sheet.
  unfold bind at 1. unfold read_cache at 1. rewrite Hk.
  unfold bind at 1. unfold lift at 1.
  destruct (PyVal.len cached) as [n|e]; [|reflexivity]. cbn [rbind].
  destruct (years <? n)%Z.
  - unfold bind at 1. unfold lift at 1.
    destruct (PyVal.slice_from_val cached (- years)) as [data|e]; reflexivity.
  - reflexivity.
Qed.

Lemma exports_response_restamp (commodity : string) (year : Z) (include_china : bool)
    (data : pyval) (s1 s2 : datetime) (r1 : pyval) :
  exports_response commodity year include_china data s1 = Ok r1 ->
  exists r2 : pyval,
    exports_response commodity year include_china data s2 = Ok r2
    /\ response_field "data" r2 = response_field "data" r1
    /\ response_field "last_updated" r1 = Some (PyDatetime s1)
    /\ response_field "last_updated" r2 = Some (PyDatetime s2).
Proof.
  unfold exports_response. intros H.
  destruct (PyVal.iter data) as [rows|e]; [|discriminate]. cbn [rbind] in *.
  destruct (ytd_total_of rows) as [t|e]; [|discriminate]. cbn [rbind] in *.
  destruct (ytd_china_of include_china rows) as [c|e]; [|discriminate].
  cbn [rbind] in *.
  destruct (PyVal.round t 2) as [tr|e]; [|discriminate]. cbn [rbind] in *.
  destruct (if PyVal.truthy c then PyVal.round c 2 else Ok PyNone) as [cr|e];
    [|discriminate].
  cbn [rbind] in *. injection H as <-.
  eexists. repeat split; reflexivity.
Qed.

Section RepeatedCalls.
Variable clock : nat -> datetime.

Lemma get_balance_sheet_twice (commodity : string) (years : Z) (w w1 : world)
    (r1 : pyval) :
  get_balance_sheet clock commodity years w = (Ok r1, w1) ->
  exists (r2 : pyval) (w2 : world),
    get_balance_sheet clock commodity years w1 = (Ok r2, w2)
    /\ response_field "data" r2 = response_field "data" r1
    /\ (_cache (svc w) !! ("balance_" +:+ commodity) = None
        \/ is_Some (last_updated (svc w) !! ("balance_" +:+ commodity)) ->
        r2 = r1 /\ svc w2 = svc w1).
Proof.
  intros Hrun.
  destruct (_cache (svc w) !! ("balance_" +:+ commodity)) as [cached|] eqn:Hk.
  - rewrite (get_balance_sheet_cached_any clock _ years _ _ Hk) in Hrun.
    destruct (let* n := PyVal.len cached in
              if (years <? n)%Z then PyVal.slice_from_val cached (- years)
              else Ok cached)%res as [data|e] eqn:Hdata; [|discriminate].
    injection Hrun as <- <-.
    rewrite (get_balance_sheet_cached_any clock _ years (set_reads (S (reads w)) w)
               cached Hk).
    rewrite Hdata. eexists _, _. split; [reflexivity|]. split; [reflexivity|].
    intros [Hnone|[t Ht]]; [discriminate|].
    cbn [svc set_reads]. rewrite Ht. split; reflexivity.
  - rewrite (get_balance_sheet_fresh clock _ years _ Hk) in Hrun.
    injection Hrun as <- <-.
    match goal with
    | |- context [get_balance_sheet clock commodity years ?w1] =>
        rewrite (get_balance_sheet_cached clock commodity years w1
                   (_get_balance_sheet_fallback commodity))
    end.
    2:{ cbn [svc set_last_updated set_reads set_cache _cache]. apply lookup_insert_eq. }
    eexists _, _. split; [reflexivity|]. split; [reflexivity|].
    intros _. cbn [svc set_last_updated set_reads set_cache last_updated].
    rewrite lookup_insert_eq. split; reflexivity.
Qed.

Lemma get_monthly_exports_twice (commodity : string) (year : Z)
    (include_china : bool) (w w1 : world) (r1 : pyval) :
  get_monthly_exports clock commodity year include_china w = (Ok r1, w1) ->
  exists (r2 : pyval) (w2 : world),
    get_monthly_exports clock commodity year include_china w1 = (Ok r2, w2)
    /\ response_field "data" r2 = response_field "data" r1
    /\ (_cache (svc w) !! exports_key commodity year = None
        \/ is_Some (last_updated (svc w) !! exports_key commodity year) ->
        r2 = r1 /\ svc w2 = svc w1).
Proof.
  intros Hrun.
  destruct (_cache (svc w) !! exports_key commodity year) as [cached|] eqn:Hk.
  - destruct (get_monthly_exports_cached clock commodity year include_china cached w Hk)
      as (n & Hget & Hn).
    rewrite Hget in Hrun. injection Hrun as Hr1 <-.
    destruct (get_monthly_exports_cached clock commodity year include_china cached
                (set_reads n w) Hk) as (n' & Hget' & _).
    cbn [svc set_reads reads] in Hget'.
    destruct (exports_response_restamp _ _ _ _ _
                (default (clock n) (last_updated (svc w) !! exports_key commodity year))
                _ Hr1) as (r2 & Hr2 & Hdata & Hs1 & Hs2).
    rewrite Hr2 in Hget'. exists r2, (set_reads n' (set_reads n w)).
    split; [exact Hget'|]. split; [exact Hdata|].
    intros [Hnone|[t Ht]]; [discriminate|].
    rewrite Ht in Hr1, Hr2. cbn [default from_option] in Hr1, Hr2. unfold id in Hr1, Hr2.
    split; [congruence|reflexivity].
  - destruct (_get_monthly_exports_fallback clock commodity year w)
      as [[rows|e] wf] eqn:Hfall.
    2:{ exfalso. revert Hrun. unfold get_monthly_exports.
        unfold bind at 1. unfold read_cache at 1. rewrite Hk.
        unfold bind at 1. unfold bind at 1. rewrite Hfall. discriminate. }
    destruct (get_monthly_exports_fresh clock commodity year include_china rows w wf
                Hk Hfall) as (n & Hget & Hn).
    rewrite Hget in Hrun. injection Hrun as Hr1 <-.
    match goal with
    | |- context [get_monthly_exports clock commodity year include_china ?w1] =>
        destruct (get_monthly_exports_cached clock commodity year include_china
                    (PyList rows) w1) as (n' & Hget' & _)
    end.
    { cbn [svc set_last_updated set_reads set_cache _cache]. apply lookup_insert_eq. }
    cbn [svc set_last_updated set_reads set_cache last_updated reads] in Hget'.
    rewrite lookup_insert_eq in Hget'. cbn [default from_option] in Hget'.
    unfold id in Hget'. rewrite Hr1 in Hget'.
    eexists _, _. split; [exact Hget'|]. split; [reflexivity|].
    intros _. split; reflexivity.
Qed.

(** The four fetches that keep no cache, run in two states. *)
Lemma uncached_fetch_spec (f : fetch) (w w' : world) :
  fetch_cache_key f = None ->
  exists r r' : pyval,
    run_fetch clock f w = (Ok r, set_reads (S (reads w)) w)
    /\ run_fetch clock f w' = (Ok r', set_reads (S (reads w')) w')
    /\ response_field "data" r' = response_field "data" r
    /\ response_field "last_updated" r = Some (PyDatetime (clock (reads w)))
    /\ response_field "last_updated" r' = Some (PyDatetime (clock (reads w'))).
Proof.
  destruct f as [c y|c y ic|c y tn|c y|c y st|c y loc]; cbn [fetch_cache_key run_fetch];
    intros Hkey; try discriminate Hkey; clear Hkey.
  - rewrite !get_exports_by_destination_spec. eexists _, _. repeat split; reflexivity.
  - eexists _, _. repeat split; reflexivity.
  - eexists _, _. repeat split; reflexivity.
  - destruct (get_monthly_prices_spec clock c y loc w) as (data & Hdata & ->).
    destruct (get_monthly_prices_spec clock c y loc w') as (data' & Hdata' & ->).
    rewrite Hdata in Hdata'. injection Hdata' as <-.
    eexists _, _. repeat split; reflexivity.
Qed.

(** X1. Whatever the state, when a fetch succeeds the same fetch issued
    again succeeds too and returns the same [data]. *)
Theorem repeated_fetch_same_data :
  forall (f : fetch) (w w1 : world) (r1 : pyval),
    run_fetch clock f w = (Ok r1, w1) ->
    exists (r2 : pyval) (w2 : world),
      run_fetch clock f w1 = (Ok r2, w2)
      /\ response_field "data" r2 = response_field "data" r1.
Proof.
  intros f w w1 r1 Hrun.
  destruct (fetch_cache_key f) as [key|] eqn:Hkey.
  - destruct f as [c y|c y ic|c y tn|c y|c y st|c y loc];
      try discriminate Hkey; cbn [run_fetch] in *.
    + destruct (get_balance_sheet_twice _ _ _ _ _ Hrun) as (r2 & w2 & H2 & Hd & _).
      now exists r2, w2.
    + destruct (get_monthly_exports_twice _ _ _ _ _ _ Hrun) as (r2 & w2 & H2 & Hd & _).
      now exists r2, w2.
  - destruct (uncached_fetch_spec f w w1 Hkey) as (r & r' & H1 & H2 & Hd & _).
    rewrite H1 in Hrun. injection Hrun as <- _.
    now exists r', (set_reads (S (reads w1)) w1).
Qed.

(** X2. A fetch that caches ([get_balance_sheet],
    [get_monthly_exports]), issued twice in a row, answers the second
    time with the very response of the first, [last_updated] included,
    and changes nothing in the service, provided its key was not cached
    before the first call or had a timestamp already. *)
Theorem repeated_cached_fetch_identical :
  forall (f : fetch) (key : string) (w w1 : world) (r1 : pyval),
    fetch_cache_key f = Some key ->
    _cache (svc w) !! key = None \/ is_Some (last_updated (svc w) !! key) ->
    run_fetch clock f w = (Ok r1, w1) ->
    exists w2 : world,
      run_fetch clock f w1 = (Ok r1, w2) /\ svc w2 = svc w1.
Proof.
  intros f key w w1 r1 Hkey Hpre Hrun.
  destruct f as [c y|c y ic|c y tn|c y|c y st|c y loc]; try discriminate Hkey;
    cbn [run_fetch fetch_cache_key] in *; injection Hkey as <-.
  - destruct (get_balance_sheet_twice _ _ _ _ _ Hrun) as (r2 & w2 & H2 & _ & Hsame).
    destruct (Hsame Hpre) as [-> Hsvc]. now exists w2.
  - destruct (get_monthly_exports_twice _ _ _ _ _ _ Hrun) as (r2 & w2 & H2 & _ & Hsame).
    destruct (Hsame Hpre) as [-> Hsvc]. now exists w2.
Qed.

(** X3. A fetch that keeps no cache ([get_exports_by_destination],
    [get_exports_by_port], [get_production], [get_monthly_prices])
    never raises and leaves the service and the cache file alone; it
    reads the clock once and stamps its response with that reading, so
    two calls in a row carry two successive readings of the clock. *)
Theorem uncached_fetch_stamps_each_call :
  forall (f : fetch) (w : world),
    fetch_cache_key f = None ->
    exists r1 r2 : pyval,
      run_fetch clock f w = (Ok r1, set_reads (S (reads w)) w)
      /\ run_fetch clock f (set_reads (S (reads w)) w)
         = (Ok r2, set_reads (S (S (reads w))) w)
      /\ response_field "last_updated" r1 = Some (PyDatetime (clock (reads w)))
      /\ response_field "last_updated" r2 = Some (PyDatetime (clock (S (reads w)))).
Proof.
  intros f w Hkey.
  destruct (uncached_fetch_spec f w (set_reads (S (reads w)) w) Hkey)
    as (r1 & r2 & H1 & H2 & _ & Hs1 & Hs2).
  exists r1, r2. split; [exact H1|]. split; [exact H2|]. split; [exact Hs1|exact Hs2].
Qed.
End RepeatedCalls.

Lemma repeated_fetch_same_data_witness :
  exists (r1 : pyval) (w1 : world) (r2 : pyval) (w2 : world),
    run_fetch example_clock (FetchBalanceSheet "corn" 3) initial_world = (Ok r1, w1)
    /\ run_fetch example_clock (FetchBalanceSheet "corn" 3) w1 = (Ok r2, w2)
    /\ response_field "data" r2 = response_field "data" r1.
Proof.
  pose proof (get_balance_sheet_fresh example_clock "corn" 3 initial_world
                (lookup_empty _)) as H1.
  destruct (repeated_fetch_same_data example_clock (FetchBalanceSheet "corn" 3) _ _ _ H1)
    as (r2 & w2 & H2 & Hd).
  eexists _, _, r2, w2. split; [exact H1|]. split; [exact H2|exact Hd].
Defined.

Lemma repeated_cached_fetch_identical_witness :
  exists (r1 : pyval) (w1 w2 : world),
    run_fetch example_clock (FetchBalanceSheet "corn" 3) initial_world = (Ok r1, w1)
    /\ run_fetch example_clock (FetchBalanceSheet "corn" 3) w1 = (Ok r1, w2)
    /\ svc w2 = svc w1.
Proof.
  pose proof (get_balance_sheet_fresh example_clock "corn" 3 initial_world
                (lookup_empty _)) as H1.
  destruct (repeated_cached_fetch_identical example_clock (FetchBalanceSheet "corn" 3)
              ("balance_" +:+ "corn") _ _ _ eq_refl (or_introl (lookup_empty _)) H1)
    as (w2 & H2 & Hsvc).
  eexists _, _, w2. split; [exact H1|]. split; [exact H2|exact Hsvc].
Defined.

Lemma uncached_fetch_stamps_each_call_witness :
  exists r1 r2 : pyval,
    run_fetch example_clock (FetchProduction "soybeans" 10 None) initial_world
    = (Ok r1, set_reads 1 initial_world)
    /\ run_fetch example_clock (FetchProduction "soybeans" 10 None)
         (set_reads 1 initial_world)
       = (Ok r2, set_reads 2 initial_world)
    /\ response_field "last_updated" r1 = Some (PyDatetime (example_clock 0))
    /\ response_field "last_updated" r2 = Some (PyDatetime (example_clock 1)).
Proof.
  exact (uncached_fetch_stamps_each_call example_clock
           (FetchProduction "soybeans" 10 None) initial_world eq_refl).
Defined.

(** ** Unknown commodities and slice bounds *)

(** A commodity that is no key of [NCM_CODES] is none of the five. *)
Lemma unknown_commodity_cases (commodity : string) :
  PyVal.assoc commodity NCM_CODES = None ->
  String.eqb commodity "soybeans" = false
  /\ String.eqb commodity "corn" = false
  /\ String.eqb commodity "soy_meal" = false
  /\ String.eqb commodity "soy_oil" = false
  /\ String.eqb commodity "wheat" = false.
Proof.
  unfold NCM_CODES. cbn [PyVal.assoc]. intros H.
  destruct (String.eqb commodity "soybeans"); [discriminate H|].
  destruct (String.eqb commodity "corn"); [discriminate H|].
  destruct (String.eqb commodity "soy_meal"); [discriminate H|].
  destruct (String.eqb commodity "soy_oil"); [discriminate H|].
  destruct (String.eqb commodity "wheat"); [discriminate H|].
  repeat split.
Qed.

Lemma unknown_commodity_tables (commodity : string) :
  PyVal.assoc commodity NCM_CODES = None ->
  _get_balance_sheet_fallback commodity = []
  /\ _get_production_fallback commodity = []
  /\ PyVal.assoc commodity price_table = None
  /\ export_volumes commodity = (fun _ => replicate 12 5.0%float)
  /\ has_china_split commodity = false
  /\ get_ncm_code commodity = "".
Proof.
  intros H. pose proof (unknown_commodity_cases _ H) as (H1 & H2 & H3 & H4 & H5).
  unfold _get_balance_sheet_fallback, balance_sheet_table, _get_production_fallback,
    production_table, price_table, export_volumes, export_patterns, has_china_split,
    get_ncm_code.
  cbn [PyVal.assoc]. rewrite H, H1, H2, H3, H4, H5. repeat split.
Qed.

(** The fields [get_monthly_exports] copies into its response. *)
Lemma exports_response_fields (commodity : string) (year : Z) (include_china : bool)
    (data : pyval) (stamp : datetime) (resp : pyval) :
  exports_response commodity year include_china data stamp = Ok resp ->
  response_field "commodity" resp = Some (PyStr commodity)
  /\ response_field "ncmCode" resp = Some (PyStr (get_ncm_code commodity))
  /\ response_field "year" resp = Some (PyInt year)
  /\ response_field "data" resp = Some data.
Proof.
  unfold exports_response. intros H.
  destruct (PyVal.iter data) as [rows|e]; [|discriminate H]. cbn [rbind] in H.
  destruct (ytd_total_of rows) as [t|e]; [|discriminate H]. cbn [rbind] in H.
  destruct (ytd_china_of include_china rows) as [c|e]; [|discriminate H].
  cbn [rbind] in H.
  destruct (PyVal.round t 2) as [tr|e]; [|discriminate H]. cbn [rbind] in H.
  destruct (if PyVal.truthy c then PyVal.round c 2 else Ok PyNone) as [cr|e];
    [|discriminate H].
  cbn [rbind] in H. injection H as <-. repeat split.
Qed.

Lemma round_five : PyNum.round_float 5.0%float 2 = Ok 5.0%float.
Proof. vm_compute. reflexivity. Qed.

Lemma slice_from_zero {A : Type} (l : list A) : PyVal.slice_from l (- 0) = l.
Proof.
  unfold PyVal.slice_from, PyVal.clamp_index. change (- 0)%Z with 0%Z.
  change (0 <? 0)%Z with false. cbv iota. rewrite Z.min_l by lia. reflexivity.
Qed.

Lemma slice_from_nil {A : Type} (n : Z) : PyVal.slice_from (@nil A) n = [].
Proof. unfold PyVal.slice_from. apply drop_nil. Qed.

Lemma slice_from_front {A : Type} (l : list A) (n : Z) :
  (n < 0)%Z -> PyVal.slice_from l (- n) = drop (Z.to_nat (- n)) l.
Proof.
  intros Hn. unfold PyVal.slice_from, PyVal.clamp_index.
  destruct (Z.ltb_spec (- n) 0) as [H|_]; [lia|].
  destruct (Z.min_spec (- n) (Z.of_nat (length l))) as [[_ ->]|[Hle ->]]; [reflexivity|].
  rewrite Nat2Z.id. rewrite drop_all. symmetry. apply drop_ge. lia.
Qed.

Lemma slice_to_front {A : Type} (l : list A) (n : Z) :
  (0 <= n)%Z -> PyVal.slice_to l n = take (Z.to_nat n) l.
Proof.
  intros Hn. unfold PyVal.slice_to, PyVal.clamp_index.
  destruct (Z.ltb_spec n 0) as [H|_]; [lia|].
  destruct (Z.min_spec n (Z.of_nat (length l))) as [[_ ->]|[Hle ->]]; [reflexivity|].
  rewrite Nat2Z.id. rewrite firstn_all. symmetry. apply take_ge. lia.
Qed.

Lemma slice_to_back {A : Type} (l : list A) (n : Z) :
  (n < 0)%Z -> PyVal.slice_to l n = take (length l - Z.to_nat (- n)) l.
Proof.
  intros Hn. unfold PyVal.slice_to, PyVal.clamp_index.
  destruct (Z.ltb_spec n 0) as [_|H]; [|lia]. f_equal. lia.
Qed.

Lemma production_series_length (commodity : string) :
  commodity = "soybeans" \/ commodity = "corn" ->
  length (_get_production_fallback commodity) = 11%nat.
Proof. intros [->| ->]; reflexivity. Qed.

Lemma production_series_empty (commodity : string) :
  commodity <> "soybeans" -> commodity <> "corn" ->
  _get_production_fallback commodity = [].
Proof.
  intros H1 H2. unfold _get_production_fallback, production_table. cbn [PyVal.assoc].
  destruct (String.eqb_spec commodity "soybeans") as [->|_]; [contradiction|].
  destruct (String.eqb_spec commodity "corn") as [->|_]; [contradiction|].
  reflexivity.
Qed.

Section FetchEdges.
Variable clock : nat -> datetime.

(** X4. For a commodity that is no key of [NCM_CODES], the balance
    sheet (in a state with a well-formed cache), the production series
    and the prices asked without a location all answer successfully
    with an empty [data]. *)
Theorem unknown_commodity_empty_series :
  forall (commodity : string) (years year : Z) (state : option string) (w : world),
    PyVal.assoc commodity NCM_CODES = None ->
    cache_wf (_cache (svc w)) ->
    (exists (resp : pyval) (w' : world),
        get_balance_sheet clock commodity years w = (Ok resp, w')
        /\ response_field "data" resp = Some (PyList []))
    /\ (exists (resp : pyval) (w' : world),
           get_production clock commodity years state w = (Ok resp, w')
           /\ response_field "data" resp = Some (PyList []))
    /\ (exists (resp : pyval) (w' : world),
           get_monthly_prices clock commodity year None w = (Ok resp, w')
           /\ response_field "data" resp = Some (PyList [])).
Proof.
  intros commodity years year state w Hunknown Hwf.
  destruct (unknown_commodity_tables _ Hunknown) as (Hb & Hp & Hpr & _).
  split; [|split].
  - destruct (_cache (svc w) !! ("balance_" +:+ commodity)) as [v|] eqn:Hk.
    + rewrite (cache_wf_balance _ _ _ Hwf Hk) in Hk.
      rewrite (get_balance_sheet_cached clock _ years _ _ Hk). rewrite Hb.
      rewrite slice_from_nil. eexists _, _. split; reflexivity.
    + rewrite (get_balance_sheet_fresh clock _ years _ Hk). rewrite Hb.
      rewrite slice_from_nil. eexists _, _. split; reflexivity.
  - unfold get_production. rewrite Hp, slice_from_nil.
    eexists _, _. split; reflexivity.
  - unfold get_monthly_prices, _get_prices_fallback. rewrite Hpr.
    eexists _, _. split; reflexivity.
Qed.

(** X7. [get_production] returns [series[-years:]] of the stored
    series of the commodity: its last [years] rows (all of them when
    there are fewer) for [years >= 1], the whole series for
    [years = 0], and the series without its first [-years] rows for a
    negative [years]. Only soybeans and corn have a series, of eleven
    crop years; [data] is empty for every other commodity. *)
Theorem production_years_window :
  forall (commodity : string) (years : Z) (state : option string) (w : world),
    let series := _get_production_fallback commodity in
    exists (resp : pyval) (rows : list pyval),
      get_production clock commodity years state w
      = (Ok resp, set_reads (S (reads w)) w)
      /\ response_field "data" resp = Some (PyList rows)
      /\ (1 <= years -> rows = drop (length series - Z.to_nat years) series)%Z
      /\ (years = 0 -> rows = series)%Z
      /\ (years < 0 -> rows = drop (Z.to_nat (- years)) series)%Z
      /\ (commodity = "soybeans" \/ commodity = "corn" -> length series = 11%nat)
      /\ (commodity <> "soybeans" -> commodity <> "corn" -> rows = []).
Proof.
  intros commodity years state w series.
  exists (PyDict [("success", PyBool true);
                  ("commodity", PyStr commodity);
                  ("source", PyStr "CONAB SerieHistoricaGraos");
                  ("last_updated", PyDatetime (clock (reads w)));
                  ("data", PyList (PyVal.slice_from series (- years)))]),
    (PyVal.slice_from series (- years)).
  split; [reflexivity|]. split; [reflexivity|].
  split; [intros H; now apply slice_from_last|].
  split; [intros ->; apply slice_from_zero|].
  split; [intros H; now apply slice_from_front|].
  split; [apply production_series_length|].
  intros H1 H2. subst series. rewrite production_series_empty by assumption.
  apply slice_from_nil.
Qed.

(** X8. The cache keeps the whole balance sheet of a commodity, not the
    slice a call returned: in a state with a well-formed cache, a call
    asking for [years2] rows right after one asking for [years1] rows
    returns [series[-years2:]], whatever [years1] was, and so does a
    first call on a cache that lacks the key. *)
Theorem balance_sheet_cache_holds_full_series :
  forall (commodity : string) (years1 years2 : Z) (w : world),
    cache_wf (_cache (svc w)) ->
    let series := _get_balance_sheet_fallback commodity in
    exists (r1 : pyval) (w1 : world) (r2 : pyval) (w2 : world),
      get_balance_sheet clock commodity years1 w = (Ok r1, w1)
      /\ get_balance_sheet clock commodity years2 w1 = (Ok r2, w2)
      /\ response_field "data" r1 = Some (PyList (PyVal.slice_from series (- years1)))
      /\ _cache (svc w1) !! ("balance_" +:+ commodity) = Some (PyList series)
      /\ response_field "data" r2 = Some (PyList (PyVal.slice_from series (- years2))).
Proof.
  intros commodity years1 years2 w Hwf series.
  assert (H1 : exists r1 w1,
             get_balance_sheet clock commodity years1 w = (Ok r1, w1)
             /\ response_field "data" r1
                = Some (PyList (PyVal.slice_from series (- years1)))
             /\ _cache (svc w1) !! ("balance_" +:+ commodity) = Some (PyList series)).
  { destruct (_cache (svc w) !! ("balance_" +:+ commodity)) as [v|] eqn:Hk.
    - rewrite (cache_wf_balance _ _ _ Hwf Hk) in Hk.
      rewrite (get_balance_sheet_cached clock _ years1 _ _ Hk).
      eexists _, _. split; [reflexivity|]. split; [reflexivity|exact Hk].
    - rewrite (get_balance_sheet_fresh clock _ years1 _ Hk).
      eexists _, _. split; [reflexivity|]. split; [reflexivity|].
      cbn [svc set_last_updated set_reads set_cache _cache]. apply lookup_insert_eq. }
  destruct H1 as (r1 & w1 & Hrun1 & Hd1 & Hk1).
  exists r1, w1. rewrite (get_balance_sheet_cached clock _ years2 _ _ Hk1).
  eexists _, _. split; [exact Hrun1|]. split; [reflexivity|].
  split; [exact Hd1|]. split; [exact Hk1|reflexivity].
Qed.

(** X6. [get_exports_by_destination] answers the same for every
    commodity and year: [data] is [table[:top_n]] of one table of ten
    destinations, the literal of the source with [volumeMt] and
    [valueUsd] computed from [volumeMmt] (times 1,000,000 and times
    420,000,000), so its first [top_n] rows for [top_n >= 0] and all
    but the last [-top_n] for a negative [top_n]; [totalMmt] is 107.8,
    the total of the ten, however few are returned. *)
Theorem exports_by_destination_table :
  forall (commodity : string) (year top_n : Z) (w : world),
    exists (resp : pyval) (table rows : list pyval),
      get_exports_by_destination clock commodity year top_n w
      = (Ok resp, set_reads (S (reads w)) w)
      /\ response_field "totalMmt" resp = Some (PyFloat 107.8%float)
      /\ response_field "data" resp = Some (PyList rows)
      /\ length table = 10%nat
      /\ (0 <= top_n -> rows = take (Z.to_nat top_n) table)%Z
      /\ (top_n < 0 -> rows = take (10 - Z.to_nat (- top_n)) table)%Z
      /\ (forall (i : nat) (d' : pyval),
            table !! i = Some d' ->
            exists (d : pyval) (v : float),
              destinations_literal !! i = Some d
              /\ response_field "countryCode" d' = response_field "countryCode" d
              /\ response_field "countryName" d' = response_field "countryName" d
              /\ response_field "sharePct" d' = response_field "sharePct" d
              /\ response_field "volumeMmt" d = Some (PyFloat v)
              /\ response_field "volumeMmt" d' = Some (PyFloat v)
              /\ response_field "volumeMt" d' = Some (PyFloat (v * 1000000)%float)
              /\ response_field "valueUsd" d' = Some (PyFloat (v * 420000000)%float)).
Proof.
  intros commodity year top_n w.
  rewrite get_exports_by_destination_spec.
  eexists _, destinations_with_fields, (PyVal.slice_to destinations_with_fields top_n).
  split; [reflexivity|]. split; [reflexivity|]. split; [reflexivity|].
  split; [reflexivity|].
  split; [intros H; now apply slice_to_front|].
  split; [intros H; now apply (slice_to_back destinations_with_fields)|].
  intros i d' Hi.
  do 10 (destruct i as [|i];
         [injection Hi as <-; eexists _, _; split; [reflexivity|];
          repeat split; reflexivity|]).
  discriminate Hi.
Qed.
End FetchEdges.

Section FetchEdgesValidClock.
Variable clock : nat -> datetime.
Hypothesis clock_valid : forall n, Datetime.valid (clock n) = true.

(** X5. For a commodity that is no key of [NCM_CODES],
    [get_monthly_exports] does not answer with an empty [data]: in a
    state with a well-formed cache it succeeds with twelve rows, months
    1 to 12 in order, made from the default volume 5.0 (each row shows
    5.0 unless it is the partial month), with no China figures and an
    empty [ncmCode]. *)
Theorem unknown_commodity_monthly_exports :
  forall (commodity : string) (year : Z) (include_china : bool) (w : world),
    PyVal.assoc commodity NCM_CODES = None ->
    cache_wf (_cache (svc w)) ->
    exists (resp : pyval) (w' : world) (rows : list pyval),
      get_monthly_exports clock commodity year include_china w = (Ok resp, w')
      /\ response_field "ncmCode" resp = Some (PyStr "")
      /\ response_field "ytdToChinaMmt" resp = Some PyNone
      /\ response_field "data" resp = Some (PyList rows)
      /\ length rows = 12%nat
      /\ forall (i : nat) (row : pyval),
           rows !! i = Some row ->
           response_field "month" row = Some (PyInt (Z.of_nat i + 1))
           /\ response_field "toChinaMt" row = Some PyNone
           /\ (response_field "isPartial" row = Some (PyBool false) ->
               response_field "volumeMmt" row = Some (PyFloat 5.0%float)).
Proof.
  intros commodity year include_china w Hunknown Hwf.
  destruct (unknown_commodity_tables _ Hunknown) as (_ & _ & _ & Hvols & Hsplit & Hncm).
  destruct (get_monthly_exports_wf clock clock_valid commodity year include_china w Hwf)
    as (resp & w' & rows & cm & pf & stamp & Hget & Hcm & Hpf & Hrows & Hresp & _).
  destruct (canned_exports_response commodity year cm pf rows include_china stamp
              Hcm Hpf Hrows) as (resp' & Hresp' & _ & _ & _ & Hchina).
  rewrite Hresp in Hresp'. injection Hresp' as <-.
  rewrite Hsplit, andb_false_r in Hchina.
  destruct (exports_response_fields _ _ _ _ _ _ Hresp) as (_ & Hcode & _ & Hdata).
  rewrite Hncm in Hcode.
  destruct (canned_rows_lookup _ _ _ _ _ Hrows) as [Hlen Hlook].
  rewrite Hvols in Hlen, Hlook.
  exists resp, w', rows. split; [exact Hget|]. split; [exact Hcode|].
  split; [exact Hchina|]. split; [exact Hdata|]. split; [exact Hlen|].
  intros i row Hi.
  assert (Hlt : (i < 12)%nat).
  { change 12%nat with (length (replicate 12 5.0%float)). rewrite <- Hlen.
    eapply lookup_lt_Some. exact Hi. }
  assert (Hvol : replicate 12 5.0%float !! i = Some 5.0%float).
  { now apply lookup_replicate_2. }
  destruct (Hlook i _ Hvol) as (name & r & _ & Hr & Hrow).
  rewrite Hi in Hrow. injection Hrow as ->.
  unfold export_row_dict. rewrite Hsplit.
  split; [reflexivity|]. split; [reflexivity|].
  cbn [response_field PyVal.assoc String.eqb Ascii.eqb Bool.eqb].
  intros [= Hpartial].
  assert (Hadj : adjusted_volume cm pf i 5.0%float = 5.0%float).
  { unfold adjusted_volume, row_is_partial in *. destruct pf as [frac|]; [|reflexivity].
    now rewrite Hpartial. }
  rewrite Hadj, round_five in Hr. now injection Hr as <-.
Qed.
End FetchEdgesValidClock.

Lemma unknown_commodity_empty_series_witness :
  exists (resp : pyval) (w' : world),
    get_balance_sheet example_clock "rice" 6 initial_world = (Ok resp, w')
    /\ response_field "data" resp = Some (PyList []).
Proof.
  exact (proj1 (unknown_commodity_empty_series example_clock "rice" 6 2025 None
                  initial_world eq_refl cache_wf_empty)).
Defined.

Lemma balance_sheet_cache_holds_full_series_witness :
  exists (r1 : pyval) (w1 : world) (r2 : pyval) (w2 : world),
    get_balance_sheet example_clock "soybeans" 2 initial_world = (Ok r1, w1)
    /\ get_balance_sheet example_clock "soybeans" 6 w1 = (Ok r2, w2)
    /\ response_field "data" r2 = Some (PyList (_get_balance_sheet_fallback "soybeans")).
Proof.
  destruct (balance_sheet_cache_holds_full_series example_clock "soybeans" 2 6
              initial_world cache_wf_empty)
    as (r1 & w1 & r2 & w2 & H1 & H2 & _ & _ & Hd).
  exists r1, w1, r2, w2. split; [exact H1|]. split; [exact H2|exact Hd].
Defined.

Lemma unknown_commodity_monthly_exports_witness :
  exists (resp : pyval) (w' : world) (rows : list pyval),
    get_monthly_exports example_clock "rice" 2025 true initial_world = (Ok resp, w')
    /\ response_field "data" resp = Some (PyList rows)
    /\ length rows = 12%nat.
Proof.
  destruct (unknown_commodity_monthly_exports example_clock example_clock_valid
              "rice" 2025 true initial_world eq_refl cache_wf_empty)
    as (resp & w' & rows & Hget & _ & _ & Hdata & Hlen & _).
  exists resp, w', rows. split; [exact Hget|]. split; [exact Hdata|exact Hlen].
Defined.

(** ** Lifecycle, persistence and the invariant *)

(** Reading the timestamps of a file: what the loop leaves in
    [last_updated], whether it ran to the end or stopped at an entry
    that does not parse. *)
Lemma load_stamps_spec (stamps : gmap string pyval) (w : world) :
  exists (r : result unit) (lu' : gmap string datetime),
    load_stamps stamps w = (r, set_last_updated lu' w)
    /\ (forall k, stamps !! k = None -> lu' !! k = last_updated (svc w) !! k)
    /\ (forall k t,
          lu' !! k = Some t ->
          last_updated (svc w) !! k = Some t
          \/ exists v, stamps !! k = Some v /\ parse_stamp v = Ok t)
    /\ ((forall k v, stamps !! k = Some v -> exists t, parse_stamp v = Ok t) ->
        r = Ok tt
        /\ forall k v, stamps !! k = Some v ->
                       exists t, parse_stamp v = Ok t /\ lu' !! k = Some t).
Proof.
  unfold load_stamps.
  match goal with
  | |- context [map_fold ?f ?b stamps] =>
      pose proof (map_fold_weak_ind
        (fun (acc : result unit * gmap string datetime) (m : gmap string pyval) =>
           (forall k, m !! k = None -> acc.2 !! k = last_updated (svc w) !! k)
           /\ (forall k t,
                 acc.2 !! k = Some t ->
                 last_updated (svc w) !! k = Some t
                 \/ exists v, m !! k = Some v /\ parse_stamp v = Ok t)
           /\ ((forall k v, m !! k = Some v -> exists t, parse_stamp v = Ok t) ->
               acc.1 = Ok tt
               /\ forall k v, m !! k = Some v ->
                              exists t, parse_stamp v = Ok t /\ acc.2 !! k = Some t))
        f b) as Hind
  end.
  match type of Hind with
  | ?A -> ?B -> _ => assert (HA : A); [|assert (HB : B)]
  end.
  - cbn [fst snd]. split; [reflexivity|]. split; [now left|].
    intros _. split; [reflexivity|]. intros k v Hk. now rewrite lookup_empty in Hk.
  - intros i x m [r lu] Hnone (Hold & Hsrc & Hall). cbn [fst snd] in *.
    destruct r as [[]|e].
    + destruct (parse_stamp x) as [t|e] eqn:Hparse; cbn [fst snd].
      * split; [|split].
        -- intros k Hk. apply lookup_insert_None in Hk as [Hk Hne].
           rewrite lookup_insert_ne by congruence. now apply Hold.
        -- intros k t' Hk. destruct (decide (k = i)) as [->|Hne].
           ++ rewrite lookup_insert_eq in Hk. injection Hk as <-.
              right. exists x. now rewrite lookup_insert_eq.
           ++ rewrite lookup_insert_ne in Hk by congruence.
              destruct (Hsrc k t' Hk) as [H|(v & Hv & Hp)]; [now left|].
              right. exists v. now rewrite lookup_insert_ne by congruence.
        -- intros Hparses.
           destruct Hall as [_ Hall].
           { intros k v Hk. apply (Hparses k v).
             rewrite lookup_insert_ne; [exact Hk|]. intros <-. congruence. }
           split; [reflexivity|]. intros k v Hk.
           destruct (decide (k = i)) as [->|Hne].
           ++ rewrite lookup_insert_eq in Hk. injection Hk as <-.
              exists t. now rewrite lookup_insert_eq.
           ++ rewrite lookup_insert_ne in Hk by congruence.
              rewrite lookup_insert_ne by congruence. now apply Hall.
      * split; [|split].
        -- intros k Hk. apply lookup_insert_None in Hk as [Hk Hne]. now apply Hold.
        -- intros k t' Hk. destruct (Hsrc k t' Hk) as [H|(v & Hv & Hp)]; [now left|].
           right. exists v. rewrite lookup_insert_ne; [now split|]. intros <-. congruence.
        -- intros Hparses. destruct (Hparses i x) as [t Ht]; [apply lookup_insert_eq|].
           congruence.
    + cbn [fst snd]. split; [|split].
      * intros k Hk. apply lookup_insert_None in Hk as [Hk Hne]. now apply Hold.
      * intros k t' Hk. destruct (Hsrc k t' Hk) as [H|(v & Hv & Hp)]; [now left|].
        right. exists v. rewrite lookup_insert_ne; [now split|]. intros <-. congruence.
      * intros Hparses. destruct Hall as [Hr _]; [|discriminate Hr].
        intros k v Hk. apply (Hparses k v).
        rewrite lookup_insert_ne; [exact Hk|]. intros <-. congruence.
  - specialize (Hind HA HB stamps). clear HA HB.
    destruct (map_fold _ _ stamps) as [r lu']. cbn [fst snd] in Hind.
    exists r, lu'. split; [reflexivity|exact Hind].
Qed.

(** Reading back what [_save_cache_to_disk] wrote, into a service that
    already has timestamps: those of the file win. *)
Lemma load_stamps_saved_union (lu : gmap string datetime) (w : world) :
  stamps_wf lu ->
  load_stamps ((fun t => PyStr (Datetime.isoformat t)) <$> lu) w
  = (Ok tt, set_last_updated (lu ∪ last_updated (svc w)) w).
Proof.
  intros Hwf. unfold load_stamps.
  rewrite map_fold_fmap.
  match goal with
  | |- context [map_fold ?f ?b lu] =>
      assert (H : stamps_wf lu -> map_fold f b lu = (Ok tt, lu ∪ last_updated (svc w)))
  end.
  { apply (map_fold_weak_ind
             (fun r (m : gmap string datetime) =>
                stamps_wf m -> r = (Ok tt, m ∪ last_updated (svc w)))).
    - intros _. now rewrite (left_id_L ∅ (∪)).
    - intros key t m r Hnone IH Hm.
      apply map_Forall_insert in Hm as [Ht Hm]; [|exact Hnone].
      rewrite (IH Hm). unfold compose. cbn [parse_stamp].
      rewrite fromisoformat_isoformat by exact Ht.
      now rewrite insert_union_l. }
  now rewrite (H Hwf).
Qed.

Lemma stamps_wf_union (lu1 lu2 : gmap string datetime) :
  stamps_wf lu1 -> stamps_wf lu2 -> stamps_wf (lu1 ∪ lu2).
Proof.
  intros H1 H2 k t Hk. apply lookup_union_Some_raw in Hk as [Hk|[_ Hk]].
  - exact (H1 k t Hk).
  - exact (H2 k t Hk).
Qed.

Lemma initialize_spec (w : world) :
  exists w1 : world,
    _load_cache_from_disk w = (Ok tt, w1)
    /\ initialize w = (Ok tt, set_initialized true w1).
Proof.
  unfold initialize, bind.
  assert (H : exists w1, _load_cache_from_disk w = (Ok tt, w1)).
  { unfold _load_cache_from_disk, try_except.
    destruct (disk w) as [| |doc]; [eexists; reflexivity..|].
    match goal with |- context [bind ?m ?k w] => destruct (bind m k w) as [[[]|e] w1] end;
      eexists; reflexivity. }
  destruct H as [w1 H]. exists w1. now rewrite H.
Qed.

Section Lifecycle.
Variable clock : nat -> datetime.
Hypothesis clock_valid : forall n, Datetime.valid (clock n) = true.

Lemma run_fetch_triple (f : fetch) :
  triple clock (fetch_keys f) (run_fetch clock f) (has_field "data").
Proof.
  destruct f; cbn [run_fetch]; unfold fetch_keys; cbn [fetch_cache_key].
  - now apply get_balance_sheet_triple.
  - now apply get_monthly_exports_triple.
  - apply get_exports_by_destination_triple.
  - apply get_exports_by_port_triple.
  - apply get_production_triple.
  - apply get_monthly_prices_triple.
Qed.

(** A well-formed service stays so along [extends]. *)
Lemma service_wf_extends (w w' : world) :
  service_wf (svc w) ->
  extends clock w w' ->
  cache_wf (_cache (svc w')) ->
  service_wf (svc w').
Proof.
  intros (_ & Hdom & Hstamps) (Hkeep & Hsame & Hnew & _) Hwf'.
  split; [exact Hwf'|]. split.
  - intros k [v Hv]%elem_of_dom. apply elem_of_dom.
    destruct (_cache (svc w) !! k) as [v0|] eqn:Hk.
    + rewrite Hsame by (left; now exists v0).
      apply elem_of_dom, Hdom, elem_of_dom. now exists v0.
    + destruct (Hnew k Hk) as (n & _ & ->); [now exists v|]. now eexists.
  - intros k t Ht.
    destruct (_cache (svc w) !! k) as [v0|] eqn:Hk.
    + rewrite Hsame in Ht by (left; now exists v0). exact (Hstamps k t Ht).
    + destruct (_cache (svc w') !! k) as [v|] eqn:Hk'.
      * destruct (Hnew k Hk) as (n & _ & Hn); [now exists v|].
        rewrite Hn in Ht. injection Ht as <-. apply clock_valid.
      * rewrite Hsame in Ht by now right. exact (Hstamps k t Ht).
Qed.

Lemma triple_world_wf {A : Type} (K : gset string) (m : M A) (Q : A -> Prop)
    (w : world) :
  triple clock K m Q ->
  world_wf w ->
  exists (a : A) (w' : world),
    m w = (Ok a, w') /\ world_wf w' /\ extends clock w w'
    /\ dom (_cache (svc w')) = dom (_cache (svc w)) ∪ K.
Proof.
  intros Hm [Hsvc Hdisk].
  destruct (Hm w (proj1 Hsvc)) as (a & w' & Hrun & _ & Hext & Hwf' & Hdom).
  exists a, w'. split; [exact Hrun|]. split; [|split; [exact Hext|exact Hdom]].
  split; [now apply (service_wf_extends w)|].
  destruct Hext as (_ & _ & _ & -> & _). exact Hdisk.
Qed.

Lemma cleanup_spec (w : world) :
  service_wf (svc w) ->
  cleanup w = (Ok tt, set_disk (Stored (saved_document (svc w))) w)
  /\ disk_wf (Stored (saved_document (svc w))).
Proof.
  intros Hsvc. split.
  - unfold cleanup. apply save_cache_serializable.
    apply cache_wf_serializable. exact (proj1 Hsvc).
  - cbn [disk_wf]. exists (_cache (svc w)), (last_updated (svc w)).
    split; [reflexivity|exact Hsvc].
Qed.

(** [refresh_all] from any state: the cache it ends with and the file
    it writes. *)
Lemma refresh_all_world (w : world) :
  stamps_wf (last_updated (svc w)) ->
  exists w1 : world,
    refresh_all clock w = (Ok tt, set_disk (Stored (saved_document (svc w1))) w1)
    /\ service_wf (svc w1)
    /\ dom (_cache (svc w1)) = dashboard_keys.
Proof.
  intros Hstamps.
  destruct (refresh_all_spec clock clock_valid w)
    as (resp & w1 & d & Hdash & Hrun & Hext & Hwf & Hdom).
  assert (Hsvc : service_wf (svc w1)).
  { apply (service_wf_extends (set_cache ∅ w)); [|exact Hext|exact Hwf].
    split; [apply cache_wf_empty|]. split; [|exact Hstamps].
    cbn [svc set_cache _cache]. rewrite dom_empty_L. apply empty_subseteq. }
  exists w1. split; [|split; [exact Hsvc|exact Hdom]].
  unfold refresh_all. unfold bind at 1. unfold bind at 1. rewrite Hdash.
  apply (proj1 (cleanup_spec w1 Hsvc)).
Qed.

Lemma initialize_world_wf (w : world) :
  world_wf w ->
  exists w' : world, initialize w = (Ok tt, w') /\ world_wf w'.
Proof.
  intros [Hsvc Hdisk]. unfold initialize, bind, _load_cache_from_disk.
  destruct (disk w) as [| |doc] eqn:Hd.
  - eexists. split; [reflexivity|]. split; [exact Hsvc|].
    cbn [disk set_initialized]. now rewrite Hd.
  - cbn [try_except lift]. eexists. split; [reflexivity|]. split; [exact Hsvc|].
    cbn [disk set_initialized]. now rewrite Hd.
  - destruct Hdisk as (c & lu & -> & (Hc & Hdom & Hlu)).
    unfold try_except, bind. cbn [file_cache file_last_updated default from_option id].
    rewrite load_stamps_saved_union by exact Hlu.
    eexists. split; [reflexivity|].
    unfold world_wf, service_wf.
    cbn [svc set_initialized set_last_updated set_cache _cache last_updated disk].
    cbn [_cache last_updated] in Hdom.
    split; [split; [exact Hc|split]|].
    + rewrite dom_union_L. etrans; [exact Hdom|]. apply union_subseteq_l.
    + apply stamps_wf_union; [exact Hlu|exact (proj2 (proj2 Hsvc))].
    + rewrite Hd. cbn [disk_wf]. exists c, lu. split; [reflexivity|]. now repeat split.
Qed.

(** Every public method called in a well-formed state returns normally
    and leaves a well-formed state. *)
Lemma run_call_world_wf :
  forall (c : call) (w : world),
    world_wf w ->
    exists (resp : pyval) (w' : world),
      run_call clock c w = (Ok resp, w') /\ world_wf w'.
Proof.
  intros c w Hw. destruct c as [f| | | | | |]; cbn [run_call].
  - destruct (triple_world_wf _ _ _ w (run_fetch_triple f) Hw) as (a & w' & H & Hw' & _).
    now exists a, w'.
  - destruct (triple_world_wf _ _ _ w (get_soy_complex_balance_triple clock) Hw)
      as (a & w' & H & Hw' & _).
    now exists a, w'.
  - destruct (triple_world_wf _ _ _ w (get_dashboard_summary_triple clock clock_valid) Hw)
      as (a & w' & H & Hw' & _).
    now exists a, w'.
  - destruct (get_status_spec w) as (resp & H & _). now exists resp, w.
  - destruct (refresh_all_world w (proj2 (proj2 (proj1 Hw)))) as (w1 & Hrun & Hsvc & _).
    unfold bind. rewrite Hrun. eexists _, _. split; [reflexivity|].
    split; [exact Hsvc|]. cbn [disk set_disk].
    exact (proj2 (cleanup_spec w1 Hsvc)).
  - destruct (initialize_world_wf w Hw) as (w' & Hrun & Hw').
    unfold bind. rewrite Hrun. eexists _, _. split; [reflexivity|exact Hw'].
  - destruct (cleanup_spec w (proj1 Hw)) as [Hrun Hd].
    unfold bind. rewrite Hrun. eexists _, _. split; [reflexivity|].
    split; [exact (proj1 Hw)|exact Hd].
Qed.

(** X13. Every state a deployment reaches (from a first start without
    cache file, through calls of the public methods and restarts) is
    well-formed, and no call made in such a state raises. *)
Theorem reachable_states_well_formed :
  forall w : world,
    reachable clock w ->
    world_wf w
    /\ forall c : call, exists (resp : pyval) (w' : world),
         run_call clock c w = (Ok resp, w').
Proof.
  intros w Hreach.
  assert (Hw : world_wf w).
  { induction Hreach as [|c w w' r _ IH Hrun|w _ IH].
    - exact initial_world_wf.
    - destruct (run_call_world_wf c w IH) as (resp & w'' & Hrun' & Hw'').
      rewrite Hrun in Hrun'. now injection Hrun' as _ <-.
    - split; [|exact (proj2 IH)]. cbn [svc]. split; [apply cache_wf_empty|].
      split; [cbn; apply empty_subseteq|apply map_Forall_empty]. }
  split; [exact Hw|]. intros c.
  destruct (run_call_world_wf c w Hw) as (resp & w' & Hrun & _).
  now exists resp, w'.
Qed.


(** X12. [refresh_all] ends by writing the cache file: whatever the
    state before (with valid timestamps), the file then holds exactly
    the refreshed cache, the six dashboard keys, and every timestamp of
    the service as an ISO string, and the state is well-formed. *)
Theorem refresh_all_writes_cache_file :
  forall w : world,
    stamps_wf (last_updated (svc w)) ->
    exists w' : world,
      refresh_all clock w = (Ok tt, w')
      /\ disk w' = Stored (saved_document (svc w'))
      /\ dom (_cache (svc w')) = dashboard_keys
      /\ world_wf w'.
Proof.
  intros w Hstamps.
  destruct (refresh_all_world w Hstamps) as (w1 & Hrun & Hsvc & Hdom).
  eexists. split; [exact Hrun|]. cbn [disk set_disk svc].
  split; [reflexivity|]. split; [exact Hdom|].
  split; [exact Hsvc|]. exact (proj2 (cleanup_spec w1 Hsvc)).
Qed.
End Lifecycle.




Lemma reachable_states_well_formed_witness :
  world_wf initial_world
  /\ forall c : call, exists (resp : pyval) (w' : world),
       run_call example_clock c initial_world = (Ok resp, w').
Proof.
  exact (reachable_states_well_formed example_clock example_clock_valid initial_world
           (reachable_start example_clock)).
Defined.


Lemma refresh_all_writes_cache_file_witness :
  exists w' : world,
    refresh_all example_clock initial_world = (Ok tt, w')
    /\ disk w' = Stored (saved_document (svc w')).
Proof.
  destruct (refresh_all_writes_cache_file example_clock example_clock_valid
              initial_world (map_Forall_empty _))
    as (w' & Hrun & Hdisk & _).
  exists w'. split; [exact Hrun|exact Hdisk].
Defined.




(** ** Rows of the exports and price responses, cache keys *)

Lemma china_pct_values :
  (china_share "soybeans" * 100 = 77)%float /\ (china_share "soy_meal" * 100 = 2)%float.
Proof. split; vm_compute; reflexivity. Qed.

(** With and without the China total, the response differs in one
    field only. *)
Lemma exports_response_china_flag (commodity : string) (year : Z) (data : pyval)
    (stamp : datetime) (rt : pyval) :
  exports_response commodity year true data stamp = Ok rt ->
  exists rf : pyval,
    exports_response commodity year false data stamp = Ok rf
    /\ response_field "ytdToChinaMmt" rf = Some PyNone
    /\ forall k, k <> "ytdToChinaMmt" -> response_field k rf = response_field k rt.
Proof.
  unfold exports_response. intros H.
  destruct (PyVal.iter data) as [rows|e]; [|discriminate H]. cbn [rbind] in *.
  destruct (ytd_total_of rows) as [t|e]; [|discriminate H]. cbn [rbind] in *.
  destruct (ytd_china_of true rows) as [c|e]; [|discriminate H]. cbn [rbind] in H.
  cbn [ytd_china_of rbind].
  destruct (PyVal.round t 2) as [tr|e]; [|discriminate H]. cbn [rbind] in *.
  destruct (if PyVal.truthy c then PyVal.round c 2 else Ok PyNone) as [cr|e];
    [|discriminate H].
  cbn [rbind PyVal.truthy] in *. injection H as <-.
  eexists. split; [reflexivity|]. split; [reflexivity|].
  intros k Hk. cbn [response_field PyVal.assoc].
  destruct (String.eqb k "success"); [reflexivity|].
  destruct (String.eqb k "commodity"); [reflexivity|].
  destruct (String.eqb k "ncmCode"); [reflexivity|].
  destruct (String.eqb k "year"); [reflexivity|].
  destruct (String.eqb k "source"); [reflexivity|].
  destruct (String.eqb k "last_updated"); [reflexivity|].
  destruct (String.eqb k "data"); [reflexivity|].
  destruct (String.eqb k "ytdTotalMmt"); [reflexivity|].
  destruct (String.eqb_spec k "ytdToChinaMmt"); [contradiction|reflexivity].
Qed.

Lemma price_row_inv (year : Z) (loc : string) (ps : list Z) (i : nat) (p : Z)
    (row : pyval) :
  price_row year loc ps i p = Ok row ->
  exists (name : string) (q usd mom : pyval),
    MONTH_NAMES !! i = Some name
    /\ PyVal.truediv (PyInt p) (PyFloat 6.0%float) = Ok q
    /\ PyVal.round q 2 = Ok usd
    /\ row = price_row_dict year i name loc p usd mom.
Proof.
  unfold price_row. intros H.
  destruct (if (0 <? i)%nat then PyVal.index ps (i - 1) else Ok p) as [prev|e];
    [|discriminate H].
  cbn [rbind] in H.
  destruct (if PyVal.truthy (PyInt prev) then _ else _) as [mc|e]; [|discriminate H].
  cbn [rbind] in H. unfold PyVal.index in H.
  destruct (MONTH_NAMES !! i) as [name|] eqn:Hname; [|discriminate H]. cbn [rbind] in H.
  destruct (PyVal.truediv (PyInt p) (PyFloat 6)) as [q|e] eqn:Hq; [|discriminate H].
  cbn [rbind] in H.
  destruct (PyVal.round q 2) as [usd|e] eqn:Hu; [|discriminate H]. cbn [rbind] in H.
  destruct (PyVal.round mc 1) as [mom|e]; [|discriminate H]. cbn [rbind] in H.
  injection H as <-. exists name, q, usd, mom. repeat split; [exact Hu].
Qed.

(** The rows of a location the price table does not have. *)
Lemma default_price_rows (year : Z) (loc : string) :
  rmapi (price_row year loc (replicate 12 100%Z)) 0 (replicate 12 100%Z)
  = Ok (map (fun i => price_row_dict year i (nth i MONTH_NAMES "") loc 100
                        (PyFloat 16.67%float) (PyFloat 0%float))
            (seq 0 12)).
Proof. vm_compute. reflexivity. Qed.

Lemma concat_rows_lookup (f : string -> result (list pyval)) (locs : list string)
    (rows : list pyval) (row : pyval) :
  concat_rows f locs = Ok rows ->
  In row rows ->
  exists (loc : string) (series : list pyval),
    In loc locs /\ f loc = Ok series /\ In row series.
Proof.
  revert rows. induction locs as [|loc locs IH]; intros rows H Hin; cbn [concat_rows] in H.
  - injection H as <-. contradiction.
  - destruct (f loc) as [series|e] eqn:Hf; [|discriminate H]. cbn [rbind] in H.
    destruct (concat_rows f locs) as [rest|e]; [|discriminate H]. cbn [rbind] in H.
    injection H as <-. apply in_app_or in Hin as [Hin|Hin].
    + exists loc, series. split; [now left|]. now split.
    + destruct (IH rest eq_refl Hin) as (loc' & series' & Hloc & Hf' & Hrow).
      exists loc', series'. split; [now right|]. now split.
Qed.

Lemma concat_rows_length (f : string -> result (list pyval)) (locs : list string)
    (rows : list pyval) (n : nat) :
  (forall loc series, f loc = Ok series -> length series = n) ->
  concat_rows f locs = Ok rows ->
  length rows = (n * length locs)%nat.
Proof.
  intros Hn. revert rows. induction locs as [|loc locs IH]; intros rows H;
    cbn [concat_rows] in H.
  - injection H as <-. cbn. lia.
  - destruct (f loc) as [series|e] eqn:Hf; [|discriminate H]. cbn [rbind] in H.
    destruct (concat_rows f locs) as [rest|e]; [|discriminate H]. cbn [rbind] in H.
    injection H as <-. rewrite length_app, (Hn _ _ Hf), (IH rest eq_refl). cbn. lia.
Qed.

Lemma price_series_length (commodity loc : string) :
  length (location_prices (default [] (PyVal.assoc commodity price_table)) loc) = 12%nat.
Proof.
  pose proof (location_prices_canned commodity loc) as Hin.
  revert Hin. generalize (location_prices (default [] (PyVal.assoc commodity price_table)) loc).
  intros ps Hin. unfold all_price_series in Hin. cbn in Hin.
  repeat (destruct Hin as [<-|Hin]; [reflexivity|]). contradiction.
Qed.

Section PricesAndKeys.
Variable clock : nat -> datetime.

(** X17. [get_monthly_prices] never raises and only reads the clock.
    Its [data] has twelve rows per location used (the one asked for, or
    every location of the commodity when none or an empty one is
    given); each row carries the requested year, its location, the
    price in BRL of the series, and [priceUsd], which is that price
    divided by 6.0 and rounded to two decimals. *)
Theorem monthly_prices_rows :
  forall (commodity : string) (year : Z) (location : option string) (w : world),
    let commodity_prices := default [] (PyVal.assoc commodity price_table) in
    exists (resp : pyval) (rows : list pyval),
      get_monthly_prices clock commodity year location w
      = (Ok resp, set_reads (S (reads w)) w)
      /\ response_field "data" resp = Some (PyList rows)
      /\ length rows = (12 * length (locations_to_use commodity_prices location))%nat
      /\ forall row : pyval,
           In row rows ->
           exists (loc name : string) (i : nat) (p : Z) (q usd mom : pyval),
             In loc (locations_to_use commodity_prices location)
             /\ location_prices commodity_prices loc !! i = Some p
             /\ MONTH_NAMES !! i = Some name
             /\ PyVal.truediv (PyInt p) (PyFloat 6.0%float) = Ok q
             /\ PyVal.round q 2 = Ok usd
             /\ row = price_row_dict year i name loc p usd mom.
Proof.
  intros commodity year location w commodity_prices.
  destruct (get_monthly_prices_spec clock commodity year location w)
    as (data & Hdata & Hrun).
  rewrite Hrun. eexists _, data. split; [reflexivity|]. split; [reflexivity|].
  unfold _get_prices_fallback in Hdata. fold commodity_prices in Hdata.
  split.
  - apply (concat_rows_length (location_rows commodity_prices year) _ _ 12);
      [|exact Hdata].
    intros loc series Hs. unfold location_rows in Hs.
    apply rmapi_ok_inv in Hs as [Hlen _]. rewrite Hlen.
    apply price_series_length.
  - intros row Hin.
    destruct (concat_rows_lookup _ _ _ _ Hdata Hin) as (loc & series & Hloc & Hs & Hrow).
    unfold location_rows in Hs.
    destruct (rmapi_ok_inv _ _ _ _ Hs) as [_ Hlook].
    apply list_elem_of_In, list_elem_of_lookup in Hrow as [i Hi].
    assert (Hlt : (i < length (location_prices commodity_prices loc))%nat).
    { apply rmapi_ok_inv in Hs as [<- _]. eapply lookup_lt_Some. exact Hi. }
    destruct (lookup_lt_is_Some_2 _ _ Hlt) as [p Hp].
    destruct (Hlook i p Hp) as (row' & Hrow' & Hi'). cbn [Nat.add] in Hrow'.
    rewrite Hi in Hi'. injection Hi' as <-.
    destruct (price_row_inv _ _ _ _ _ _ Hrow') as (name & q & usd & mom & Hn & Hq & Hu & ->).
    now exists loc, name, i, p, q, usd, mom.
Qed.

(** X18. Asking [get_monthly_prices] for a location the commodity has
    no series for (any location at all for a commodity without prices)
    does not give an empty answer: it gives twelve rows, one per month,
    at the default price 100 BRL, 16.67 USD, with no change from month
    to month. *)
Theorem monthly_prices_unknown_location :
  forall (commodity : string) (year : Z) (loc : string) (w : world),
    loc <> "" ->
    PyVal.assoc loc (default [] (PyVal.assoc commodity price_table)) = None ->
    exists resp : pyval,
      get_monthly_prices clock commodity year (Some loc) w
      = (Ok resp, set_reads (S (reads w)) w)
      /\ response_field "data" resp
         = Some (PyList
                   (map (fun i => price_row_dict year i (nth i MONTH_NAMES "") loc 100
                                    (PyFloat 16.67%float) (PyFloat 0%float))
                        (seq 0 12))).
Proof.
  intros commodity year loc w Hloc Hnone.
  unfold get_monthly_prices, _get_prices_fallback, locations_to_use.
  replace (PyVal.truthy (PyStr loc)) with true.
  2:{ cbn [PyVal.truthy]. destruct (String.eqb_spec loc ""); [contradiction|reflexivity]. }
  cbn [concat_rows]. unfold location_rows, location_prices. rewrite Hnone.
  rewrite default_price_rows. cbn [rbind]. rewrite app_nil_r.
  unfold bind, lift, datetime_now, ret. eexists. split; reflexivity.
Qed.

(** X19. Two fetches read and write the same cache entry only when they
    are the same operation on the same commodity (and, for the monthly
    exports, the same year); [years] and [include_china] are not part
    of the key. No balance-sheet key is an exports key, whatever the
    commodity strings are. *)
Theorem cache_keys_collision_free :
  forall (f1 f2 : fetch) (key : string),
    fetch_cache_key f1 = Some key ->
    fetch_cache_key f2 = Some key ->
    (exists commodity years1 years2,
        f1 = FetchBalanceSheet commodity years1
        /\ f2 = FetchBalanceSheet commodity years2)
    \/ (exists commodity year ic1 ic2,
           f1 = FetchMonthlyExports commodity year ic1
           /\ f2 = FetchMonthlyExports commodity year ic2).
Proof.
  intros f1 f2 key H1 H2.
  destruct f1 as [c1 n1|c1 y1 i1| | | |]; try discriminate H1;
    destruct f2 as [c2 n2|c2 y2 i2| | | |]; try discriminate H2;
    cbn [fetch_cache_key] in H1, H2; rewrite <- H2 in H1; apply (inj Some) in H1.
  - apply balance_key_inj in H1 as ->. left. now exists c2, n1, n2.
  - now apply balance_key_not_exports in H1.
  - symmetry in H1. now apply balance_key_not_exports in H1.
  - apply exports_key_inj in H1 as [-> ->]. right. now exists c2, y2, i1, i2.
Qed.
End PricesAndKeys.

Section ExportsRows.
Variable clock : nat -> datetime.
Hypothesis clock_valid : forall n, Datetime.valid (clock n) = true.

(** X15. In a state with a well-formed cache [get_monthly_exports]
    succeeds with twelve rows, months 1 to 12 in order. Row [i] is the
    dict of the source for a volume [v]: [volumeMt] is [v * 1,000,000],
    [volumeMmt] is [v] rounded to two decimals, [valueUsd] is
    [v * 420,000,000], the China fields are [v * 1,000,000 * share] and
    [share * 100] for soybeans (77) and soy meal (2) and [None] for any
    other commodity; [v] is the stored volume of the month unless the
    row is flagged partial. *)
Theorem monthly_exports_rows :
  forall (commodity : string) (year : Z) (include_china : bool) (w : world),
    cache_wf (_cache (svc w)) ->
    exists (resp : pyval) (w' : world) (rows : list pyval),
      get_monthly_exports clock commodity year include_china w = (Ok resp, w')
      /\ response_field "commodity" resp = Some (PyStr commodity)
      /\ response_field "year" resp = Some (PyInt year)
      /\ response_field "ncmCode" resp = Some (PyStr (get_ncm_code commodity))
      /\ response_field "data" resp = Some (PyList rows)
      /\ length rows = 12%nat
      /\ forall (i : nat) (row : pyval),
           rows !! i = Some row ->
           exists (name : string) (v r : float) (is_partial : bool),
             MONTH_NAMES !! i = Some name
             /\ PyNum.round_float v 2 = Ok r
             /\ row = export_row_dict commodity year i name v r is_partial
             /\ (is_partial = false -> export_volumes commodity year !! i = Some v)
             /\ (commodity = "soybeans" ->
                 response_field "toChinaPct" row = Some (PyFloat 77%float))
             /\ (commodity = "soy_meal" ->
                 response_field "toChinaPct" row = Some (PyFloat 2%float))
             /\ (commodity <> "soybeans" -> commodity <> "soy_meal" ->
                 response_field "toChinaMt" row = Some PyNone
                 /\ response_field "toChinaPct" row = Some PyNone).
Proof.
  intros commodity year include_china w Hwf.
  destruct (get_monthly_exports_wf clock clock_valid commodity year include_china w Hwf)
    as (resp & w' & rows & cm & pf & stamp & Hget & Hcm & Hpf & Hrows & Hresp & _).
  destruct (exports_response_fields _ _ _ _ _ _ Hresp) as (Hc & Hcode & Hy & Hdata).
  destruct (canned_rows_lookup _ _ _ _ _ Hrows) as [Hlen Hlook].
  assert (H12 : length (export_volumes commodity year) = 12%nat).
  { pose proof canned_volumes_length as H. rewrite List.Forall_forall in H.
    apply H, export_volumes_canned. }
  exists resp, w', rows. split; [exact Hget|]. split; [exact Hc|]. split; [exact Hy|].
  split; [exact Hcode|]. split; [exact Hdata|]. split; [congruence|].
  intros i row Hi.
  assert (Hlt : (i < length (export_volumes commodity year))%nat).
  { rewrite <- Hlen. eapply lookup_lt_Some. exact Hi. }
  destruct (lookup_lt_is_Some_2 _ _ Hlt) as [vol Hvol].
  destruct (Hlook i vol Hvol) as (name & r & Hname & Hr & Hrow).
  rewrite Hi in Hrow. injection Hrow as ->.
  exists name, (adjusted_volume cm pf i vol), r, (row_is_partial cm pf i).
  split; [exact Hname|]. split; [exact Hr|]. split; [reflexivity|].
  split; [|split; [|split]].
  - intros Hp. unfold adjusted_volume, row_is_partial in *.
    destruct pf as [frac|]; [|exact Hvol]. now rewrite Hp.
  - intros ->. unfold export_row_dict.
    cbn [has_china_split String.eqb Ascii.eqb Bool.eqb orb response_field PyVal.assoc].
    now rewrite (proj1 china_pct_values).
  - intros ->. unfold export_row_dict.
    cbn [has_china_split String.eqb Ascii.eqb Bool.eqb orb response_field PyVal.assoc].
    now rewrite (proj2 china_pct_values).
  - intros H1 H2. unfold export_row_dict, has_china_split.
    destruct (String.eqb_spec commodity "soybeans") as [->|_]; [contradiction|].
    destruct (String.eqb_spec commodity "soy_meal") as [->|_]; [contradiction|].
    split; reflexivity.
Qed.

(** X16. [include_china] changes one field only. From the same state
    (with a well-formed cache) the calls with and without it succeed,
    leave the same cache and timestamps, and return responses equal in
    every field but [ytdToChinaMmt], which is [None] without it; the
    rows, China columns included, are the same. *)
Theorem include_china_changes_one_field :
  forall (commodity : string) (year : Z) (w : world),
    cache_wf (_cache (svc w)) ->
    exists (rt rf : pyval) (wt wf : world),
      get_monthly_exports clock commodity year true w = (Ok rt, wt)
      /\ get_monthly_exports clock commodity year false w = (Ok rf, wf)
      /\ svc wf = svc wt
      /\ response_field "ytdToChinaMmt" rf = Some PyNone
      /\ forall k, k <> "ytdToChinaMmt" -> response_field k rf = response_field k rt.
Proof.
  intros commodity year w Hwf.
  destruct (get_monthly_exports_wf clock clock_valid commodity year true w Hwf)
    as (rt & wt & rows & cm & pf & stamp & Hget & _ & _ & _ & _ & _ & _ & _ & _ & _).
  destruct (_cache (svc w) !! exports_key commodity year) as [cached|] eqn:Hk.
  - destruct (get_monthly_exports_cached clock commodity year true cached w Hk)
      as (n & Ht & _).
    destruct (get_monthly_exports_cached clock commodity year false cached w Hk)
      as (n' & Hf & _).
    rewrite Ht in Hget. injection Hget as Hrt <-.
    destruct (exports_response_china_flag _ _ _ _ _ Hrt) as (rf & Hrf & Hnone & Hsame).
    rewrite Hrf in Hf.
    exists rt, rf, (set_reads n w), (set_reads n' w).
    split; [congruence|]. split; [exact Hf|]. split; [reflexivity|].
    split; [exact Hnone|exact Hsame].
  - destruct (_get_monthly_exports_fallback clock commodity year w)
      as [[frows|e] w1] eqn:Hfall.
    2:{ exfalso. revert Hget. unfold get_monthly_exports.
        unfold bind at 1. unfold read_cache at 1. rewrite Hk.
        unfold bind at 1. unfold bind at 1. rewrite Hfall. discriminate. }
    destruct (get_monthly_exports_fresh clock commodity year true frows w w1 Hk Hfall)
      as (n & Ht & _).
    destruct (get_monthly_exports_fresh clock commodity year false frows w w1 Hk Hfall)
      as (n' & Hf & _).
    rewrite Ht in Hget. injection Hget as Hrt <-.
    destruct (exports_response_china_flag _ _ _ _ _ Hrt) as (rf & Hrf & Hnone & Hsame).
    rewrite Hrf in Hf.
    eexists rt, rf, _, _.
    split; [rewrite Ht, Hrt; reflexivity|]. split; [exact Hf|]. split; [reflexivity|].
    split; [exact Hnone|exact Hsame].
Qed.
End ExportsRows.

Lemma monthly_prices_unknown_location_witness :
  exists resp : pyval,
    get_monthly_prices example_clock "soy_oil" 2025 (Some "MT") initial_world
    = (Ok resp, set_reads 1 initial_world)
    /\ response_field "data" resp
       = Some (PyList
                 (map (fun i => price_row_dict 2025 i (nth i MONTH_NAMES "") "MT" 100
                                  (PyFloat 16.67%float) (PyFloat 0%float))
                      (seq 0 12))).
Proof.
  apply (monthly_prices_unknown_location example_clock "soy_oil" 2025 "MT" initial_world).
  - discriminate.
  - reflexivity.
Defined.

Lemma cache_keys_collision_free_witness :
  (exists commodity years1 years2,
      FetchBalanceSheet "corn" 2 = FetchBalanceSheet commodity years1
      /\ FetchBalanceSheet "corn" 6 = FetchBalanceSheet commodity years2)
  \/ (exists commodity year ic1 ic2,
         FetchBalanceSheet "corn" 2 = FetchMonthlyExports commodity year ic1
         /\ FetchBalanceSheet "corn" 6 = FetchMonthlyExports commodity year ic2).
Proof.
  exact (cache_keys_collision_free (FetchBalanceSheet "corn" 2) (FetchBalanceSheet "corn" 6)
           ("balance_" +:+ "corn") eq_refl eq_refl).
Defined.

Lemma monthly_exports_rows_witness :
  exists (resp : pyval) (w' : world) (rows : list pyval),
    get_monthly_exports example_clock "soybeans" 2024 true initial_world = (Ok resp, w')
    /\ response_field "data" resp = Some (PyList rows)
    /\ length rows = 12%nat.
Proof.
  destruct (monthly_exports_rows example_clock example_clock_valid "soybeans" 2024 true
              initial_world cache_wf_empty)
    as (resp & w' & rows & Hget & _ & _ & _ & Hdata & Hlen & _).
  exists resp, w', rows. split; [exact Hget|]. split; [exact Hdata|exact Hlen].
Defined.

Lemma include_china_changes_one_field_witness :
  exists (rt rf : pyval) (wt wf : world),
    get_monthly_exports example_clock "soybeans" 2024 true initial_world = (Ok rt, wt)
    /\ get_monthly_exports example_clock "soybeans" 2024 false initial_world = (Ok rf, wf)
    /\ response_field "ytdToChinaMmt" rf = Some PyNone.
Proof.
  destruct (include_china_changes_one_field example_clock example_clock_valid
              "soybeans" 2024 initial_world cache_wf_empty)
    as (rt & rf & wt & wf & Ht & Hf & _ & Hnone & _).
  exists rt, rf, wt, wf. split; [exact Ht|]. split; [exact Hf|exact Hnone].
Defined.

(** ** The dashboard summary *)

Lemma getitem_of_field (k : string) (resp v : pyval) :
  response_field k resp = Some v -> PyVal.getitem resp k = Ok v.
Proof.
  destruct resp; try discriminate 1. cbn [response_field PyVal.getitem].
  now intros ->.
Qed.

Lemma prices_series_length (commodity : string) (year : Z) (rows : list pyval) :
  prices_series commodity year rows ->
  length rows
  = (12 * length (map fst (default [] (PyVal.assoc commodity price_table))))%nat.
Proof.
  unfold prices_series, _get_prices_fallback. cbn [locations_to_use]. intros H.
  apply (concat_rows_length
           (location_rows (default [] (PyVal.assoc commodity price_table)) year) _ _ 12);
    [|exact H].
  intros loc series Hs. unfold location_rows in Hs.
  apply rmapi_ok_inv in Hs as [Hlen _]. rewrite Hlen. apply price_series_length.
Qed.

Section Dashboard.
Variable clock : nat -> datetime.
Hypothesis clock_valid : forall n, Datetime.valid (clock n) = true.

(** A triple with the postcondition any successful run in a
    well-formed cache establishes. *)
Lemma triple_post {A : Type} (K : gset string) (m : M A) (Q Q' : A -> Prop) :
  triple clock K m Q ->
  (forall (w : world) (a : A) (w' : world),
      cache_wf (_cache (svc w)) -> m w = (Ok a, w') -> Q' a) ->
  triple clock K m Q'.
Proof.
  intros Hm HQ w Hwf.
  destruct (Hm w Hwf) as (a & w' & Hrun & _ & Hrest).
  exists a, w'. split; [exact Hrun|]. split; [exact (HQ w a w' Hwf Hrun)|exact Hrest].
Qed.

Lemma triple_field_val (resp : pyval) (k : string) (v : pyval) :
  PyVal.getitem resp k = Ok v -> triple clock ∅ (field resp k) (fun x => x = v).
Proof.
  intros Hv. apply (triple_post _ _ (fun _ => True)).
  - apply triple_field. now exists v.
  - intros w a w'  _ Hrun. unfold field, lift in Hrun. rewrite Hv in Hrun.
    now injection Hrun as <- _.
Qed.

Lemma get_balance_sheet_data (commodity : string) (years : Z) :
  triple clock {[ "balance_" +:+ commodity ]}
    (get_balance_sheet clock commodity years)
    (fun resp =>
       PyVal.getitem resp "data"
       = Ok (PyList (PyVal.slice_from (_get_balance_sheet_fallback commodity) (- years)))).
Proof.
  apply (triple_post _ _ (has_field "data")); [now apply get_balance_sheet_triple|].
  intros w a w' Hwf Hrun.
  destruct (_cache (svc w) !! ("balance_" +:+ commodity)) as [v|] eqn:Hk.
  - rewrite (cache_wf_balance _ _ _ Hwf Hk) in Hk.
    rewrite (get_balance_sheet_cached clock _ years _ _ Hk) in Hrun.
    now injection Hrun as <- _.
  - rewrite (get_balance_sheet_fresh clock _ years _ Hk) in Hrun.
    now injection Hrun as <- _.
Qed.

Lemma get_monthly_exports_data (commodity : string) (year : Z) (include_china : bool) :
  triple clock {[ exports_key commodity year ]}
    (get_monthly_exports clock commodity year include_china)
    (fun resp =>
       exists rows : list pyval,
         PyVal.getitem resp "data" = Ok (PyList rows)
         /\ exports_series commodity year rows).
Proof.
  apply (triple_post _ _ (has_field "data")); [now apply get_monthly_exports_triple|].
  intros w a w' Hwf Hrun.
  destruct (get_monthly_exports_wf clock clock_valid commodity year include_china w Hwf)
    as (resp & w1 & rows & cm & pf & stamp & Hget & _ & _ & Hrows & Hresp & Hentry & _).
  rewrite Hget in Hrun. injection Hrun as <- _.
  destruct (exports_response_fields _ _ _ _ _ _ Hresp) as (_ & _ & _ & Hdata).
  exists rows. split; [now apply getitem_of_field|]. split; [|exact Hentry].
  destruct (canned_rows_lookup _ _ _ _ _ Hrows) as [-> _].
  pose proof canned_volumes_length as H. rewrite List.Forall_forall in H.
  apply H, export_volumes_canned.
Qed.

Lemma get_production_data (commodity : string) (years : Z) (state : option string) :
  triple clock ∅ (get_production clock commodity years state)
    (fun resp =>
       PyVal.getitem resp "data"
       = Ok (PyList (PyVal.slice_from (_get_production_fallback commodity) (- years)))).
Proof.
  apply (triple_post _ _ (has_field "data")); [apply get_production_triple|].
  intros w a w' _ Hrun. unfold get_production, bind, datetime_now, ret in Hrun.
  now injection Hrun as <- _.
Qed.

Lemma get_monthly_prices_data (commodity : string) (year : Z) :
  triple clock ∅ (get_monthly_prices clock commodity year None)
    (fun resp =>
       exists rows : list pyval,
         PyVal.getitem resp "data" = Ok (PyList rows)
         /\ prices_series commodity year rows).
Proof.
  apply (triple_post _ _ (has_field "data")); [apply get_monthly_prices_triple|].
  intros w a w' _ Hrun.
  destruct (get_monthly_prices_spec clock commodity year None w) as (data & Hdata & Hget).
  rewrite Hget in Hrun. injection Hrun as <- _. now exists data.
Qed.

Lemma get_exports_by_destination_data (commodity : string) (year top_n : Z) :
  triple clock ∅ (get_exports_by_destination clock commodity year top_n)
    (fun resp =>
       PyVal.getitem resp "data"
       = Ok (PyList (PyVal.slice_to destinations_with_fields top_n))).
Proof.
  apply (triple_post _ _ (has_field "data")); [apply get_exports_by_destination_triple|].
  intros w a w' _ Hrun. rewrite get_exports_by_destination_spec in Hrun.
  now injection Hrun as <- _.
Qed.

Lemma get_exports_by_port_data (commodity : string) (year : Z) :
  triple clock ∅ (get_exports_by_port clock commodity year)
    (fun resp => PyVal.getitem resp "data" = Ok (PyList ports_literal)).
Proof.
  apply (triple_post _ _ (has_field "data")); [apply get_exports_by_port_triple|].
  intros w a w' _ Hrun. unfold get_exports_by_port, bind, datetime_now, ret in Hrun.
  now injection Hrun as <- _.
Qed.

Lemma get_soy_complex_balance_data :
  triple clock ∅ (get_soy_complex_balance clock)
    (fun resp =>
       PyVal.getitem resp "soja_graos" = Ok (PyList soja_graos)
       /\ PyVal.getitem resp "farelo" = Ok (PyList farelo)
       /\ PyVal.getitem resp "oleo" = Ok (PyList oleo)).
Proof.
  apply (triple_post _ _ (fun resp => has_field "soja_graos" resp
                                       /\ has_field "farelo" resp
                                       /\ has_field "oleo" resp));
    [apply get_soy_complex_balance_triple|].
  intros w a w' _ Hrun. unfold get_soy_complex_balance, bind, datetime_now, ret in Hrun.
  injection Hrun as <- _. repeat split.
Qed.

Lemma get_dashboard_summary_sections :
  triple clock dashboard_keys (get_dashboard_summary clock) dashboard_sections.
Proof.
  unfold get_dashboard_summary.
  eapply triple_keys; cycle 1.
  - eapply triple_bind; [apply get_balance_sheet_data|intros soy_balance Hsb].
    eapply triple_bind; [apply get_balance_sheet_data|intros corn_balance Hcb].
    eapply triple_bind; [apply get_monthly_exports_data|intros se24 (e1 & He1 & Hs1)].
    eapply triple_bind; [apply get_monthly_exports_data|intros se25 (e2 & He2 & Hs2)].
    eapply triple_bind; [apply get_monthly_exports_data|intros ce24 (e3 & He3 & Hs3)].
    eapply triple_bind; [apply get_monthly_exports_data|intros ce25 (e4 & He4 & Hs4)].
    eapply triple_bind; [apply get_production_data|intros sp Hsp].
    eapply triple_bind; [apply get_production_data|intros cp Hcp].
    eapply triple_bind; [apply get_monthly_prices_data|intros sp24 (p1 & Hp1 & Hq1)].
    eapply triple_bind; [apply get_monthly_prices_data|intros sp25 (p2 & Hp2 & Hq2)].
    eapply triple_bind; [apply get_monthly_prices_data|intros cp24 (p3 & Hp3 & Hq3)].
    eapply triple_bind; [apply get_monthly_prices_data|intros cp25 (p4 & Hp4 & Hq4)].
    eapply triple_bind; [apply get_exports_by_destination_data|intros ed Hed].
    eapply triple_bind; [apply get_exports_by_port_data|intros ep Hep].
    eapply triple_bind;
      [apply get_soy_complex_balance_data|intros sc (Hsc1 & Hsc2 & Hsc3)].
    eapply triple_bind; [apply (triple_now clock (fun _ => True)); auto|intros now _].
    eapply triple_bind; [apply (triple_field_val _ _ _ Hsp)|intros ? ->].
    eapply triple_bind; [apply (triple_field_val _ _ _ Hcp)|intros ? ->].
    eapply triple_bind; [apply (triple_field_val _ _ _ Hsb)|intros ? ->].
    eapply triple_bind; [apply (triple_field_val _ _ _ Hcb)|intros ? ->].
    eapply triple_bind; [apply (triple_field_val _ _ _ He1)|intros ? ->].
    eapply triple_bind; [apply (triple_field_val _ _ _ He2)|intros ? ->].
    eapply triple_bind; [apply (triple_field_val _ _ _ He3)|intros ? ->].
    eapply triple_bind; [apply (triple_field_val _ _ _ He4)|intros ? ->].
    eapply triple_bind; [apply (triple_field_val _ _ _ Hp1)|intros ? ->].
    eapply triple_bind; [apply (triple_field_val _ _ _ Hp2)|intros ? ->].
    eapply triple_bind; [apply (triple_field_val _ _ _ Hp3)|intros ? ->].
    eapply triple_bind; [apply (triple_field_val _ _ _ Hp4)|intros ? ->].
    eapply triple_bind; [apply (triple_field_val _ _ _ Hed)|intros ? ->].
    eapply triple_bind; [apply (triple_field_val _ _ _ Hep)|intros ? ->].
    eapply triple_bind; [apply (triple_field_val _ _ _ Hsc1)|intros ? ->].
    eapply triple_bind; [apply (triple_field_val _ _ _ Hsc2)|intros ? ->].
    eapply triple_bind; [apply (triple_field_val _ _ _ Hsc3)|intros ? ->].
    apply triple_ret.
    exists now, e1, e2, e3, e4, p1, p2, p3, p4.
    split; [reflexivity|].
    repeat (split; [assumption|]).
    split; [exact (prices_series_length _ _ _ Hq1)|].
    split; [exact (prices_series_length _ _ _ Hq2)|].
    split; [exact (prices_series_length _ _ _ Hq3)|].
    exact (prices_series_length _ _ _ Hq4).
  - unfold dashboard_keys. set_solver.
Qed.

(** X20. In a state with a well-formed cache [get_dashboard_summary]
    succeeds, and its response is made of what the fetches return for
    the dashboard's parameters: the whole production series (eleven
    crop years) and the whole balance sheets (six) of soybeans and
    corn, twelve rows for each of the four monthly-exports series, the
    price rows of every location (36 for soybeans, 24 for corn), the ten
    destinations, the seven ports, the soy complex tables and the survey
    data. It adds the six dashboard keys to the cache and removes
    nothing. *)
Theorem dashboard_summary_sections :
  forall w : world,
    cache_wf (_cache (svc w)) ->
    exists (resp : pyval) (w' : world),
      get_dashboard_summary clock w = (Ok resp, w')
      /\ dashboard_sections resp
      /\ dom (_cache (svc w')) = dom (_cache (svc w)) ∪ dashboard_keys
      /\ length (_get_production_fallback "soybeans") = 11%nat
      /\ length (_get_production_fallback "corn") = 11%nat
      /\ length (_get_balance_sheet_fallback "soybeans") = 6%nat
      /\ length (_get_balance_sheet_fallback "corn") = 6%nat
      /\ length destinations_with_fields = 10%nat
      /\ length ports_literal = 7%nat.
Proof.
  intros w Hwf.
  destruct (get_dashboard_summary_sections w Hwf)
    as (resp & w' & Hrun & Hresp & _ & _ & Hdom).
  exists resp, w'. split; [exact Hrun|]. split; [exact Hresp|]. split; [exact Hdom|].
  repeat split.
Qed.
End Dashboard.

Lemma dashboard_summary_sections_witness :
  exists (resp : pyval) (w' : world),
    get_dashboard_summary example_clock initial_world = (Ok resp, w')
    /\ dashboard_sections resp.
Proof.
  destruct (dashboard_summary_sections example_clock example_clock_valid initial_world
              cache_wf_empty)
    as (resp & w' & Hrun & Hresp & _).
  exists resp, w'. split; [exact Hrun|exact Hresp].
Defined.

(** ** The status report *)

(** X21. [get_status] only reads: the state is left as it was. It
    reports the [initialized] flag, lists every cache key exactly once,
    and lists for every key with a timestamp, exactly once, the ISO
    string of that timestamp, which [fromisoformat] reads back to the
    same timestamp when the timestamp is a valid date. *)
Theorem get_status_report :
  forall w : world,
    exists (resp : pyval) (keys : list string) (entries : list (string * pyval)),
      get_status w = (Ok resp, w)
      /\ response_field "initialized" resp = Some (PyBool (_initialized (svc w)))
      /\ response_field "cache_keys" resp = Some (PyList (map PyStr keys))
      /\ NoDup keys
      /\ (forall k, In k keys <-> is_Some (_cache (svc w) !! k))
      /\ response_field "last_updated" resp = Some (PyDict entries)
      /\ NoDup (map fst entries)
      /\ (forall k v,
            In (k, v) entries
            <-> exists t, last_updated (svc w) !! k = Some t
                          /\ v = PyStr (Datetime.isoformat t))
      /\ (stamps_wf (last_updated (svc w)) ->
          forall k v, In (k, v) entries ->
                      exists t, parse_stamp v = Ok t
                                /\ last_updated (svc w) !! k = Some t).
Proof.
  intros w.
  set (entries := map (fun kv : string * datetime =>
                         (fst kv, PyStr (Datetime.isoformat (snd kv))))
                      (map_to_list (last_updated (svc w)))).
  assert (Hentries : forall k v,
             In (k, v) entries
             <-> exists t, last_updated (svc w) !! k = Some t
                           /\ v = PyStr (Datetime.isoformat t)).
  { intros k v. subst entries. rewrite in_map_iff. split.
    - intros ([k' t] & [= <- <-] & Hin). exists t. split; [|reflexivity].
      now apply list_elem_of_In, elem_of_map_to_list in Hin.
    - intros (t & Ht & ->). exists (k, t). split; [reflexivity|].
      now apply list_elem_of_In, elem_of_map_to_list. }
  exists (PyDict
            [("initialized", PyBool (_initialized (svc w)));
             ("cache_keys",
              PyList (map (fun kv => PyStr (fst kv)) (map_to_list (_cache (svc w)))));
             ("last_updated", PyDict entries)]),
    (map fst (map_to_list (_cache (svc w)))), entries.
  split; [reflexivity|]. split; [reflexivity|].
  split; [cbn [response_field PyVal.assoc String.eqb Ascii.eqb Bool.eqb];
          now rewrite map_map|].
  split; [exact (NoDup_fst_map_to_list (_cache (svc w)))|].
  split.
  { intros k. rewrite in_map_iff. split.
    - intros ([k' v] & <- & Hin). exists v.
      now apply list_elem_of_In, elem_of_map_to_list in Hin.
    - intros [v Hv]. exists (k, v). split; [reflexivity|].
      now apply list_elem_of_In, elem_of_map_to_list. }
  split; [reflexivity|].
  split.
  { subst entries. rewrite map_map. cbn [fst].
    exact (NoDup_fst_map_to_list (last_updated (svc w))). }
  split; [exact Hentries|].
  intros Hwf k v Hin. apply Hentries in Hin as (t & Ht & ->).
  exists t. split; [|exact Ht]. cbn [parse_stamp].
  apply fromisoformat_isoformat. exact (Hwf k t Ht).
Qed.

(** ** Responses and their models *)

Lemma forallb_drop {A : Type} (f : A -> bool) (n : nat) (l : list A) :
  forallb f l = true -> forallb f (drop n l) = true.
Proof.
  revert l. induction n as [|n IH]; intros [|x l] H; cbn [drop]; try assumption.
  apply IH. cbn [forallb] in H. now apply andb_true_iff in H as [_ H].
Qed.

Lemma forallb_take {A : Type} (f : A -> bool) (n : nat) (l : list A) :
  forallb f l = true -> forallb f (take n l) = true.
Proof.
  revert l. induction n as [|n IH]; intros [|x l] H; cbn [take forallb]; try reflexivity.
  cbn [forallb] in H. apply andb_true_iff in H as [Hx H].
  rewrite Hx. cbn [andb]. now apply IH.
Qed.

Lemma forallb_app_true {A : Type} (f : A -> bool) (l1 l2 : list A) :
  forallb f l1 = true -> forallb f l2 = true -> forallb f (l1 ++ l2) = true.
Proof. intros H1 H2. rewrite forallb_app, H1, H2. reflexivity. Qed.

(** A dict that has every required field of a model, each field it has
    being of the declared shape, conforms to the model. *)
Lemma conforms_model_intro (by_name : bool) (fields : list Models.model_field)
    (d : list (string * pyval)) :
  Forall (fun f =>
            match f with
            | Models.Field name alias t is_required =>
                match Models.lookup_field by_name name alias d with
                | Some x => Models.conforms t x = true
                | None => is_required = false
                end
            end) fields ->
  Models.conforms (Models.TModel by_name fields) (PyDict d) = true.
Proof.
  cbn [Models.conforms].
  induction 1 as [|[name alias t req] fs Hf _ IH]; [reflexivity|].
  rewrite IH, andb_true_r.
  destruct (Models.lookup_field by_name name alias d) as [x|]; [exact Hf|].
  now rewrite Hf.
Qed.

Lemma conforms_dict_intro (t : Models.annotation) (d : list (string * pyval)) :
  Forall (fun kv => Models.conforms t (snd kv) = true) d ->
  Models.conforms (Models.TDict t) (PyDict d) = true.
Proof.
  cbn [Models.conforms]. induction 1 as [|kv d Hkv _ IH]; [reflexivity|].
  cbn [forallb]. now rewrite Hkv, IH.
Qed.

Lemma conforms_any_dict (d : list (string * pyval)) :
  Models.conforms (Models.TDict Models.TAny) (PyDict d) = true.
Proof. apply conforms_dict_intro. induction d; now constructor. Qed.

(** The rows that conform to a model are dicts. *)
Lemma model_rows_are_dicts (by_name : bool) (fields : list Models.model_field)
    (rows : list pyval) :
  forallb (Models.conforms (Models.TModel by_name fields)) rows = true ->
  forallb (Models.conforms (Models.TDict Models.TAny)) rows = true.
Proof.
  induction rows as [|row rows IH]; [reflexivity|].
  cbn [forallb]. intros [Hrow Hrows]%andb_true_iff.
  rewrite (IH Hrows), andb_true_r.
  destruct row; try discriminate Hrow. apply conforms_any_dict.
Qed.

(** [round] returns a number. *)
Lemma round_numeric (v : pyval) (ndigits : Z) (r : pyval) :
  PyVal.round v ndigits = Ok r -> Models.conforms Models.TFloat r = true.
Proof.
  unfold PyVal.round. intros H.
  destruct (PyVal.as_num v) as [a|e]; [|discriminate H]. cbn [rbind] in H.
  destruct (PyNum.round a ndigits) as [x|e]; [|discriminate H]. cbn [rbind] in H.
  injection H as <-. now destruct x.
Qed.

Ltac model_fields :=
  apply conforms_model_intro;
  repeat (apply List.Forall_cons;
          [cbv [Models.required Models.required_alias Models.optional
                Models.optional_alias Models.lookup_field PyVal.assoc
                String.eqb Ascii.eqb Bool.eqb]|]);
  [..|apply List.Forall_nil].

Lemma balance_rows_conform (commodity : string) :
  forallb (Models.conforms Models.BalanceSheetRow) (_get_balance_sheet_fallback commodity)
  = true.
Proof.
  unfold _get_balance_sheet_fallback, balance_sheet_table. cbn [PyVal.assoc].
  repeat (destruct (String.eqb commodity _); [vm_compute; reflexivity|]).
  reflexivity.
Qed.

Lemma production_rows_conform (commodity : string) :
  forallb (Models.conforms Models.ProductionRow) (_get_production_fallback commodity)
  = true.
Proof.
  unfold _get_production_fallback, production_table. cbn [PyVal.assoc].
  repeat (destruct (String.eqb commodity _); [vm_compute; reflexivity|]).
  reflexivity.
Qed.

Lemma destination_rows_conform :
  forallb (Models.conforms Models.ExportDestination) destinations_with_fields = true.
Proof. vm_compute. reflexivity. Qed.

Lemma port_rows_conform :
  forallb (Models.conforms Models.ExportPort) ports_literal = true.
Proof. vm_compute. reflexivity. Qed.

Lemma soy_complex_rows_conform :
  forallb (Models.conforms Models.SoyComplexRow) soja_graos = true
  /\ forallb (Models.conforms Models.SoyComplexRow) farelo = true
  /\ forallb (Models.conforms Models.SoyComplexRow) oleo = true.
Proof. repeat split; vm_compute; reflexivity. Qed.

Lemma balance_response_conforms (commodity : string) (stamp : datetime)
    (rows : list pyval) :
  forallb (Models.conforms Models.BalanceSheetRow) rows = true ->
  Models.conforms Models.BalanceSheetResponse
    (balance_response commodity stamp (PyList rows)) = true.
Proof.
  intros Hrows. unfold Models.BalanceSheetResponse, balance_response.
  model_fields; try reflexivity. exact Hrows.
Qed.

Lemma export_row_dict_conforms (commodity : string) (year : Z) (i : nat)
    (name : string) (v r : float) (p : bool) :
  Models.conforms Models.MonthlyExportRow (export_row_dict commodity year i name v r p)
  = true.
Proof. unfold export_row_dict. now destruct (has_china_split commodity). Qed.

Lemma export_rows_conform (commodity : string) (year : Z) (rows : list pyval) :
  export_rows_of commodity year (PyList rows) ->
  forallb (Models.conforms Models.MonthlyExportRow) rows = true.
Proof.
  intros (clk & w0 & w1 & rows' & Hclk & Hfall & [= ->]).
  destruct (exports_fallback_rows clk Hclk commodity year w0)
    as (cm & pf & n0 & Hrun & _).
  rewrite Hfall in Hrun. injection Hrun as Hrows _. symmetry in Hrows.
  destruct (canned_rows_lookup _ _ _ _ _ Hrows) as [Hlen Hlook].
  apply forallb_forall. intros row Hin.
  apply list_elem_of_In, list_elem_of_lookup in Hin as [i Hi].
  assert (Hlt : (i < length (export_volumes commodity year))%nat).
  { rewrite <- Hlen. eapply lookup_lt_Some. exact Hi. }
  destruct (lookup_lt_is_Some_2 _ _ Hlt) as [vol Hvol].
  destruct (Hlook i vol Hvol) as (name & r & _ & _ & Hrow).
  rewrite Hi in Hrow. injection Hrow as ->.
  apply export_row_dict_conforms.
Qed.

Lemma exports_response_conforms (commodity : string) (year : Z) (include_china : bool)
    (rows : list pyval) (stamp : datetime) (resp : pyval) :
  exports_response commodity year include_china (PyList rows) stamp = Ok resp ->
  forallb (Models.conforms Models.MonthlyExportRow) rows = true ->
  Models.conforms Models.MonthlyExportsResponse resp = true.
Proof.
  unfold exports_response. cbn [PyVal.iter rbind]. intros H Hrows.
  destruct (ytd_total_of rows) as [t|e]; [|discriminate H]. cbn [rbind] in H.
  destruct (ytd_china_of include_china rows) as [c|e]; [|discriminate H].
  cbn [rbind] in H.
  destruct (PyVal.round t 2) as [tr|e] eqn:Htr; [|discriminate H]. cbn [rbind] in H.
  destruct (if PyVal.truthy c then PyVal.round c 2 else Ok PyNone) as [cr|e] eqn:Hcr;
    [|discriminate H].
  cbn [rbind] in H. injection H as <-.
  unfold Models.MonthlyExportsResponse.
  model_fields; try reflexivity.
  - exact Hrows.
  - exact (round_numeric _ _ _ Htr).
  - destruct (PyVal.truthy c).
    + apply round_numeric in Hcr. now destruct cr.
    + now injection Hcr as <-.
Qed.

Lemma price_row_conforms (year : Z) (loc : string) (ps : list Z) (i : nat) (p : Z)
    (row : pyval) :
  price_row year loc ps i p = Ok row ->
  Models.conforms Models.MonthlyPriceRow row = true.
Proof.
  unfold price_row. intros H.
  destruct (if (0 <? i)%nat then PyVal.index ps (i - 1) else Ok p) as [prev|e];
    [|discriminate H].
  cbn [rbind] in H.
  destruct (if PyVal.truthy (PyInt prev) then _ else _) as [mc|e]; [|discriminate H].
  cbn [rbind] in H.
  destruct (PyVal.index MONTH_NAMES i) as [name|e]; [|discriminate H]. cbn [rbind] in H.
  destruct (PyVal.truediv (PyInt p) (PyFloat 6)) as [q|e]; [|discriminate H].
  cbn [rbind] in H.
  destruct (PyVal.round q 2) as [usd|e] eqn:Hu; [|discriminate H]. cbn [rbind] in H.
  destruct (PyVal.round mc 1) as [mom|e] eqn:Hm; [|discriminate H]. cbn [rbind] in H.
  injection H as <-. unfold Models.MonthlyPriceRow.
  model_fields; try reflexivity.
  - apply round_numeric in Hu. now destruct usd.
  - apply round_numeric in Hm. now destruct mom.
Qed.

Lemma price_rows_conform (commodity : string) (year : Z) (location : option string)
    (rows : list pyval) :
  _get_prices_fallback commodity year location = Ok rows ->
  forallb (Models.conforms Models.MonthlyPriceRow) rows = true.
Proof.
  unfold _get_prices_fallback. intros H. apply forallb_forall. intros row Hin.
  destruct (concat_rows_lookup _ _ _ _ H Hin) as (loc & series & _ & Hs & Hrow).
  unfold location_rows in Hs.
  destruct (rmapi_ok_inv _ _ _ _ Hs) as [Hlen Hlook].
  apply list_elem_of_In, list_elem_of_lookup in Hrow as [i Hi].
  assert (Hlt : (i < length (location_prices
                               (default [] (PyVal.assoc commodity price_table)) loc))%nat).
  { rewrite <- Hlen. eapply lookup_lt_Some. exact Hi. }
  destruct (lookup_lt_is_Some_2 _ _ Hlt) as [p Hp].
  destruct (Hlook i p Hp) as (row' & Hrow' & Hi'). cbn [Nat.add] in Hrow'.
  rewrite Hi in Hi'. injection Hi' as <-.
  exact (price_row_conforms _ _ _ _ _ _ Hrow').
Qed.

Lemma dashboard_response_conforms (resp : pyval) :
  dashboard_sections resp ->
  Models.conforms Models.DashboardSummaryResponse resp = true.
Proof.
  intros (now & e1 & e2 & e3 & e4 & p1 & p2 & p3 & p4 & -> & [_ He1] & [_ He2]
          & [_ He3] & [_ He4] & Hp1 & Hp2 & Hp3 & Hp4 & _).
  apply export_rows_conform, model_rows_are_dicts in He1, He2, He3, He4.
  apply price_rows_conform, model_rows_are_dicts in Hp1, Hp2, Hp3, Hp4.
  unfold Models.DashboardSummaryResponse, dashboard_response.
  model_fields; try (vm_compute; reflexivity).
  - repeat (apply conforms_dict_intro;
            repeat (apply List.Forall_cons; [cbn [snd]|]); [..|apply List.Forall_nil]);
      assumption.
  - repeat (apply conforms_dict_intro;
            repeat (apply List.Forall_cons; [cbn [snd]|]); [..|apply List.Forall_nil]);
      assumption.
Qed.

Lemma balance_sheet_lengths (c : Main.Commodity) :
  (2 <= length (_get_balance_sheet_fallback (Main.value c)) <= 6)%nat.
Proof. destruct c; cbn; lia. Qed.

Lemma slice_from_length {A : Type} (l : list A) (n : Z) :
  1 <= n -> Z.of_nat (length (PyVal.slice_from l (- n))) = Z.min n (Z.of_nat (length l)).
Proof. intros Hn. rewrite slice_from_last by exact Hn. rewrite length_drop. lia. Qed.

Lemma slice_to_length {A : Type} (l : list A) (n : Z) :
  0 <= n -> Z.of_nat (length (PyVal.slice_to l n)) = Z.min n (Z.of_nat (length l)).
Proof. intros Hn. rewrite slice_to_front by exact Hn. rewrite length_take. lia. Qed.

Section Application.
Variable clock : nat -> datetime.
Variable str : exn -> string.
Hypothesis clock_valid : forall n, Datetime.valid (clock n) = true.

(** X22. No data route answers with an error, and what it returns fits
    the response model it is declared with: in a state with a
    well-formed cache, every data route, for every member of
    [Commodity] and every value of its other parameters, returns a body
    that has all the required fields of its [response_model], each
    field it has being of the declared type, row by row. *)
Theorem routes_return_conforming_bodies :
  forall (r : Main.data_route) (w : world),
    cache_wf (_cache (svc w)) ->
    exists (body : pyval) (w' : world),
      Main.endpoint clock str r w = (Main.Returned body, w')
      /\ Models.conforms (Main.response_model r) body = true.
Proof.
  intros r w Hwf.
  destruct r as [|c years| |c year ic|c year top_n|c year|c years state|c year location];
    cbn [Main.endpoint Main.response_model].
  - destruct (get_dashboard_summary_sections clock clock_valid w Hwf)
      as (resp & w' & Hrun & Hresp & _).
    unfold Main.get_dashboard_summary, Main.guarded. rewrite Hrun.
    exists resp, w'. split; [reflexivity|]. now apply dashboard_response_conforms.
  - unfold Main.get_balance_sheet, Main.guarded.
    destruct (_cache (svc w) !! ("balance_" +:+ Main.value c)) as [v|] eqn:Hk.
    + rewrite (cache_wf_balance _ _ _ Hwf Hk) in Hk.
      rewrite (get_balance_sheet_cached clock _ years _ _ Hk).
      eexists _, _. split; [reflexivity|].
      apply balance_response_conforms, forallb_drop, balance_rows_conform.
    + rewrite (get_balance_sheet_fresh clock _ years _ Hk).
      eexists _, _. split; [reflexivity|].
      apply balance_response_conforms, forallb_drop, balance_rows_conform.
  - unfold Main.get_soy_complex_balance, Main.guarded.
    eexists _, _. split; [reflexivity|].
    unfold Models.SoyComplexResponse. model_fields; try reflexivity.
  - destruct (get_monthly_exports_wf clock clock_valid (Main.value c) year ic w Hwf)
      as (resp & w' & rows & cm & pf & stamp & Hget & _ & _ & _ & Hresp & Hentry & _).
    unfold Main.get_monthly_exports, Main.guarded. rewrite Hget.
    exists resp, w'. split; [reflexivity|].
    apply (exports_response_conforms _ _ _ _ _ _ Hresp).
    exact (export_rows_conform _ _ _ Hentry).
  - unfold Main.get_exports_by_destination, Main.guarded.
    rewrite get_exports_by_destination_spec.
    eexists _, _. split; [reflexivity|].
    unfold Models.ExportsByDestinationResponse. model_fields; try reflexivity.
    apply forallb_take, destination_rows_conform.
  - unfold Main.get_exports_by_port, Main.guarded.
    eexists _, _. split; [reflexivity|].
    unfold Models.ExportsByPortResponse. model_fields; try reflexivity.
  - unfold Main.get_production, Main.guarded.
    eexists _, _. split; [reflexivity|].
    unfold Models.ProductionResponse. model_fields; try reflexivity.
    apply forallb_drop, production_rows_conform.
  - destruct (get_monthly_prices_spec clock (Main.value c) year location w)
      as (data & Hdata & Hrun).
    unfold Main.get_prices, Main.guarded. rewrite Hrun.
    eexists _, _. split; [reflexivity|].
    unfold Models.MonthlyPricesResponse. model_fields; try reflexivity.
    exact (price_rows_conform _ _ _ _ Hdata).
Qed.

(** X23. How many rows the routes return for parameters within the
    bounds they declare. The balance-sheet route ([1 <= years <= 20])
    returns [min(years, n)] rows, where [n], between 2 and 6, is the
    number of crop years stored for the commodity: never none, never
    more than [years]. The production route ([1 <= years <= 50])
    returns [min(years, 11)] rows for soybeans and corn and none for the
    three other commodities. The destinations route
    ([1 <= top_n <= 50]) returns [min(top_n, 10)] rows. *)
Theorem routes_row_counts :
  forall (c : Main.Commodity) (years years_p top_n year : Z) (state : option string)
         (w : world),
    cache_wf (_cache (svc w)) ->
    1 <= years <= 20 ->
    1 <= years_p <= 50 ->
    1 <= top_n <= 50 ->
    (exists (body : pyval) (w' : world) (rows : list pyval),
        Main.get_balance_sheet clock str c years w = (Main.Returned body, w')
        /\ response_field "data" body = Some (PyList rows)
        /\ Z.of_nat (length rows)
           = Z.min years (Z.of_nat (length (_get_balance_sheet_fallback (Main.value c))))
        /\ 1 <= Z.of_nat (length rows) <= years)
    /\ (exists (body : pyval) (w' : world) (rows : list pyval),
           Main.get_production clock str c years_p state w = (Main.Returned body, w')
           /\ response_field "data" body = Some (PyList rows)
           /\ Z.of_nat (length rows)
              = match c with
                | Main.SOYBEANS | Main.CORN => Z.min years_p 11
                | _ => 0
                end)
    /\ (exists (body : pyval) (w' : world) (rows : list pyval),
           Main.get_exports_by_destination clock str c year top_n w
           = (Main.Returned body, w')
           /\ response_field "data" body = Some (PyList rows)
           /\ Z.of_nat (length rows) = Z.min top_n 10).
Proof.
  intros c years years_p top_n year state w Hwf Hy Hp Ht.
  pose proof (balance_sheet_lengths c) as Hlen.
  split; [|split].
  - unfold Main.get_balance_sheet, Main.guarded.
    assert (H : exists resp w',
               get_balance_sheet clock (Main.value c) years w = (Ok resp, w')
               /\ response_field "data" resp
                  = Some (PyList (PyVal.slice_from
                                    (_get_balance_sheet_fallback (Main.value c))
                                    (- years)))).
    { destruct (_cache (svc w) !! ("balance_" +:+ Main.value c)) as [v|] eqn:Hk.
      - rewrite (cache_wf_balance _ _ _ Hwf Hk) in Hk.
        rewrite (get_balance_sheet_cached clock _ years _ _ Hk).
        eexists _, _. split; reflexivity.
      - rewrite (get_balance_sheet_fresh clock _ years _ Hk).
        eexists _, _. split; reflexivity. }
    destruct H as (resp & w' & -> & Hdata).
    eexists _, _, _. split; [reflexivity|]. split; [exact Hdata|].
    rewrite slice_from_length by lia. split; [reflexivity|lia].
  - unfold Main.get_production, Main.guarded.
    eexists _, _, _. split; [reflexivity|]. split; [reflexivity|].
    rewrite slice_from_length by lia. destruct c; cbn; lia.
  - unfold Main.get_exports_by_destination, Main.guarded.
    rewrite get_exports_by_destination_spec.
    eexists _, _, _. split; [reflexivity|]. split; [reflexivity|].
    rewrite slice_to_length by lia. reflexivity.
Qed.

(** X24. The refresh route checks the key before anything else. With a
    key other than the one expected (the value of [ADMIN_API_KEY], or
    the built-in default when the variable is not set) it raises a 401
    and schedules nothing. With the expected key it answers
    [refresh_started] and schedules one task, [refresh_all], which run
    in any state with valid timestamps succeeds, leaves exactly the six
    dashboard keys in the cache and writes the cache file. *)
Theorem refresh_data_authorization :
  forall (environ : list (string * string)) (api_key : string) (w : world),
    stamps_wf (last_updated (svc w)) ->
    let expected_key :=
      default "farmhandpro-refresh-2025" (PyVal.assoc "ADMIN_API_KEY" environ) in
    (api_key <> expected_key ->
     Main.refresh_data clock environ api_key
     = (Main.HTTPException 401 "Invalid API key", []))
    /\ (api_key = expected_key ->
        exists (task : M unit) (w' : world),
          Main.refresh_data clock environ api_key
          = (Main.Returned (PyDict [("status", PyStr "refresh_started")]), [task])
          /\ task w = (Ok tt, w')
          /\ dom (_cache (svc w')) = dashboard_keys
          /\ disk w' = Stored (saved_document (svc w'))).
Proof.
  intros environ api_key w Hstamps expected_key. unfold Main.refresh_data.
  fold expected_key. split.
  - intros Hne. destruct (String.eqb_spec api_key expected_key); [contradiction|].
    reflexivity.
  - intros ->. rewrite String.eqb_refl. cbn [negb].
    destruct (refresh_all_world clock clock_valid w Hstamps) as (w1 & Hrun & _ & Hdom).
    eexists _, _. split; [reflexivity|]. split; [exact Hrun|].
    split; [exact Hdom|reflexivity].
Qed.
End Application.

Lemma routes_return_conforming_bodies_witness :
  exists (body : pyval) (w' : world),
    Main.endpoint example_clock (fun _ => "") (Main.BalanceSheet Main.WHEAT 6)
      initial_world
    = (Main.Returned body, w')
    /\ Models.conforms Models.BalanceSheetResponse body = true.
Proof.
  exact (routes_return_conforming_bodies example_clock (fun _ => "") example_clock_valid
           (Main.BalanceSheet Main.WHEAT 6) initial_world cache_wf_empty).
Defined.

Lemma routes_row_counts_witness :
  exists (body : pyval) (w' : world) (rows : list pyval),
    Main.get_balance_sheet example_clock (fun _ => "") Main.SOY_OIL 6 initial_world
    = (Main.Returned body, w')
    /\ response_field "data" body = Some (PyList rows)
    /\ Z.of_nat (length rows) = 2.
Proof.
  destruct (routes_row_counts example_clock (fun _ => "") Main.SOY_OIL 6 10 10 2025 None
              initial_world cache_wf_empty ltac:(lia) ltac:(lia) ltac:(lia))
    as [(body & w' & rows & Hrun & Hdata & Hlen & _) _].
  exists body, w', rows. split; [exact Hrun|]. split; [exact Hdata|exact Hlen].
Defined.

Lemma refresh_data_authorization_witness :
  Main.refresh_data example_clock [] "guess"
  = (Main.HTTPException 401 "Invalid API key", []).
Proof.
  apply (refresh_data_authorization example_clock example_clock_valid [] "guess"
           initial_world (map_Forall_empty _)).
  discriminate.
Defined.

(** ** Cache files the service did not write *)

(** Loading a file that parses: the cache afterwards. *)
Lemma load_cache_stored (w : world) (doc : cache_file) :
  disk w = Stored doc ->
  exists w1 : world,
    _load_cache_from_disk w = (Ok tt, w1)
    /\ initialize w = (Ok tt, set_initialized true w1)
    /\ _cache (svc w1) = default ∅ (file_cache doc).
Proof.
  intros Hd. unfold initialize, bind, _load_cache_from_disk. rewrite Hd.
  unfold try_except, bind.
  destruct (load_stamps_spec (default ∅ (file_last_updated doc))
              (set_cache (default ∅ (file_cache doc)) w))
    as (r & lu' & Hrun & _).
  rewrite Hrun.
  exists (set_last_updated lu' (set_cache (default ∅ (file_cache doc)) w)).
  destruct r as [[]|e]; repeat split.
Qed.

Section UntrustedCacheFile.
Variable clock : nat -> datetime.
Variable str : exn -> string.
Hypothesis clock_valid : forall n, Datetime.valid (clock n) = true.

(** X25. The cache file is trusted as it is. If it holds, under the
    balance-sheet key of a commodity, a value that is not a sequence (a
    number, a boolean, [null]), start-up loads it without complaint, and
    from then on the balance sheet of that commodity raises a
    [TypeError], which the route turns into a 500, at every call and
    without changing anything, until [refresh_all] rebuilds the cache. *)
Theorem corrupt_cache_file_entry :
  forall (commodity : Main.Commodity) (years : Z) (w : world) (doc : cache_file)
         (c : gmap string pyval) (v : pyval),
    disk w = Stored doc ->
    file_cache doc = Some c ->
    c !! ("balance_" +:+ Main.value commodity) = Some v ->
    scalar v = true ->
    exists w1 : world,
      initialize w = (Ok tt, w1)
      /\ get_balance_sheet clock (Main.value commodity) years w1 = (Raise TypeError, w1)
      /\ Main.get_balance_sheet clock str commodity years w1
         = (Main.HTTPException 500 (str TypeError), w1)
      /\ (stamps_wf (last_updated (svc w1)) ->
          exists (w2 : world) (body : pyval) (w3 : world),
            refresh_all clock w1 = (Ok tt, w2)
            /\ Main.get_balance_sheet clock str commodity years w2
               = (Main.Returned body, w3)).
Proof.
  intros commodity years w doc c v Hd Hc Hv Hscalar.
  destruct (load_cache_stored w doc Hd) as (w1 & _ & Hinit & Hcache).
  rewrite Hc in Hcache. cbn [default from_option id] in Hcache.
  exists (set_initialized true w1). split; [exact Hinit|].
  assert (Hk : _cache (svc (set_initialized true w1))
               !! ("balance_" +:+ Main.value commodity) = Some v).
  { cbn [svc set_initialized _cache]. now rewrite Hcache. }
  assert (Hraise : get_balance_sheet clock (Main.value commodity) years
                     (set_initialized true w1)
                   = (Raise TypeError, set_initialized true w1)).
  { rewrite (get_balance_sheet_cached_any clock _ years _ _ Hk).
    destruct v; try discriminate Hscalar; reflexivity. }
  split; [exact Hraise|]. split.
  - unfold Main.get_balance_sheet, Main.guarded. now rewrite Hraise.
  - intros Hstamps.
    destruct (refresh_all_world clock clock_valid (set_initialized true w1) Hstamps)
      as (w2 & Hrun & Hsvc & _).
    eexists.
    destruct (get_balance_sheet_triple clock (Main.value commodity) years
                (set_disk (Stored (saved_document (svc w2))) w2) (proj1 Hsvc))
      as (body & w3 & Hget & _).
    exists body, w3. split; [exact Hrun|].
    unfold Main.get_balance_sheet, Main.guarded. now rewrite Hget.
Qed.

(** X26. A cached balance sheet that has no timestamp (the cache file
    can bring one in: its two maps need not have the same keys) is
    served with the current clock reading as [last_updated], and the
    reading is not recorded: the next call shows a later reading for
    the same data. *)
Theorem cached_without_timestamp :
  forall (commodity : string) (years : Z) (w : world) (rows : list pyval),
    _cache (svc w) !! ("balance_" +:+ commodity) = Some (PyList rows) ->
    last_updated (svc w) !! ("balance_" +:+ commodity) = None ->
    exists r1 r2 : pyval,
      get_balance_sheet clock commodity years w = (Ok r1, set_reads (S (reads w)) w)
      /\ get_balance_sheet clock commodity years (set_reads (S (reads w)) w)
         = (Ok r2, set_reads (S (S (reads w))) w)
      /\ response_field "last_updated" r1 = Some (PyDatetime (clock (reads w)))
      /\ response_field "last_updated" r2 = Some (PyDatetime (clock (S (reads w))))
      /\ response_field "data" r2 = response_field "data" r1.
Proof.
  intros commodity years w rows Hk Hlu.
  rewrite (get_balance_sheet_cached clock _ years _ _ Hk).
  rewrite (get_balance_sheet_cached clock _ years (set_reads (S (reads w)) w) _ Hk).
  cbn [svc set_reads reads]. rewrite Hlu.
  eexists _, _. repeat split.
Qed.
End UntrustedCacheFile.

Lemma corrupt_cache_file_entry_witness :
  exists w1 : world,
    initialize
      (set_disk (Stored {| file_cache := Some {[ "balance_corn" := PyInt 5 ]};
                           file_last_updated := None |}) initial_world)
    = (Ok tt, w1)
    /\ Main.get_balance_sheet example_clock (fun _ => "boom") Main.CORN 6 w1
       = (Main.HTTPException 500 "boom", w1).
Proof.
  destruct (corrupt_cache_file_entry example_clock (fun _ => "boom") example_clock_valid
              Main.CORN 6
              (set_disk (Stored {| file_cache := Some {[ "balance_corn" := PyInt 5 ]};
                                   file_last_updated := None |}) initial_world)
              _ _ (PyInt 5) eq_refl eq_refl (lookup_singleton_eq _ _) eq_refl)
    as (w1 & Hinit & _ & Hroute & _).
  exists w1. split; [exact Hinit|exact Hroute].
Defined.

Lemma cached_without_timestamp_witness :
  exists r1 r2 : pyval,
    get_balance_sheet example_clock "corn" 6
      (set_cache {[ "balance_corn" := PyList [] ]} initial_world)
    = (Ok r1, set_reads 1 (set_cache {[ "balance_corn" := PyList [] ]} initial_world))
    /\ response_field "last_updated" r1 = Some (PyDatetime (example_clock 0))
    /\ response_field "last_updated" r2 = Some (PyDatetime (example_clock 1)).
Proof.
  destruct (cached_without_timestamp example_clock "corn" 6
              (set_cache {[ "balance_corn" := PyList [] ]} initial_world) []
              (lookup_singleton_eq _ _) (lookup_empty _))
    as (r1 & r2 & H1 & _ & Hs1 & Hs2 & _).
  exists r1, r2. split; [exact H1|]. split; [exact Hs1|exact Hs2].
Defined.

